(** * McPAT converter: gem5 statistics and configuration to McPAT XML

    A shallow embedding of [mcpat_converter/custom_converter.py] (the
    fuller-template converter) and of [mcpat_converter/backup.py] (the
    minimal-template converter), with the properties of their
    specification stated and settled against the embedded code.

    Layout: the Python values and built-ins the two files use ([Py]),
    the part of [xml.etree.ElementTree] they use ([ET]), the state and
    exception monad the converters run in, then one module per source
    file, then the theorems. *)

From Stdlib Require Import ZArith String Ascii List Bool Lia.
From Stdlib Require Import SpecFloat.
From stdpp Require Import base option list strings gmap pretty.

Local Open Scope string_scope.
Local Open Scope Z_scope.
Local Open Scope list_scope.

Set Warnings "-register-all".

(** ** Python exceptions *)

Inductive exn_class :=
| KeyError | IndexError | TypeError | ValueError | AttributeError
| OverflowError | ZeroDivisionError | UnboundLocalError
| FileNotFoundError | OSError | JSONDecodeError.

Record exn := Raise { exn_cls : exn_class; exn_msg : string }.

Global Instance exn_class_eq_dec : EqDecision exn_class.
Proof. solve_decision. Defined.

(** [res A] is the outcome of evaluating a Python expression: a value or a
    raised exception. *)
Inductive res (A : Type) :=
| Ok (a : A)
| Err (e : exn).
Arguments Ok {A} a.
Arguments Err {A} e.

Definition res_bind {A B} (r : res A) (k : A → res B) : res B :=
  match r with Ok a => k a | Err e => Err e end.

Global Instance res_ret : MRet res := λ A a, Ok a.
Global Instance res_mbind : MBind res := λ A B k r, res_bind r k.

Definition is_Ok {A} (r : res A) : Prop := ∃ a, r = Ok a.

(** ** Characters and strings

    A Python [str] is a sequence of code points.  It is modelled by
    [string], whose characters are the code points below 256: the texts
    of this development hold no character from U+0100 on.  On these
    characters the classes below are those of Python: [str.isspace] and
    the class [\s] hold for 9 to 13, 28 to 32, 133 (next line) and 160 (no-break
    space), and the class [\d] for the ten digits [0] to [9] (the other
    decimal digits of Unicode are all above U+0100). *)

Definition chars (s : string) : list ascii := list_ascii_of_string s.
Definition str_of (l : list ascii) : string := string_of_list_ascii l.

Definition code (c : ascii) : N := N_of_ascii c.

(** [str.isspace], and the class [\s] of [re] on [str] patterns; it is
    also what [str.strip()] removes and [str.split()] splits at. *)
Definition is_space (c : ascii) : bool :=
  let n := code c in
  ((9 <=? n) && (n <=? 13) || (28 <=? n) && (n <=? 32)
   || (n =? 133) || (n =? 160))%N.

(** The white space [int(str)] and [float(str)] skip at both ends of the
    text: the C locale's (9 to 13, and 32), and the white space above
    U+007F, which they turn into blanks first.  The separators 28 to 31
    are not skipped. *)
Definition num_space (c : ascii) : bool :=
  let n := code c in
  ((9 <=? n) && (n <=? 13) || (n =? 32) || (n =? 133) || (n =? 160))%N.

(** The characters of the ASCII range. *)
Definition is_ascii (c : ascii) : bool := (code c <? 128)%N.

(** A text of the ASCII range. *)
Definition ascii_text (s : string) : Prop :=
  Forall (λ c, is_ascii c = true) (list_ascii_of_string s).

(** The class [\d]: a decimal digit. *)
Definition is_digit (c : ascii) : bool :=
  let n := code c in ((48 <=? n) && (n <=? 57))%N.

Definition is_alpha (c : ascii) : bool :=
  let n := code c in
  ((65 <=? n) && (n <=? 90) || (97 <=? n) && (n <=? 122))%N.

Definition digit_val (c : ascii) : Z := Z.of_N (code c) - 48.

Definition lower (c : ascii) : ascii :=
  let n := code c in
  if ((65 <=? n) && (n <=? 90))%N then ascii_of_N (n + 32) else c.

Definition ascii_eqb (a b : ascii) : bool := Ascii.eqb a b.

(** [str.strip()]: whitespace removed at both ends. *)
Fixpoint lstrip (l : list ascii) : list ascii :=
  match l with
  | c :: l' => if is_space c then lstrip l' else l
  | [] => []
  end.

Definition strip (l : list ascii) : list ascii :=
  rev (lstrip (rev (lstrip l))).

(** The text without what [int(str)] and [float(str)] skip at its ends. *)
Fixpoint num_lstrip (l : list ascii) : list ascii :=
  match l with
  | c :: l' => if num_space c then num_lstrip l' else l
  | [] => []
  end.

Definition num_strip (l : list ascii) : list ascii :=
  rev (num_lstrip (rev (num_lstrip l))).

(** [not s.strip()] *)
Definition blank (l : list ascii) : bool :=
  match strip l with [] => true | _ => false end.

(** [sub in s] for strings: [sub] occurs in [s]. *)
Fixpoint prefix_of (p l : list ascii) : bool :=
  match p, l with
  | [], _ => true
  | a :: p', b :: l' => ascii_eqb a b && prefix_of p' l'
  | _ :: _, [] => false
  end.

Fixpoint contains (p l : list ascii) : bool :=
  prefix_of p l || match l with [] => false | _ :: l' => contains p l' end.

(** [s.replace(old, '')] for a one-character [old]. *)
Definition remove_char (c : ascii) (l : list ascii) : list ascii :=
  List.filter (λ x, negb (ascii_eqb x c)) l.

Definition join (sep : string) (l : list string) : string :=
  match l with
  | [] => EmptyString
  | x :: l' => fold_left (λ acc y, acc +:+ sep +:+ y) l' x
  end.

(** ** Python [float]

    A Python float is an IEEE 754 binary64 number.  It is modelled by the
    standard library's [spec_float] at precision 53 and maximal exponent
    1024, with its correctly rounded operations. *)
Module Float.

Definition float := spec_float.
Definition prec : Z := 53.
Definition emax : Z := 1024.

Definition add : float → float → float := SFadd prec emax.
Definition div : float → float → float := SFdiv prec emax.

Definition eqb (x y : float) : bool :=
  match x, y with
  | S754_zero a, S754_zero b => Bool.eqb a b
  | S754_infinity a, S754_infinity b => Bool.eqb a b
  | S754_nan, S754_nan => true
  | S754_finite a m e, S754_finite b n f =>
      Bool.eqb a b && Pos.eqb m n && Z.eqb e f
  | _, _ => false
  end.

(** The float nearest to [a / b] (ties to even) for integers [0 ≤ a] and
    [0 < b], with sign [neg]; infinite when the quotient is too large. *)
Definition of_ratio (neg : bool) (a b : Z) : float :=
  match a with
  | Z0 => S754_zero neg
  | _ =>
      let '(q, e, l) := SFdiv_core_binary prec emax a 0 b 0 in
      binary_round_aux prec emax neg q e l
  end.

(** The float nearest to [m * 10^e]. *)
Definition of_decimal (neg : bool) (m e : Z) : float :=
  if 0 <=? e then of_ratio neg (m * 10 ^ e) 1
  else of_ratio neg m (10 ^ (- e)).

Definition of_Z (z : Z) : float := of_ratio (z <? 0) (Z.abs z) 1.

Definition is_finite (x : float) : bool :=
  match x with
  | S754_zero _ | S754_finite _ _ _ => true
  | _ => false
  end.

(** Truncation towards zero of a finite float. *)
Definition trunc (x : float) : option Z :=
  match x with
  | S754_zero _ => Some 0
  | S754_finite s m e => Some (cond_Zopp s (Z.shiftl (Zpos m) e))
  | _ => None
  end.

(** *** [repr(float)]: the shortest decimal string that reads back as
    the same float, in Python's layout. *)

Definition ndigits (n : Z) : Z := Z.of_nat (String.length (pretty n)).

(** For a positive rational [num / den], the [p] with
    [10^(p-1) ≤ num/den < 10^p]. *)
Definition decimal_point (num den : Z) : Z :=
  let p0 := ndigits num - ndigits den in
  let ge := if 0 <=? p0 then den * 10 ^ p0 <=? num
            else den <=? num * 10 ^ (- p0) in
  if ge then p0 + 1 else p0.

(** The [n]-digit candidates around [num / den]: the digits [c] and the
    exponent [k] of [c * 10^k], the nearest candidate first. *)
Definition candidates (num den p n : Z) : list (Z * Z) :=
  let k := p - n in
  let '(a, b) := if 0 <=? k then (num, den * 10 ^ k)
                 else (num * 10 ^ (- k), den) in
  let lo := a / b in
  let r := a mod b in
  if r =? 0 then [(lo, k)]
  else match 2 * r ?= b with
       | Lt => [(lo, k); (lo + 1, k)]
       | Gt => [(lo + 1, k); (lo, k)]
       | Eq => if Z.even lo then [(lo, k); (lo + 1, k)]
               else [(lo + 1, k); (lo, k)]
       end.

Fixpoint shortest (fuel : nat) (x : float) (num den p n : Z) : Z * Z :=
  let cs := candidates num den p n in
  match List.filter (λ c, eqb (of_decimal false (fst c) (snd c)) x) cs with
  | c :: _ => c
  | [] =>
      match fuel with
      | O => match cs with c :: _ => c | [] => (0, 0) end
      | S fuel' => shortest fuel' x num den p (n + 1)
      end
  end.

Fixpoint strip_zeros (l : list ascii) : list ascii :=
  match l with
  | [] => []
  | c :: l' =>
      match strip_zeros l' with
      | [] => if ascii_eqb c "0" then [] else [c]
      | r => c :: r
      end
  end.

Definition zeros (n : Z) : list ascii := replicate (Z.to_nat n) "0"%char.

Definition pad2 (s : string) : string :=
  if (String.length s <? 2)%nat then "0" +:+ s else s.

(** Layout of the digits [ds] with the decimal point after [decpt]
    digits: exponent notation when [decpt > 16] or [decpt < -3]. *)
Definition layout (ds : list ascii) (decpt : Z) : string :=
  let len := Z.of_nat (length ds) in
  if (16 <? decpt) || (decpt <? -3) then
    let ex := decpt - 1 in
    let mant := match ds with
                | [] => []
                | [d] => [d]
                | d :: rest => d :: "."%char :: rest
                end in
    str_of mant +:+ "e" +:+ (if ex <? 0 then "-" else "+")
      +:+ pad2 (pretty (Z.abs ex))
  else if decpt <=? 0 then
    str_of ("0" :: "." :: zeros (- decpt) ++ ds)%char
  else if len <=? decpt then
    str_of (ds ++ zeros (decpt - len) ++ ["."; "0"]%char)
  else
    str_of (take (Z.to_nat decpt) ds ++ "."%char :: drop (Z.to_nat decpt) ds).

Definition repr (x : float) : string :=
  match x with
  | S754_nan => "nan"
  | S754_infinity s => if s then "-inf" else "inf"
  | S754_zero s => if s then "-0.0" else "0.0"
  | S754_finite s m e =>
      let '(num, den) := if 0 <=? e then (Zpos m * 2 ^ e, 1)
                         else (Zpos m, 2 ^ (- e)) in
      let p := decimal_point num den in
      let '(c, k) := shortest 17 (S754_finite false m e) num den p 1 in
      let ds := strip_zeros (chars (pretty c)) in
      let decpt := k + ndigits c in
      (if s then "-" else EmptyString) +:+ layout ds decpt
  end.

End Float.

(** ** Python values and the built-ins the converters call

    [value] covers what [json.load] returns and what the converters pass
    around: [None], [bool], [int], [float], [str], [list] and [dict] with
    string keys.  A [dict] is a list of bindings with distinct keys, in
    insertion order; a lookup returns the first binding of the key. *)
Module Py.

Import Float.

Inductive value :=
| VNone
| VBool (b : bool)
| VInt (z : Z)
| VFloat (f : float)
| VStr (s : string)
| VList (l : list value)
| VDict (d : list (string * value)).

Definition raise {A} (c : exn_class) (msg : string) : res A :=
  Err (Raise c msg).

Definition type_name (v : value) : string :=
  match v with
  | VNone => "NoneType" | VBool _ => "bool" | VInt _ => "int"
  | VFloat _ => "float" | VStr _ => "str" | VList _ => "list"
  | VDict _ => "dict"
  end.

Definition isinstance_list (v : value) : bool :=
  match v with VList _ => true | _ => false end.
Definition isinstance_dict (v : value) : bool :=
  match v with VDict _ => true | _ => false end.
Definition isinstance_str (v : value) : bool :=
  match v with VStr _ => true | _ => false end.

(** *** Numeric literals read by [float(str)] and [int(str)] *)

(** Underscores are allowed only between two digits. *)
Fixpoint underscores_ok (prev : ascii) (l : list ascii) : bool :=
  match l with
  | [] => negb (ascii_eqb prev "_")
  | c :: l' =>
      (if ascii_eqb c "_" then is_digit prev
       else if ascii_eqb prev "_" then is_digit c else true)
      && underscores_ok c l'
  end.

Definition split_sign (l : list ascii) : bool * list ascii :=
  match l with
  | c :: l' =>
      if ascii_eqb c "-" then (true, l')
      else if ascii_eqb c "+" then (false, l') else (false, l)
  | [] => (false, [])
  end.

Fixpoint span_digits (l : list ascii) : list ascii * list ascii :=
  match l with
  | c :: l' =>
      if is_digit c then let '(d, r) := span_digits l' in (c :: d, r)
      else ([], l)
  | [] => ([], [])
  end.

Definition digits_val (l : list ascii) : Z :=
  fold_left (λ acc c, 10 * acc + digit_val c) l 0.

Definition is_e (c : ascii) : bool := ascii_eqb (lower c) "e".

Definition float_of_chars (l : list ascii) : option float :=
  let '(neg, body) := split_sign l in
  let low := str_of (map lower body) in
  if String.eqb low "inf" || String.eqb low "infinity" then
    Some (S754_infinity neg)
  else if String.eqb low "nan" then Some S754_nan
  else
    let '(ip, r1) := span_digits body in
    let '(fp, r2) := match r1 with
                     | c :: r => if ascii_eqb c "." then span_digits r
                                 else ([], r1)
                     | [] => ([], [])
                     end in
    match ip ++ fp with
    | [] => None
    | ds =>
        let m := digits_val ds in
        let sh := Z.of_nat (length fp) in
        match r2 with
        | [] => Some (of_decimal neg m (- sh))
        | c :: r3 =>
            if is_e c then
              let '(eneg, r4) := split_sign r3 in
              match span_digits r4 with
              | ((_ :: _) as ed, []) =>
                  Some (of_decimal neg m (cond_Zopp eneg (digits_val ed) - sh))
              | _ => None
              end
            else None
        end
    end.

(** [float(s)] for a string: [None] is Python's [ValueError]. *)
Definition float_of_string (s : string) : option float :=
  let l := num_strip (chars s) in
  if underscores_ok "000" l
  then float_of_chars (remove_char "_" l) else None.

(** [sys.get_int_max_str_digits()]: the most digits [int(str)] reads. *)
Definition max_str_digits : nat := 4300.

(** The digits and underscores a text starts with. *)
Fixpoint span_literal (l : list ascii) : list ascii :=
  match l with
  | c :: l' =>
      if is_digit c || ascii_eqb c "_" then c :: span_literal l' else []
  | [] => []
  end.

(** The number of digits of the literal a text starts with, after its
    leading white space and its sign, when that is more than [int(str)]
    reads: the digits are counted, whatever follows them, once the
    underscores among them are found in order. *)
Definition over_limit (s : string) : option nat :=
  let '(_, body) := split_sign (num_lstrip (chars s)) in
  let literal := span_literal body in
  let n := length (remove_char "_" literal) in
  if underscores_ok "000" literal && (max_str_digits <? n)%nat
  then Some n else None.

(** [int(s)] for a string, base 10: [None] is Python's [ValueError]. *)
Definition int_of_string (s : string) : option Z :=
  match over_limit s with
  | Some _ => None
  | None =>
      let l := num_strip (chars s) in
      if underscores_ok "000" l then
        let '(neg, body) := split_sign (remove_char "_" l) in
        match span_digits body with
        | ((_ :: _) as ds, []) => Some (cond_Zopp neg (digits_val ds))
        | _ => None
        end
      else None
  end.

(** *** [repr] and [str] *)

Definition hex_digit (n : N) : ascii :=
  if (n <? 10)%N then ascii_of_N (48 + n) else ascii_of_N (87 + n).

(** [repr] of a character inside the quotes [q]: the backslash, the
    quote and what is not printable (the control characters, and 127 to
    160 and 173) are escaped. *)
Definition escape_char (q : ascii) (c : ascii) : list ascii :=
  let n := code c in
  if ascii_eqb c "\" then ["\"; "\"]%char
  else if ascii_eqb c q then ["\"%char; q]
  else if (n =? 9)%N then ["\"; "t"]%char
  else if (n =? 10)%N then ["\"; "n"]%char
  else if (n =? 13)%N then ["\"; "r"]%char
  else if ((n <? 32) || (127 <=? n) && (n <=? 160) || (n =? 173))%N then
    ["\"; "x"; hex_digit (n / 16); hex_digit (n mod 16)]%char
  else [c].

(** The double quote character. *)
Definition dquote : ascii := ascii_of_nat 34.

(** [repr(s)] for a string: single quotes, unless [s] has a single quote
    and no double quote. *)
Definition str_repr (s : string) : string :=
  let l := chars s in
  let q := if existsb (ascii_eqb "'") l && negb (existsb (ascii_eqb dquote) l)
           then dquote else "'"%char in
  str_of (q :: concat (map (escape_char q) l) ++ [q]).

Fixpoint py_repr (v : value) : string :=
  match v with
  | VNone => "None"
  | VBool b => if b then "True" else "False"
  | VInt z => pretty z
  | VFloat f => Float.repr f
  | VStr s => str_repr s
  | VList l => "[" +:+ join ", " (map py_repr l) +:+ "]"
  | VDict d =>
      "{" +:+ join ", "
        (map (λ kv, let '(k, x) := kv in str_repr k +:+ ": " +:+ py_repr x) d)
      +:+ "}"
  end.

(** [str(v)], which is also how an f-string formats [{v}]. *)
Definition py_str (v : value) : string :=
  match v with
  | VStr s => s
  | _ => py_repr v
  end.

(** The values [str] and [repr] print as above: an integer of more than
    [max_str_digits] digits makes them raise [ValueError] instead, and so
    does, with [RecursionError], a nesting of lists and dictionaries
    deeper than the interpreter's stack allows.  [printable depth v]: the
    integers of [v] have at most [max_str_digits] digits and [v] is
    nested at most [depth] deep. *)
Fixpoint printable (depth : nat) (v : value) : bool :=
  match v with
  | VInt z => Z.abs z <? 10 ^ Z.of_nat max_str_digits
  | VList l =>
      match depth with
      | O => false
      | S d => forallb (printable d) l
      end
  | VDict kvs =>
      match depth with
      | O => false
      | S d => forallb (λ kv, printable d kv.2) kvs
      end
  | _ => true
  end.

(** Nested at most 100 deep, far from the 1000 frames of the interpreter's
    stack: what [json.load] reads from a configuration file of ordinary
    shape. *)
Definition plain (v : value) : bool := printable 100 v.

(** [str(i)] for an index or a count [i]. *)
Definition str_nat (i : nat) : string := py_str (VInt (Z.of_nat i)).

(** *** Conversions *)

Definition float_of_int (z : Z) : res float :=
  let f := of_Z z in
  if is_finite f then Ok f
  else raise OverflowError "int too large to convert to float".

Definition bool_int (b : bool) : Z := if b then 1 else 0.

(** [float(v)] *)
Definition py_float (v : value) : res float :=
  match v with
  | VFloat f => Ok f
  | VInt z => float_of_int z
  | VBool b => float_of_int (bool_int b)
  | VStr s =>
      match float_of_string s with
      | Some f => Ok f
      | None => raise ValueError
                  ("could not convert string to float: " +:+ str_repr s)
      end
  | _ => raise TypeError
           ("float() argument must be a string or a real number, not '"
              +:+ type_name v +:+ "'")
  end.

Definition int_of_float (f : float) : res Z :=
  match f with
  | S754_nan => raise ValueError "cannot convert float NaN to integer"
  | S754_infinity _ =>
      raise OverflowError "cannot convert float infinity to integer"
  | _ => match trunc f with Some z => Ok z | None => Ok 0 end
  end.

(** The message of the [ValueError] of [int(s)]. *)
Definition int_error (s : string) : string :=
  match over_limit s with
  | Some n =>
      "Exceeds the limit (4300 digits) for integer string conversion: value has "
        +:+ pretty (Z.of_nat n)
        +:+ " digits; use sys.set_int_max_str_digits() to increase the limit"
  | None => "invalid literal for int() with base 10: " +:+ str_repr s
  end.

(** [int(v)] *)
Definition py_int (v : value) : res Z :=
  match v with
  | VInt z => Ok z
  | VBool b => Ok (bool_int b)
  | VFloat f => int_of_float f
  | VStr s =>
      match int_of_string s with
      | Some z => Ok z
      | None => raise ValueError (int_error s)
      end
  | _ => raise TypeError
           ("int() argument must be a string, a bytes-like object or a real number, not '"
              +:+ type_name v +:+ "'")
  end.

(** *** Arithmetic *)

Inductive number := NInt (z : Z) | NFloat (f : float).

Definition as_number (v : value) : option number :=
  match v with
  | VInt z => Some (NInt z)
  | VBool b => Some (NInt (bool_int b))
  | VFloat f => Some (NFloat f)
  | _ => None
  end.

Definition number_float (n : number) : res float :=
  match n with NInt z => float_of_int z | NFloat f => Ok f end.

Definition is_zero (f : float) : bool :=
  match f with S754_zero _ => true | _ => false end.

(** [a + b] *)
Definition py_add (a b : value) : res value :=
  match as_number a, as_number b with
  | Some (NInt x), Some (NInt y) => Ok (VInt (x + y))
  | Some x, Some y =>
      res_bind (number_float x) (λ fx,
      res_bind (number_float y) (λ fy, Ok (VFloat (Float.add fx fy))))
  | _, _ =>
      match a, b with
      | VStr s, VStr t => Ok (VStr (s +:+ t))
      | VList l, VList m => Ok (VList (l ++ m))
      | _, _ => raise TypeError
                  ("unsupported operand type(s) for +: '" +:+ type_name a
                     +:+ "' and '" +:+ type_name b +:+ "'")
      end
  end.

(** [a / b] *)
Definition py_truediv (a b : value) : res float :=
  match as_number a, as_number b with
  | Some (NInt x), Some (NInt y) =>
      if y =? 0 then raise ZeroDivisionError "division by zero"
      else
        let f := of_ratio (xorb (x <? 0) (y <? 0)) (Z.abs x) (Z.abs y) in
        if is_finite f then Ok f
        else raise OverflowError "integer division result too large for a float"
  | Some x, Some y =>
      res_bind (number_float x) (λ fx,
      res_bind (number_float y) (λ fy,
        if is_zero fy then raise ZeroDivisionError "float division by zero"
        else Ok (Float.div fx fy)))
  | _, _ => raise TypeError
              ("unsupported operand type(s) for /: '" +:+ type_name a
                 +:+ "' and '" +:+ type_name b +:+ "'")
  end.

(** *** Containers *)

Fixpoint dict_lookup (d : list (string * value)) (k : string) : option value :=
  match d with
  | [] => None
  | (k', v) :: d' => if String.eqb k' k then Some v else dict_lookup d' k
  end.

(** [v.get(k, default)] *)
Definition py_get (v : value) (k : string) (default : value) : res value :=
  match v with
  | VDict d => Ok (match dict_lookup d k with Some x => x | None => default end)
  | _ => raise AttributeError
           ("'" +:+ type_name v +:+ "' object has no attribute 'get'")
  end.

Definition index_of (k : value) : option Z :=
  match k with
  | VInt z => Some z
  | VBool b => Some (bool_int b)
  | _ => None
  end.

(** Position [i] of a sequence of length [n], a negative [i] counting
    from the end. *)
Definition position (i : Z) (n : nat) : option nat :=
  let j := if i <? 0 then i + Z.of_nat n else i in
  if (0 <=? j) && (j <? Z.of_nat n) then Some (Z.to_nat j) else None.

(** [v[k]] *)
Definition getitem (v k : value) : res value :=
  match v with
  | VDict d =>
      match k with
      | VStr s =>
          match dict_lookup d s with
          | Some x => Ok x
          | None => raise KeyError (str_repr s)
          end
      | VList _ | VDict _ =>
          raise TypeError ("unhashable type: '" +:+ type_name k +:+ "'")
      | _ => raise KeyError (py_repr k)
      end
  | VList l =>
      match index_of k with
      | Some i =>
          match position i (length l) with
          | Some j => match nth_error l j with
                      | Some x => Ok x
                      | None => raise IndexError "list index out of range"
                      end
          | None => raise IndexError "list index out of range"
          end
      | None => raise TypeError
                  ("list indices must be integers or slices, not "
                     +:+ type_name k)
      end
  | VStr s =>
      match index_of k with
      | Some i =>
          match position i (String.length s) with
          | Some j => match nth_error (chars s) j with
                      | Some c => Ok (VStr (String c EmptyString))
                      | None => raise IndexError "string index out of range"
                      end
          | None => raise IndexError "string index out of range"
          end
      | None => raise TypeError
                  ("string indices must be integers, not '"
                     +:+ type_name k +:+ "'")
      end
  | _ => raise TypeError
           ("'" +:+ type_name v +:+ "' object is not subscriptable")
  end.

End Py.

(** ** The part of [xml.etree.ElementTree] the converters use

    An element has a tag, an attribute dictionary and children; the text
    between elements (white space in both templates) is not kept.  The
    converters never add or remove an element, so an element object is
    identified by its path from the root (child positions). *)
Module ET.

Inductive Element :=
| Elem (tag : string) (attrib : list (string * string))
       (children : list Element).

Definition tag (e : Element) : string :=
  match e with Elem t _ _ => t end.
Definition attrib (e : Element) : list (string * string) :=
  match e with Elem _ a _ => a end.
Definition children (e : Element) : list Element :=
  match e with Elem _ _ c => c end.

Definition path := list nat.

(** [attrib.get(k)] and [attrib[k] = v] on the attribute dictionary. *)
Fixpoint attr_get (a : list (string * string)) (k : string) : option string :=
  match a with
  | [] => None
  | (k', v) :: a' => if String.eqb k' k then Some v else attr_get a' k
  end.

Fixpoint attr_set (a : list (string * string)) (k v : string)
  : list (string * string) :=
  match a with
  | [] => [(k, v)]
  | (k', v') :: a' =>
      if String.eqb k' k then (k, v) :: a' else (k', v') :: attr_set a' k v
  end.

(** The element at a path. *)
Fixpoint subtree (e : Element) (p : path) : option Element :=
  match p with
  | [] => Some e
  | i :: p' =>
      match children e !! i with
      | Some c => subtree c p'
      | None => None
      end
  end.

(** In-place change of the element at a path. *)
Fixpoint update (f : Element → Element) (p : path) (e : Element) : Element :=
  match p with
  | [] => f e
  | i :: p' =>
      Elem (tag e) (attrib e) (alter (update f p') i (children e))
  end.

Definition set_attr (k v : string) (e : Element) : Element :=
  Elem (tag e) (attr_set (attrib e) k v) (children e).

(** The test of [.//tg[@name='nm']] on one element. *)
Definition matches (tg nm : string) (e : Element) : bool :=
  String.eqb (tag e) tg &&
  match attr_get (attrib e) "name" with
  | Some x => String.eqb x nm
  | None => false
  end.

(** The first of the elements [cs], each followed by its descendants (found
    by [rec]), that passes [test]; [i] is the position of the head of
    [cs] among its siblings. *)
Fixpoint first_match (test : Element → bool) (rec : Element → option path)
    (cs : list Element) (i : nat) : option path :=
  match cs with
  | [] => None
  | c :: cs' =>
      if test c then Some [i]
      else match rec c with
           | Some p => Some (i :: p)
           | None => first_match test rec cs' (S i)
           end
  end.

(** [e.find(".//tg[@name='nm']")]: the first proper descendant of [e],
    in document order, that passes the test; its path from [e]. *)
Fixpoint find_desc (tg nm : string) (e : Element) : option path :=
  match e with
  | Elem _ _ cs => first_match (matches tg nm) (find_desc tg nm) cs O
  end.

(** [find] from the element at path [p] of the tree [t]: the path, from
    the root, of what it finds. *)
Definition find_in (t : Element) (p : path) (tg nm : string) : option path :=
  match subtree t p with
  | Some e => (p ++.) <$> find_desc tg nm e
  | None => None
  end.

(** The truth value of the element at path [p]: it has children. *)
Definition truth_in (t : Element) (p : path) : bool :=
  match subtree t p with
  | Some e => negb (Nat.eqb (length (children e)) 0)
  | None => false
  end.

(** The [value] attribute of the element at a path. *)
Definition value_at (t : Element) (p : path) : option string :=
  match subtree t p with
  | Some x => attr_get (attrib x) "value"
  | None => None
  end.

(** The [value] attribute of the first descendant of the element at [p]
    that passes the test: what a reader of the output finds in the field
    [nm] of that component. *)
Definition field (t : Element) (p : path) (tg nm : string) : option string :=
  match find_in t p tg nm with
  | Some q => value_at t q
  | None => None
  end.

(** A sequence of assignments to [value] attributes, oldest first. *)
Definition apply_writes (ws : list (path * string)) (t : Element) : Element :=
  fold_left (λ t w, update (set_attr "value" w.2) w.1 t) ws t.

(** The value last assigned at path [p]. *)
Fixpoint last_write (ws : list (path * string)) (p : path) : option string :=
  match ws with
  | [] => None
  | (q, v) :: ws' =>
      match last_write ws' p with
      | Some x => Some x
      | None => if bool_decide (q = p) then Some v else None
      end
  end.

(** The tree without its [value] attributes: what [find] looks at. *)
Fixpoint skeleton (e : Element) : Element :=
  match e with
  | Elem t a cs =>
      Elem t (List.filter (λ kv, negb (String.eqb kv.1 "value")) a)
        (map skeleton cs)
  end.

(** The [name] attributes of the descendants with tag [tg]. *)
Fixpoint names (tg : string) (e : Element) : list string :=
  match e with
  | Elem _ _ cs =>
      concat (map (λ c,
        (if String.eqb (tag c) tg then
           match attr_get (attrib c) "name" with
           | Some x => [x]
           | None => []
           end
         else []) ++ names tg c) cs)
  end.

End ET.

(** ** The converters' effects

    A converter reads and changes the element tree it parsed from its
    template, prints to standard output, and may raise.  What was printed
    and changed before an exception stays. *)

Record state := State {
  root : ET.Element;          (* the tree of [ET.fromstring(template)] *)
  stdout : list string        (* the lines printed so far *)
}.

Definition M (A : Type) : Type := state → res A * state.

Definition run {A} (m : M A) (s : state) : res A * state := m s.

Global Instance M_ret : MRet M := λ A a s, (Ok a, s).
Global Instance M_bind : MBind M := λ A B k m s,
  match m s with
  | (Ok a, s') => k a s'
  | (Err e, s') => (Err e, s')
  end.

Definition lift {A} (r : res A) : M A := λ s, (r, s).

Definition raise {A} (c : exn_class) (msg : string) : M A :=
  lift (Py.raise c msg).

(** [print(line)] *)
Definition print (line : string) : M unit :=
  λ s, (Ok tt, State (root s) (stdout s ++ [line])).

(** [try: body  except (classes): handler] *)
Definition try_except {A} (body : M A) (classes : list exn_class)
    (handler : M A) : M A :=
  λ s, match body s with
       | (Err e, s') =>
           if bool_decide (exn_cls e ∈ classes) then handler s'
           else (Err e, s')
       | r => r
       end.

(** [for i in range(n): body(i)] *)
Fixpoint for_from (i : nat) (n : nat) (body : nat → M unit) : M unit :=
  match n with
  | O => mret tt
  | S n' => body i ;; for_from (S i) n' body
  end.

Definition for_range (n : nat) (body : nat → M unit) : M unit :=
  for_from 0 n body.

(** A variable that is assigned under a condition: reading it unassigned
    raises. *)
Definition local {A} (name : string) (v : option A) : M A :=
  match v with
  | Some a => mret a
  | None => raise UnboundLocalError
              ("cannot access local variable '" +:+ name
                 +:+ "' where it is not associated with a value")
  end.

(** A node variable holds an element (its path) or [None]. *)
Definition node := option ET.path.

(** [root = ET.ElementTree(ET.fromstring(template)).getroot()] *)
Definition fromstring (template : ET.Element) : M node :=
  λ s, (Ok (Some []), State template (stdout s)).

(** [n.find(".//tg[@name='nm']")] *)
Definition find (n : node) (tg nm : string) : M node :=
  match n with
  | None => raise AttributeError "'NoneType' object has no attribute 'find'"
  | Some p =>
      λ s, (Ok (ET.find_in (root s) p tg nm), s)
  end.

(** [if n:] for a node variable: [None] is false, and an element is true
    when it has children. *)
Definition truth (n : node) : M bool :=
  match n with
  | None => mret false
  | Some p =>
      λ s, (Ok (ET.truth_in (root s) p), s)
  end.

(** [n.attrib[k] = v] *)
Definition set_attrib (n : node) (k v : string) : M unit :=
  match n with
  | None => raise AttributeError "'NoneType' object has no attribute 'attrib'"
  | Some p => λ s, (Ok tt, State (ET.update (ET.set_attr k v) p (root s)) (stdout s))
  end.

(** [n.attrib[k]] *)
Definition get_attrib (n : node) (k : string) : M string :=
  match n with
  | None => raise AttributeError "'NoneType' object has no attribute 'attrib'"
  | Some p =>
      λ s, (match ET.subtree (root s) p with
            | Some e => match ET.attr_get (ET.attrib e) k with
                        | Some v => Ok v
                        | None => Py.raise KeyError (Py.str_repr k)
                        end
            | None => Py.raise KeyError (Py.str_repr k)
            end, s)
  end.

(** [ET.tostring(root)]: the XML text of the tree; the tree stands for it. *)
Definition tostring (n : node) : M ET.Element :=
  match n with
  | None => raise AttributeError "'NoneType' object has no attribute 'iter'"
  | Some p =>
      λ s, (match ET.subtree (root s) p with
            | Some e => Ok e
            | None => Py.raise AttributeError "no element"
            end, s)
  end.

(** Elements as the templates write them. *)
Definition component (id name : string) (cs : list ET.Element) : ET.Element :=
  ET.Elem "component" [("id", id); ("name", name)] cs.
Definition param (name value : string) : ET.Element :=
  ET.Elem "param" [("name", name); ("value", value)] [].
Definition stat (name value : string) : ET.Element :=
  ET.Elem "stat" [("name", name); ("value", value)] [].

(** [n.find(".//tg[@name='nm']").attrib['value'] = v], the right-hand side
    [v] being evaluated first. *)
Definition set_value (n : node) (tg nm : string) (v : string) : M unit :=
  x ← find n tg nm; set_attrib x "value" v.

(** The state the drivers start from: nothing parsed, nothing printed. *)
Definition no_tree : ET.Element := ET.Elem EmptyString [] [].
Definition initial : state := State no_tree [].

(** The tree a run returned ([no_tree] when it raised). *)
Definition returned (r : res ET.Element * state) : ET.Element :=
  match r.1 with Ok t => t | Err _ => no_tree end.

(** What the driver sees of the file system: the lines of a text file, the
    value [json.load] reads from a file, and the two steps of
    [with open(name, "w") as f: f.write(text)]: opening the file for
    writing, which creates it or empties it, and writing the text into it
    (and closing it).  Each may raise instead; when [write_text] raises, the
    file [open_w] created or emptied stays. *)
Record files := Files {
  read_lines : string → res (list string);
  json_load : string → res Py.value;
  open_w : string → res unit;
  write_text : string → ET.Element → res unit
}.

(** What a run of the driver leaves behind. *)
Record outcome := Outcome {
  exit_code : Z;
  printed : list string;            (* standard output *)
  errors : list string;             (* standard error *)
  written : option (string * ET.Element)
    (* the output file and the text written into it, when the write went
       through *)
}.

(** ** [custom_converter.py] *)
Module custom_converter.

Import Py.

(** *** [parse_stats] *)

(** The pattern of [re.match] is a sequence of character classes, each
    repeated greedily ([?], [*], [+]), some of them inside group 1 or 2. *)
Inductive quant := Opt | Star | Plus.
Record atom := Atom { cls : ascii → bool; rep : quant; grp : nat }.

Definition groups : Type := list ascii * list ascii.

Definition capture (a : atom) (c : ascii) (g : groups) : groups :=
  match grp a with
  | 1%nat => (g.1 ++ [c], g.2)
  | 2%nat => (g.1, g.2 ++ [c])
  | _ => g
  end.

(** Backtracking match of the atoms at the start of [l]: each repetition
    takes as many characters as it can and gives back one at a time when
    the rest of the pattern fails. *)
Fixpoint re_match (r : list atom) : list ascii → groups → option groups :=
  match r with
  | [] => λ _ g, Some g
  | a :: r' =>
      let rest := re_match r' in
      let many :=
        fix many (l : list ascii) (g : groups) : option groups :=
          match l with
          | c :: l' =>
              if cls a c then
                match many l' (capture a c g) with
                | Some x => Some x
                | None => rest l g
                end
              else rest l g
          | [] => rest l g
          end in
      match rep a with
      | Star => many
      | Plus => λ l g,
          match l with
          | c :: l' => if cls a c then many l' (capture a c g) else None
          | [] => None
          end
      | Opt => λ l g,
          match l with
          | c :: l' =>
              if cls a c then
                match rest l' (capture a c g) with
                | Some x => Some x
                | None => rest l g
                end
              else rest l g
          | [] => rest l g
          end
      end
  end.

Definition one_of (s : string) (c : ascii) : bool :=
  existsb (ascii_eqb c) (chars s).

(** [[a-zA-Z0-9_.:-]] *)
Definition key_char (c : ascii) : bool :=
  is_alpha c || is_digit c || one_of "_.:-" c.

(** The pattern of [parse_stats], atom by atom:
    [^\s*], group 1 [[a-zA-Z0-9_.:-]+], [\s+],
    group 2 [[\d.]+], [e?], [[-+]?], [\d*], and a final [\s*]. *)
Definition stat_line : list atom :=
  [ Atom is_space Star 0;
    Atom key_char Plus 1;
    Atom is_space Plus 0;
    Atom (λ c, is_digit c || one_of "." c) Plus 2;
    Atom (one_of "e") Opt 2;
    Atom (one_of "-+") Opt 2;
    Atom is_digit Star 2;
    Atom is_space Star 0 ].

Abbreviation stat_table := (gmap string Float.float).

(** The body of the loop over the lines of the file. *)
Definition parse_line (stats : stat_table) (line : string) : stat_table :=
  let l := chars line in
  if blank l || contains (chars "----------") l then stats
  else
    match re_match stat_line l ([], []) with
    | Some (g1, g2) =>
        let key := str_of (strip g1) in
        let value := str_of (strip g2) in
        match float_of_string value with
        | Some f => <[key := f]> stats
        | None => stats
        end
    | None => stats
    end.

Definition parse_stats (fs : files) (stats_file : string) : res stat_table :=
  res_bind (read_lines fs stats_file) (λ lines,
    Ok (fold_left parse_line lines ∅)).

(** *** [get_stat_value] *)

Definition stats_map : list (string * list string) :=
  [ ("total_cycles", ["system.cpu.numCycles"; "system.cpu_clk_domain.num_cycles"]);
    ("committedInsts", ["system.cpu.committedInsts"; "sim_insts"]);
    ("int_insts", ["system.cpu.committed_int_insts"]);
    ("fp_insts", ["system.cpu.committed_fp_insts"]);
    ("branches", ["system.cpu.branches"]);
    ("branchMispredicts", ["system.cpu.branchMispredictions"]);
    ("icache.ReadReq::total", ["system.l1icaches.ReadReq::total"]);
    ("icache.ReadReq::miss", ["system.l1icaches.ReadReq::miss"]);
    ("dcache.ReadReq::total", ["system.l1dcaches.ReadReq::total"]);
    ("dcache.ReadReq::miss", ["system.l1dcaches.ReadReq::miss"]);
    ("dcache.WriteReq::total", ["system.l1dcaches.WriteReq::total"]);
    ("dcache.WriteReq::miss", ["system.l1dcaches.WriteReq::miss"]);
    ("l2cache.ReadReq::total", ["system.l2cache.ReadReq::total"]);
    ("l2cache.ReadReq::miss", ["system.l2cache.ReadReq::miss"]);
    ("l2cache.WriteReq::total", ["system.l2cache.WriteReq::total"]);
    ("l2cache.WriteReq::miss", ["system.l2cache.WriteReq::miss"]) ].

(** [stats_map.get(key, [])] *)
Fixpoint aliases_in (m : list (string * list string)) (key : string)
  : list string :=
  match m with
  | [] => []
  | (k, names) :: m' => if String.eqb k key then names else aliases_in m' key
  end.

Definition aliases (key : string) : list string := aliases_in stats_map key.

(** The loop over the alternate names: the value of the first one that
    is in the table. *)
Fixpoint first_present (stats : stat_table) (names : list string)
  : option Float.float :=
  match names with
  | [] => None
  | name_candidate :: names' =>
      match stats !! name_candidate with
      | Some v => Some v
      | None => first_present stats names'
      end
  end.

Definition warning (key : string) (default : value) : string :=
  "Warning: Stat '" +:+ key +:+ "' not found. Returning default value '"
    +:+ py_str default +:+ "'.".

Definition get_stat_value (stats : stat_table) (key : string)
    (default : value) : M Float.float :=
  match stats !! key with
  | Some v => mret v
  | None =>
      match first_present stats (aliases key) with
      | Some v => mret v
      | None => print (warning key default) ;; lift (py_float default)
      end
  end.

(** *** [parse_config] *)

Definition parse_config (fs : files) (config_file : string) : res value :=
  res_bind (json_load fs config_file) (λ config_data,
    match config_data with
    | VList l =>
        match l with
        | x :: _ => Ok x
        | [] => Py.raise ValueError "config.json is an empty list."
        end
    | _ => Ok config_data
    end).

(** *** [create_mcpat_xml] *)

Definition mcpat_template : ET.Element :=
  component "root" "root" [
    component "system" "system" [
      param "number_of_cores" "1";
      param "number_of_L1Directories" "0";
      param "number_of_L2Directories" "0";
      param "number_of_L2s" "1";
      param "Private_L2" "0";
      param "number_of_L3s" "0";
      param "number_of_NoCs" "0";
      param "homogeneous_cores" "1";
      param "homogeneous_L2s" "1";
      param "homogeneous_L1Directories" "0";
      param "homogeneous_L2Directories" "0";
      param "homogeneous_L3s" "0";
      param "homogeneous_ccs" "0";
      param "core_tech_node" "40";
      param "target_core_clockrate" "1000.0";
      param "temperature" "340";
      param "number_cache_levels" "2";
      param "interconnect_projection_type" "1";
      param "device_type" "2";
      param "longer_channel_device" "1";
      param "Embedded" "1";
      param "opt_clockrate" "1";
      param "machine_bits" "32";
      param "virtual_address_width" "32";
      param "physical_address_width" "32";
      param "virtual_memory_page_size" "4096";
      stat "total_cycles" "100000";
      stat "idle_cycles" "0";
      stat "busy_cycles" "100000";
      component "system.core0" "core0" [
        param "clock_rate" "1000.0";
        param "opt_local" "0";
        param "instruction_length" "32";
        param "opcode_width" "7";
        param "x86" "0";
        param "micro_opcode_width" "8";
        param "machine_type" "0";
        param "number_hardware_threads" "1";
        param "fetch_width" "2";
        param "number_instruction_fetch_ports" "1";
        param "decode_width" "2";
        param "issue_width" "4";
        param "peak_issue_width" "7";
        param "commit_width" "4";
        param "fp_issue_width" "1";
        param "prediction_width" "1";
        param "pipelines_per_core" "1,1";
        param "pipeline_depth" "8,8";
        param "ALU_per_core" "3";
        param "MUL_per_core" "1";
        param "FPU_per_core" "1";
        param "instruction_buffer_size" "32";
        param "decoded_stream_buffer_size" "16";
        param "instruction_window_scheme" "0";
        param "instruction_window_size" "20";
        param "fp_instruction_window_size" "15";
        param "ROB_size" "0";
        param "archi_Regs_IRF_size" "32";
        param "archi_Regs_FRF_size" "32";
        param "phy_Regs_IRF_size" "64";
        param "phy_Regs_FRF_size" "64";
        param "rename_scheme" "0";
        param "checkpoint_depth" "1";
        param "register_windows_size" "0";
        param "LSU_order" "inorder";
        param "store_buffer_size" "4";
        param "load_buffer_size" "0";
        param "memory_ports" "1";
        param "RAS_size" "4";
        stat "total_instructions" "400000";
        stat "int_instructions" "200000";
        stat "fp_instructions" "100000";
        stat "branch_instructions" "100000";
        stat "branch_mispredictions" "0";
        stat "load_instructions" "0";
        stat "store_instructions" "50000";
        stat "committed_instructions" "400000";
        stat "committed_int_instructions" "200000";
        stat "committed_fp_instructions" "100000";
        stat "pipeline_duty_cycle" "1";
        stat "total_cycles" "100000";
        stat "idle_cycles" "0";
        stat "busy_cycles" "100000";
        stat "ROB_reads" "400000";
        stat "ROB_writes" "400000";
        stat "rename_reads" "800000";
        stat "rename_writes" "400000";
        stat "fp_rename_reads" "200000";
        stat "fp_rename_writes" "100000";
        stat "inst_window_reads" "400000";
        stat "inst_window_writes" "400000";
        stat "inst_window_wakeup_accesses" "800000";
        stat "fp_inst_window_reads" "200000";
        stat "fp_inst_window_writes" "200000";
        stat "fp_inst_window_wakeup_accesses" "400000";
        stat "int_regfile_reads" "600000";
        stat "float_regfile_reads" "100000";
        stat "int_regfile_writes" "300000";
        stat "float_regfile_writes" "50000";
        stat "function_calls" "5";
        stat "context_switches" "260343";
        stat "ialu_accesses" "300000";
        stat "fpu_accesses" "100000";
        stat "mul_accesses" "200000";
        stat "cdb_alu_accesses" "300000";
        stat "cdb_mul_accesses" "200000";
        stat "cdb_fpu_accesses" "100000";
        stat "IFU_duty_cycle" "0.9";
        stat "BR_duty_cycle" "0.72";
        stat "LSU_duty_cycle" "0.71";
        stat "MemManU_I_duty_cycle" "0.9";
        stat "MemManU_D_duty_cycle" "0.71";
        stat "ALU_duty_cycle" "0.76";
        stat "MUL_duty_cycle" "0.82";
        stat "FPU_duty_cycle" "0.0";
        stat "ALU_cdb_duty_cycle" "0.76";
        stat "MUL_cdb_duty_cycle" "0.82";
        stat "FPU_cdb_duty_cycle" "0.0";
        param "number_of_BPT" "2";
        component "system.core0.predictor" "PBT" [
          param "local_predictor_size" "10,3";
          param "local_predictor_entries" "4";
          param "global_predictor_entries" "4096";
          param "global_predictor_bits" "2";
          param "chooser_predictor_entries" "4096";
          param "chooser_predictor_bits" "2"];
        component "system.core0.itlb" "itlb" [
          param "number_entries" "64";
          stat "total_accesses" "200000";
          stat "total_misses" "4";
          stat "conflicts" "0"];
        component "system.core0.icache" "icache" [
          param "icache_config" "32768,64,8,1,10,10,64,0";
          param "buffer_sizes" "4, 4, 4,0";
          stat "read_accesses" "200000";
          stat "read_misses" "0";
          stat "conflicts" "0"];
        component "system.core0.dtlb" "dtlb" [
          param "number_entries" "64";
          stat "total_accesses" "400000";
          stat "total_misses" "4";
          stat "conflicts" "0"];
        component "system.core0.dcache" "dcache" [
          param "dcache_config" "32768,64,8,1,10,10,64,1";
          param "buffer_sizes" "4, 4, 4, 4";
          stat "read_accesses" "800000";
          stat "write_accesses" "27276";
          stat "read_misses" "1632";
          stat "write_misses" "183";
          stat "conflicts" "0"];
        param "number_of_BTB" "2";
        component "system.core0.BTB" "BTB" [
          param "BTB_config" "4096,4,2, 2, 1,1";
          stat "read_accesses" "400000";
          stat "write_accesses" "0"]];
      component "system.L20" "L20" [
        param "L2_config" "1048576,32, 8, 8, 8, 23, 32, 1";
        param "buffer_sizes" "16, 16, 16, 16";
        param "clockrate" "3400";
        param "ports" "1,1,1";
        param "device_type" "0";
        stat "read_accesses" "200000";
        stat "write_accesses" "27276";
        stat "read_misses" "1632";
        stat "write_misses" "183";
        stat "conflicts" "0";
        stat "duty_cycle" "1.0"];
      component "system.mc" "mc" [
        param "type" "1";
        param "mc_clock" "400";
        param "peak_transfer_rate" "6400";
        param "block_size" "64";
        param "number_mcs" "0";
        param "memory_channels_per_mc" "1";
        param "number_ranks" "0";
        param "req_window_size_per_channel" "32";
        param "IO_buffer_size_per_channel" "32";
        param "databus_width" "128";
        param "addressbus_width" "51";
        stat "memory_accesses" "66666";
        stat "memory_reads" "33333";
        stat "memory_writes" "33333";
        param "withPHY" "1"]]].

Definition list_len (v : value) : nat :=
  match v with VList l => length l | _ => 0%nat end.

(** [1000000.0] *)
Definition million : Float.float := Float.of_Z 1000000.

(** [str(int(x))] *)
Definition str_int (x : value) : res string :=
  z ← py_int x; Ok (py_str (VInt z)).

(** [n.find(".//tg[@name='nm']").attrib['value'] = str(int(x))] *)
Definition write_int (n : node) (tg nm : string) (x : Float.float) : M unit :=
  v ← lift (str_int (VFloat x)); set_value n tg nm v.

(** The body of the [try] of an L1 cache: the entry [i] of the list
    [caches] of the cache hierarchy, and the geometry string made of it. *)
Definition l1_geometry (config cache_line_size : value) (caches : string)
    (i : nat) (mode : string) : res string :=
  board ← getitem config (VStr "board");
  hierarchy ← getitem board (VStr "cache_hierarchy");
  l1_list ← getitem hierarchy (VStr caches);
  l1_config ← getitem l1_list (VInt (Z.of_nat i));
  raw ← getitem l1_config (VStr "size");
  size ← (match raw with
          | VStr t =>
              z ← py_int (VStr (str_of (remove_char "B" (chars t))));
              Ok (VInt z)
          | _ => Ok raw
          end);
  assoc ← getitem l1_config (VStr "assoc");
  Ok (py_str size +:+ "," +:+ py_str cache_line_size +:+ ","
        +:+ py_str assoc +:+ ",1,10,10," +:+ py_str cache_line_size
        +:+ "," +:+ mode).

(** The [try] statement of an L1 cache: the geometry string is assigned to
    the parameter [nm] of the cache component; a missing key or index
    prints [warn] instead. *)
Definition l1_cache_config (config cache_line_size : value) (caches : string)
    (i : nat) (mode : string) (cache_node : node) (nm warn : string)
  : M unit :=
  try_except
    (v ← lift (l1_geometry config cache_line_size caches i mode);
     set_value cache_node "param" nm v)
    [KeyError; IndexError]
    (print warn).

(** "System parameters": returns the two variables assigned there. *)
Definition system_parameters (stats_data : stat_table) (system_node : node)
    (num_cores : nat)
  : M (option Float.float * option Float.float) :=
  has_system ← truth system_node;
  if has_system : bool then
    set_value system_node "param" "number_of_cores"
      (str_nat num_cores);;
    total_cycles ← get_stat_value stats_data "total_cycles" (VInt 0);
    write_int system_node "stat" "total_cycles" total_cycles;;
    write_int system_node "stat" "busy_cycles" total_cycles;;
    clock_rate_hz ←
      get_stat_value stats_data "system.clk_domain.clock" (VInt 1000000000);
    clock_rate_mhz ← lift (py_truediv (VFloat clock_rate_hz) (VFloat million));
    set_value system_node "param" "target_core_clockrate"
      (py_str (VFloat clock_rate_mhz));;
    mret (Some total_cycles, Some clock_rate_mhz)
  else mret (None, None).

(** "Core parameters": the body of the loop over the core indices. *)
Definition core_parameters (stats_data : stat_table)
    (config cache_line_size : value) (root : node)
    (total_cycles clock_rate_mhz : option Float.float) (i : nat) : M unit :=
  core_node ← find root "component" ("core" +:+ str_nat i);
  has_core ← truth core_node;
  if has_core : bool then
    mhz ← local "clock_rate_mhz" clock_rate_mhz;
    set_value core_node "param" "clock_rate" (py_str (VFloat mhz));;
    committed_insts ← get_stat_value stats_data "committedInsts" (VInt 0);
    committed_int ← get_stat_value stats_data "int_insts" (VInt 0);
    committed_fp ← get_stat_value stats_data "fp_insts" (VInt 0);
    branches ← get_stat_value stats_data "branches" (VInt 0);
    branch_mispredicts ←
      get_stat_value stats_data "branchMispredicts" (VInt 0);
    dcache_reads ←
      get_stat_value stats_data
        ("system.l1dcaches" +:+ str_nat i +:+ ".ReadReq::total") (VInt 0);
    dcache_writes ←
      get_stat_value stats_data
        ("system.l1dcaches" +:+ str_nat i +:+ ".WriteReq::total") (VInt 0);
    write_int core_node "stat" "total_instructions" committed_insts;;
    write_int core_node "stat" "int_instructions" committed_int;;
    write_int core_node "stat" "fp_instructions" committed_fp;;
    write_int core_node "stat" "branch_instructions" branches;;
    write_int core_node "stat" "branch_mispredictions" branch_mispredicts;;
    write_int core_node "stat" "load_instructions" dcache_reads;;
    write_int core_node "stat" "store_instructions" dcache_writes;;
    write_int core_node "stat" "committed_instructions" committed_insts;;
    write_int core_node "stat" "committed_int_instructions" committed_int;;
    write_int core_node "stat" "committed_fp_instructions" committed_fp;;
    cycles ← local "total_cycles" total_cycles;
    write_int core_node "stat" "total_cycles" cycles;;
    write_int core_node "stat" "busy_cycles" cycles;;
    icache_config_node ← find core_node "component" "icache";
    dcache_config_node ← find core_node "component" "dcache";
    has_icache ← truth icache_config_node;
    (if has_icache : bool then
       l1_cache_config config cache_line_size "l1icaches" i "0"
         icache_config_node "icache_config"
         "Warning: Could not find L1I cache config. Using defaults."
     else mret tt);;
    has_dcache ← truth dcache_config_node;
    (if has_dcache : bool then
       l1_cache_config config cache_line_size "l1dcaches" i "1"
         dcache_config_node "dcache_config"
         "Warning: Could not find L1D cache config. Using defaults."
     else mret tt)
  else mret tt.

(** "L2 Cache" *)
Definition l2_cache (stats_data : stat_table) (root system_node : node)
  : M unit :=
  n ← find system_node "param" "number_of_L2s";
  v ← get_attrib n "value";
  num_l2s ← lift (py_int (VStr v));
  for_range (Z.to_nat num_l2s) (λ i,
    l2_node ← find root "component" ("L2" +:+ str_nat i);
    has_l2 ← truth l2_node;
    if has_l2 : bool then
      l2_reads ←
        get_stat_value stats_data "system.l2cache.ReadReq::total" (VInt 0);
      l2_writes ←
        get_stat_value stats_data "system.l2cache.WriteReq::total" (VInt 0);
      write_int l2_node "stat" "read_accesses" l2_reads;;
      write_int l2_node "stat" "write_accesses" l2_writes
    else mret tt).

(** The core count: [len(cores_list) if isinstance(cores_list, list) else 1]
    for [cores_list = config.get('board', {}).get('processor', {}).get('cores', [])]. *)
Definition core_count (config : value) : res nat :=
  board ← py_get config "board" (VDict []);
  processor ← py_get board "processor" (VDict []);
  cores_list ← py_get processor "cores" (VList []);
  Ok (if isinstance_list cores_list then list_len cores_list else 1%nat).

(** The first statement: a non-empty list stands for its first element,
    and anything else must be a dictionary. *)
Definition unwrap_config (config : value) : res value :=
  if isinstance_list config && (0 <? list_len config)%nat then
    getitem config (VInt 0)
  else if negb (isinstance_dict config) then
    Py.raise TypeError "config object must be a dictionary."
  else Ok config.

Definition create_mcpat_xml (stats_data : stat_table) (config : value)
  : M ET.Element :=
  config ← lift (unwrap_config config);
  root ← fromstring mcpat_template;
  board ← lift (py_get config "board" (VDict []));
  cache_line_size ← lift (py_get board "cache_line_size" (VInt 64));
  num_cores ← lift (core_count config);
  system_node ← find root "component" "system";
  '(total_cycles, clock_rate_mhz) ←
    system_parameters stats_data system_node num_cores;
  for_range num_cores
    (core_parameters stats_data config cache_line_size root
       total_cycles clock_rate_mhz);;
  l2_cache stats_data root system_node;;
  tostring root.

(** *** The driver ([__main__]) *)

(** The body of the driver's [try]. *)
Definition conversion (fs : files) (stats_file config_file : string)
  : M ET.Element :=
  stats_data ← lift (parse_stats fs stats_file);
  config_data ← lift (parse_config fs config_file);
  xml_output ← create_mcpat_xml stats_data config_data;
  lift (open_w fs "mcpat_output.xml");;
  lift (write_text fs "mcpat_output.xml" xml_output);;
  print "mcpat_output.xml created successfully.";;
  mret xml_output.

(** [len(sys.argv) != 3] prints the usage line and exits with status 1;
    an exception of the [try] is printed to standard error, and the
    status is 0 either way. *)
Definition main (fs : files) (argv : list string) : outcome :=
  match argv with
  | [_; stats_file; config_file] =>
      match conversion fs stats_file config_file initial with
      | (Ok xml, s) =>
          Outcome 0 (stdout s) [] (Some ("mcpat_output.xml", xml))
      | (Err e, s) =>
          Outcome 0 (stdout s) ["An error occurred: " +:+ exn_msg e] None
      end
  | _ =>
      Outcome 1 ["Usage: python mcpat_converter.py <stats.txt> <config.json>"]
        [] None
  end.

End custom_converter.

(** ** [backup.py] *)
Module backup.

Import Py.

(** The table of [parse_stats] keeps the value tokens as strings. *)
Abbreviation stat_table := (gmap string string).

(** [get_stat_value]: [float(stats.get(key, default))], and [default]
    itself when that raises [ValueError] or [TypeError]. *)
Definition get_stat_value (stats : stat_table) (key : string)
    (default : value) : res value :=
  let x := match stats !! key with Some t => VStr t | None => default end in
  match py_float x with
  | Ok f => Ok (VFloat f)
  | Err e =>
      if bool_decide (exn_cls e ∈ [ValueError; TypeError]) then Ok default
      else Err e
  end.

(** [line.split()]: the maximal runs of characters that are not white
    space. *)
Fixpoint split_ws (l : list ascii) (cur : list ascii) : list (list ascii) :=
  match l with
  | [] => match cur with [] => [] | _ => [cur] end
  | c :: l' =>
      if is_space c then
        match cur with
        | [] => split_ws l' []
        | _ => cur :: split_ws l' []
        end
      else split_ws l' (cur ++ [c])
  end.

Definition split (line : string) : list string :=
  map str_of (split_ws (chars line) []).

(** The body of the loop over the lines of the file. *)
Definition parse_line (stats : stat_table) (line : string) : stat_table :=
  let l := chars line in
  if blank l || contains (chars "---") l
     || prefix_of (chars "End") l
  then stats
  else
    match split line with
    | key :: value :: _ => <[key := value]> stats
    | _ => stats
    end.

Definition parse_stats (fs : files) (stats_file : string) : res stat_table :=
  lines ← read_lines fs stats_file;
  Ok (fold_left parse_line lines ∅).

Definition parse_config (fs : files) (config_file : string) : res value :=
  json_load fs config_file.

Definition mcpat_template : ET.Element :=
  component "root" "root" [
    component "system" "system" [
      param "number_of_cores" "1";
      param "number_of_L1I_caches" "1";
      param "number_of_L1D_caches" "1";
      param "number_of_L2_caches" "1";
      param "number_of_L3_caches" "0";
      param "number_of_NoC" "0";
      param "target_core_clockrate" "0";
      param "total_cycles" "0";
      param "peak_power_per_chip" "0";
      param "total_insts" "0";
      param "number_of_L1Directories" "0";
      param "homogeneous_L1Directories" "1";
      component "core0" "core" [
        param "clock_rate" "0";
        param "total_inst" "0";
        param "int_inst" "0";
        param "fp_inst" "0";
        param "load_inst" "0";
        param "store_inst" "0";
        param "committed_inst" "0";
        param "committed_int_inst" "0";
        param "committed_fp_inst" "0";
        param "rob_accesses" "0";
        param "issue_queue_accesses" "0";
        param "int_regfile_reads" "0";
        param "fp_regfile_reads" "0";
        param "int_regfile_writes" "0";
        param "fp_regfile_writes" "0";
        param "rename_accesses" "0";
        param "rob_reads" "0";
        param "rob_writes" "0";
        param "L1I_hits" "0";
        param "L1I_misses" "0";
        param "L1D_hits" "0";
        param "L1D_misses" "0";
        param "L2_hits" "0";
        param "L2_misses" "0";
        param "Instruction_Fetch_Buffer_reads" "0";
        param "Instruction_Fetch_Buffer_writes" "0";
        param "ITLB_accesses" "0";
        param "ITLB_misses" "0";
        param "DTLB_accesses" "0";
        param "DTLB_misses" "0";
        param "branch_insts" "0";
        param "branch_mispredictions" "0"];
      component "L1_I_cache" "L1Icache" [
        param "cache_size" "0";
        param "line_size" "0";
        param "associativity" "0";
        param "bank" "1";
        param "sequential_access" "true";
        param "read_accesses" "0";
        param "write_accesses" "0";
        param "total_accesses" "0";
        param "total_reads" "0";
        param "total_writes" "0"];
      component "L1_D_cache" "L1Dcache" [
        param "cache_size" "0";
        param "line_size" "0";
        param "associativity" "0";
        param "bank" "1";
        param "sequential_access" "true";
        param "read_accesses" "0";
        param "write_accesses" "0";
        param "total_accesses" "0";
        param "total_reads" "0";
        param "total_writes" "0"];
      component "L2_cache" "L2cache" [
        param "cache_size" "0";
        param "line_size" "0";
        param "associativity" "0";
        param "bank" "1";
        param "sequential_access" "true";
        param "read_accesses" "0";
        param "write_accesses" "0";
        param "total_accesses" "0";
        param "total_reads" "0";
        param "total_writes" "0"];
      component "main_memory" "main_memory" [
        param "peak_memory_bw" "25.6";
        param "ext_dram_accesses" "0"]]].

(** [str(int(x))] *)
Definition str_int (x : value) : res string :=
  z ← py_int x; Ok (py_str (VInt z)).

(** [1000000.0] *)
Definition million : Float.float := Float.of_Z 1000000.

(** [n.find(".//param[@name='nm']").attrib['value'] =
     str(int(get_stat_value(stats, key, default)))] *)
Definition write_stat (stats : stat_table) (n : node) (nm key : string)
    (default : value) : M unit :=
  v ← lift (x ← get_stat_value stats key default; str_int x);
  set_value n "param" nm v.

(** "System parameters": returns the clock rate in MHz assigned there. *)
Definition system_parameters (stats : stat_table) (system_node : node)
  : M (option Float.float) :=
  has_system ← truth system_node;
  if has_system : bool then
    write_stat stats system_node "total_insts" "simInsts" (VInt 0);;
    write_stat stats system_node "total_cycles"
      "board.processor.cores.core.tickCycles" (VInt 0);;
    clock_rate_hz ← lift (get_stat_value stats "simFreq" (VInt 1000000000000));
    clock_rate_mhz ← lift (py_truediv clock_rate_hz (VFloat million));
    set_value system_node "param" "target_core_clockrate"
      (py_str (VFloat clock_rate_mhz));;
    mret (Some clock_rate_mhz)
  else mret None.

(** "Core parameters" *)
Definition core_parameters (stats : stat_table) (core_node : node)
    (clock_rate_mhz : option Float.float) : M unit :=
  has_core ← truth core_node;
  if has_core : bool then
    mhz ← local "clock_rate_mhz" clock_rate_mhz;
    set_value core_node "param" "clock_rate" (py_str (VFloat mhz));;
    total_inst ← lift (get_stat_value stats "simInsts" (VInt 0));
    v ← lift (str_int total_inst);
    set_value core_node "param" "total_inst" v;;
    v ← lift (str_int total_inst);
    set_value core_node "param" "committed_inst" v;;
    load_inst ← lift (get_stat_value stats
      "board.cache_hierarchy.l1dcaches.ReadReq.accesses::total" (VInt 0));
    store_inst ← lift (get_stat_value stats
      "board.cache_hierarchy.l1dcaches.WriteReq.accesses::total" (VInt 0));
    write_stat stats core_node "int_inst"
      "board.processor.cores.core.int_insts" (VInt 0);;
    write_stat stats core_node "fp_inst"
      "board.processor.cores.core.fp_insts" (VInt 0);;
    v ← lift (str_int load_inst);
    set_value core_node "param" "load_inst" v;;
    v ← lift (str_int store_inst);
    set_value core_node "param" "store_inst" v;;
    write_stat stats core_node "committed_int_inst"
      "board.processor.cores.core.committed_int_insts" (VInt 0);;
    write_stat stats core_node "committed_fp_inst"
      "board.processor.cores.core.committed_fp_insts" (VInt 0);;
    write_stat stats core_node "rob_accesses"
      "board.processor.cores.core.rob_accesses" (VInt 0);;
    write_stat stats core_node "issue_queue_accesses"
      "board.processor.cores.core.issue_queue_accesses" (VInt 0);;
    write_stat stats core_node "int_regfile_reads"
      "board.processor.cores.core.int_regfile_reads" (VInt 0);;
    write_stat stats core_node "fp_regfile_reads"
      "board.processor.cores.core.fp_regfile_reads" (VInt 0);;
    write_stat stats core_node "int_regfile_writes"
      "board.processor.cores.core.int_regfile_writes" (VInt 0);;
    write_stat stats core_node "fp_regfile_writes"
      "board.processor.cores.core.fp_regfile_writes" (VInt 0);;
    write_stat stats core_node "rename_accesses"
      "board.processor.cores.core.rename_accesses" (VInt 0);;
    write_stat stats core_node "rob_reads"
      "board.processor.cores.core.rob_reads" (VInt 0);;
    write_stat stats core_node "rob_writes"
      "board.processor.cores.core.rob_writes" (VInt 0);;
    write_stat stats core_node "L1I_hits"
      "board.cache_hierarchy.l1icaches.overallHits::total" (VInt 0);;
    write_stat stats core_node "L1I_misses"
      "board.cache_hierarchy.l1icaches.overallMisses::total" (VInt 0);;
    write_stat stats core_node "L1D_hits"
      "board.cache_hierarchy.l1dcaches.overallHits::total" (VInt 0);;
    write_stat stats core_node "L1D_misses"
      "board.cache_hierarchy.l1dcaches.overallMisses::total" (VInt 0);;
    write_stat stats core_node "L2_hits"
      "board.cache_hierarchy.l2cache.overallHits::total" (VInt 0);;
    write_stat stats core_node "L2_misses"
      "board.cache_hierarchy.l2cache.overallMisses::total" (VInt 0);;
    write_stat stats core_node "ITLB_accesses"
      "board.processor.cores.core.mmu.dtb.accesses" (VInt 0);;
    write_stat stats core_node "ITLB_misses"
      "board.processor.cores.core.mmu.dtb.misses" (VInt 0);;
    write_stat stats core_node "DTLB_accesses"
      "board.processor.cores.core.mmu.itb.accesses" (VInt 0);;
    write_stat stats core_node "DTLB_misses"
      "board.processor.cores.core.mmu.itb.misses" (VInt 0);;
    write_stat stats core_node "branch_insts"
      "board.processor.cores.core.branchPred.condPredicted" (VInt 0);;
    write_stat stats core_node "branch_mispredictions"
      "board.processor.cores.core.branchPred.condIncorrect" (VInt 0)
  else mret tt.

(** The configuration entry of a cache: entry 0 of the list [caches] for
    an L1 cache, the object [l2cache] itself for the L2 cache. *)
Definition l1_entry (config : value) (caches : string) : res value :=
  board ← getitem config (VStr "board");
  hierarchy ← getitem board (VStr "cache_hierarchy");
  config_list ← getitem hierarchy (VStr caches);
  getitem config_list (VInt 0).

Definition l2_entry (config : value) : res value :=
  board ← getitem config (VStr "board");
  hierarchy ← getitem board (VStr "cache_hierarchy");
  getitem hierarchy (VStr "l2cache").

(** The body of the [try] of a cache: geometry from the configuration
    entry, then the three access counts of the cache [name]. *)
Definition cache_body (stats : stat_table) (cache_node : node)
    (entry : res value) (cache_line_size : value) (name : string) : M unit :=
  cache_config ← lift entry;
  size ← lift (getitem cache_config (VStr "size"));
  assoc ← lift (getitem cache_config (VStr "assoc"));
  kb ← lift (z ← py_int size; py_truediv (VInt z) (VInt 1024));
  set_value cache_node "param" "cache_size" (py_str (VFloat kb));;
  set_value cache_node "param" "line_size" (py_str cache_line_size);;
  set_value cache_node "param" "associativity" (py_str assoc);;
  accesses ← lift (get_stat_value stats
    ("board.cache_hierarchy." +:+ name +:+ ".overallAccesses::total") (VInt 0));
  reads ← lift (get_stat_value stats
    ("board.cache_hierarchy." +:+ name +:+ ".ReadReq.accesses::total") (VInt 0));
  writes ← lift (get_stat_value stats
    ("board.cache_hierarchy." +:+ name +:+ ".WriteReq.accesses::total") (VInt 0));
  v ← lift (str_int accesses);
  set_value cache_node "param" "total_accesses" v;;
  v ← lift (str_int reads);
  set_value cache_node "param" "total_reads" v;;
  v ← lift (str_int writes);
  set_value cache_node "param" "total_writes" v.

(** "L1I Cache parameters" *)
Definition l1i_parameters (stats : stat_table) (config cache_line_size : value)
    (l1i_node : node) : M unit :=
  has_l1i ← truth l1i_node;
  if has_l1i : bool then
    try_except
      (cache_body stats l1i_node (l1_entry config "l1icaches")
         cache_line_size "l1icaches")
      [KeyError; IndexError]
      (print "Warning: Could not find L1I cache config. Defaulting to 0.")
  else mret tt.

(** "L1D Cache parameters" *)
Definition l1d_parameters (stats : stat_table) (config cache_line_size : value)
    (l1d_node : node) : M unit :=
  has_l1d ← truth l1d_node;
  if has_l1d : bool then
    try_except
      (cache_body stats l1d_node (l1_entry config "l1dcaches")
         cache_line_size "l1dcaches")
      [KeyError; IndexError]
      (print "Warning: Could not find L1D cache config. Defaulting to 0.")
  else mret tt.

(** "L2 Cache parameters" *)
Definition l2_parameters (stats : stat_table) (config cache_line_size : value)
    (l2_node : node) : M unit :=
  has_l2 ← truth l2_node;
  if has_l2 : bool then
    try_except
      (cache_body stats l2_node (l2_entry config) cache_line_size "l2cache")
      [KeyError]
      (print "Warning: Could not find L2 cache config. Defaulting to 0.")
  else mret tt.

(** "Main Memory" *)
Definition main_memory (stats : stat_table) (mem_node : node) : M unit :=
  has_mem ← truth mem_node;
  if has_mem : bool then
    dram_reads ← lift (get_stat_value stats
      "board.memory.mem_ctrl.dram.numReads::total" (VInt 0));
    l1d_writebacks ← lift (get_stat_value stats
      "board.cache_hierarchy.l1dcaches.writebacks::total" (VInt 0));
    ext_dram_accesses ← lift (py_add dram_reads l1d_writebacks);
    v ← lift (str_int ext_dram_accesses);
    set_value mem_node "param" "ext_dram_accesses" v
  else mret tt.

Definition create_mcpat_xml (stats : stat_table) (config : value)
  : M ET.Element :=
  root ← fromstring mcpat_template;
  board ← lift (py_get config "board" (VDict []));
  cache_line_size ← lift (py_get board "cache_line_size" (VInt 64));
  system_node ← find root "component" "system";
  clock_rate_mhz ← system_parameters stats system_node;
  core_node ← find root "component" "core";
  core_parameters stats core_node clock_rate_mhz;;
  l1i_node ← find root "component" "L1Icache";
  l1i_parameters stats config cache_line_size l1i_node;;
  l1d_node ← find root "component" "L1Dcache";
  l1d_parameters stats config cache_line_size l1d_node;;
  l2_node ← find root "component" "L2cache";
  l2_parameters stats config cache_line_size l2_node;;
  mem_node ← find root "component" "main_memory";
  main_memory stats mem_node;;
  tostring root.

(** *** The driver ([__main__]) *)

(** The body of the driver's [try]. *)
Definition conversion (fs : files) (stats_file config_file : string)
  : M ET.Element :=
  stats ← lift (parse_stats fs stats_file);
  config ← lift (parse_config fs config_file);
  mcpat_xml ← create_mcpat_xml stats config;
  lift (open_w fs "mcpat_output.xml");;
  lift (write_text fs "mcpat_output.xml" mcpat_xml);;
  print "Successfully generated mcpat_output.xml";;
  mret mcpat_xml.

(** [len(sys.argv) != 3] prints the usage line and exits with status 1;
    [FileNotFoundError] and any other exception of the [try] are printed to
    standard output, and the status is 0 either way. *)
Definition main (fs : files) (argv : list string) : outcome :=
  match argv with
  | [_; stats_file; config_file] =>
      match conversion fs stats_file config_file initial with
      | (Ok xml, s) =>
          Outcome 0 (stdout s) [] (Some ("mcpat_output.xml", xml))
      | (Err e, s) =>
          Outcome 0
            (stdout s ++
               [if bool_decide (exn_cls e = FileNotFoundError)
                then "Error: One or both of the files could not be found."
                else "An unexpected error occurred: " +:+ exn_msg e])
            [] None
      end
  | _ =>
      Outcome 1
        ["Usage: python custom_converter.py <path_to_stats.txt> <path_to_config.json>"]
        [] None
  end.

End backup.

(** * What the statements below are written with *)

(** ** Reading the output *)

(** The attribute dictionary without [value]. *)
Definition no_value (kv : string * string) : bool :=
  negb (String.eqb kv.1 "value").

(** The path [p] leads to an element of [t]. *)
Definition valid (t : ET.Element) (p : ET.path) : bool :=
  match ET.subtree t p with Some _ => true | None => false end.

(** The field [nm] (a [tg] element) of the component [name] of the output:
    [root.find(".//component[@name='name']").find(".//tg[@name='nm']").attrib['value']]. *)
Definition at_component (t : ET.Element) (name tg nm : string) : option string :=
  match ET.find_in t [] "component" name with
  | Some p => ET.field t p tg nm
  | None => None
  end.

(** The [value] attributes of an element and its descendants. *)
Fixpoint all_values (e : ET.Element) : list string :=
  match e with
  | ET.Elem _ a cs =>
      match ET.attr_get a "value" with Some v => [v] | None => [] end
      ++ concat (map all_values cs)
  end.

(** The number of times the line [x] was printed. *)
Definition occurrences (x : string) (l : list string) : nat :=
  length (List.filter (String.eqb x) l).

(** The exceptions of [int], [float] and the arithmetic: none of them is a
    [KeyError] or an [IndexError]. *)
Definition numeric_error (e : exn) : Prop :=
  match exn_cls e with
  | ValueError | TypeError | OverflowError | ZeroDivisionError => True
  | _ => False
  end.

(** No exception, or one of the [classes] an [except] clause names. *)
Definition handled {A} (classes : list exn_class) (r : res A) : Prop :=
  match r with Ok _ => True | Err e => exn_cls e ∈ classes end.

(** The parameters of a cache component of the minimal template that
    [backup.create_mcpat_xml] assigns: six of the ten. *)
Definition cache_params : list string :=
  [ "cache_size"; "line_size"; "associativity";
    "total_accesses"; "total_reads"; "total_writes" ].

(** The ten parameters of a cache component of the minimal template, each
    with its preset value. *)
Definition cache_template : list (string * string) :=
  [ ("cache_size", "0"); ("line_size", "0"); ("associativity", "0");
    ("bank", "1"); ("sequential_access", "true");
    ("read_accesses", "0"); ("write_accesses", "0");
    ("total_accesses", "0"); ("total_reads", "0"); ("total_writes", "0") ].

(** The usage lines of the two drivers. *)
Definition custom_usage : string :=
  "Usage: python mcpat_converter.py <stats.txt> <config.json>".
Definition backup_usage : string :=
  "Usage: python custom_converter.py <path_to_stats.txt> <path_to_config.json>".

(** ** What a run of [custom_converter.create_mcpat_xml] assigns and prints *)

Module custom_spec.
Import Py custom_converter.

(** The value [get_stat_value] returns when the default converts to [d]. *)
Definition stat_or (stats : stat_table) (key : string) (d : Float.float)
  : Float.float :=
  match stats !! key with
  | Some v => v
  | None => match first_present stats (aliases key) with
            | Some v => v
            | None => d
            end
  end.

(** What [get_stat_value] prints. *)
Definition stat_warnings (stats : stat_table) (key : string) (default : value)
  : list string :=
  match stats !! key with
  | Some _ => []
  | None => match first_present stats (aliases key) with
            | Some _ => []
            | None => [warning key default]
            end
  end.

Definition zero : Float.float := Float.of_Z 0.

(** [str(int(x))] when [int(x)] does not raise. *)
Definition itos (x : Float.float) : string :=
  match int_of_float x with Ok z => pretty z | Err _ => EmptyString end.

(** The assignment [n.find(".//tg[@name='nm']").attrib['value'] = v] on the
    template. *)
Definition wr (n : node) (tg nm v : string) : list (ET.path * string) :=
  match n ≫= (λ p, ET.find_in mcpat_template p tg nm) with
  | Some q => [(q, v)]
  | None => []
  end.

Definition system_node : node := ET.find_in mcpat_template [] "component" "system".
Definition core0_node : node := ET.find_in mcpat_template [] "component" "core0".
Definition icache_node : node :=
  core0_node ≫= (λ p, ET.find_in mcpat_template p "component" "icache").
Definition dcache_node : node :=
  core0_node ≫= (λ p, ET.find_in mcpat_template p "component" "dcache").
Definition l2_node : node := ET.find_in mcpat_template [] "component" "L20".

Definition total_cycles (stats : stat_table) : Float.float :=
  stat_or stats "total_cycles" zero.
Definition clock_rate_mhz (stats : stat_table) : Float.float :=
  Float.div (stat_or stats "system.clk_domain.clock" (Float.of_Z 1000000000))
    million.

Definition system_writes (stats : stat_table) (num_cores : nat)
  : list (ET.path * string) :=
  wr system_node "param" "number_of_cores" (str_nat num_cores)
  ++ wr system_node "stat" "total_cycles" (itos (total_cycles stats))
  ++ wr system_node "stat" "busy_cycles" (itos (total_cycles stats))
  ++ wr system_node "param" "target_core_clockrate"
       (Float.repr (clock_rate_mhz stats)).

Definition system_log (stats : stat_table) : list string :=
  stat_warnings stats "total_cycles" (VInt 0)
  ++ stat_warnings stats "system.clk_domain.clock" (VInt 1000000000).

(** The statistics of core 0, in the order they are read. *)
Definition core_keys : list string :=
  [ "committedInsts"; "int_insts"; "fp_insts"; "branches"; "branchMispredicts";
    "system.l1dcaches" +:+ str_nat 0 +:+ ".ReadReq::total";
    "system.l1dcaches" +:+ str_nat 0 +:+ ".WriteReq::total" ].

(** The fields of core 0 and the statistic each is filled from, in the
    order they are written. *)
Definition core_fields : list (string * string) :=
  [ ("total_instructions", "committedInsts");
    ("int_instructions", "int_insts");
    ("fp_instructions", "fp_insts");
    ("branch_instructions", "branches");
    ("branch_mispredictions", "branchMispredicts");
    ("load_instructions", "system.l1dcaches" +:+ str_nat 0 +:+ ".ReadReq::total");
    ("store_instructions", "system.l1dcaches" +:+ str_nat 0 +:+ ".WriteReq::total");
    ("committed_instructions", "committedInsts");
    ("committed_int_instructions", "int_insts");
    ("committed_fp_instructions", "fp_insts") ].

Definition geometry_writes (config cache_line_size : value) (caches : string)
    (n : node) (nm mode : string) : list (ET.path * string) :=
  match l1_geometry config cache_line_size caches 0 mode with
  | Ok v => wr n "param" nm v
  | Err _ => []
  end.

Definition geometry_log (config cache_line_size : value) (caches : string)
    (mode warn : string) : list string :=
  match l1_geometry config cache_line_size caches 0 mode with
  | Ok _ => []
  | Err _ => [warn]
  end.

Definition l1i_warning : string :=
  "Warning: Could not find L1I cache config. Using defaults.".
Definition l1d_warning : string :=
  "Warning: Could not find L1D cache config. Using defaults.".

Definition core_writes (stats : stat_table) (config cache_line_size : value)
  : list (ET.path * string) :=
  wr core0_node "param" "clock_rate" (Float.repr (clock_rate_mhz stats))
  ++ concat (map (λ fk, wr core0_node "stat" fk.1 (itos (stat_or stats fk.2 zero)))
               core_fields)
  ++ wr core0_node "stat" "total_cycles" (itos (total_cycles stats))
  ++ wr core0_node "stat" "busy_cycles" (itos (total_cycles stats))
  ++ geometry_writes config cache_line_size "l1icaches" icache_node
       "icache_config" "0"
  ++ geometry_writes config cache_line_size "l1dcaches" dcache_node
       "dcache_config" "1".

Definition core_log (stats : stat_table) (config cache_line_size : value)
  : list string :=
  concat (map (λ k, stat_warnings stats k (VInt 0)) core_keys)
  ++ geometry_log config cache_line_size "l1icaches" "0" l1i_warning
  ++ geometry_log config cache_line_size "l1dcaches" "1" l1d_warning.

Definition l2_writes (stats : stat_table) : list (ET.path * string) :=
  wr l2_node "stat" "read_accesses"
    (itos (stat_or stats "system.l2cache.ReadReq::total" zero))
  ++ wr l2_node "stat" "write_accesses"
    (itos (stat_or stats "system.l2cache.WriteReq::total" zero)).

Definition l2_log (stats : stat_table) : list string :=
  stat_warnings stats "system.l2cache.ReadReq::total" (VInt 0)
  ++ stat_warnings stats "system.l2cache.WriteReq::total" (VInt 0).

(** Everything a run that returns has assigned and printed, for the
    configuration [config] (a dictionary), its cache line size and its
    core count. *)
Definition writes (stats : stat_table) (config cache_line_size : value)
    (num_cores : nat) : list (ET.path * string) :=
  system_writes stats num_cores
  ++ (match num_cores with
      | O => []
      | S _ => core_writes stats config cache_line_size
      end)
  ++ l2_writes stats.

Definition log (stats : stat_table) (config cache_line_size : value)
    (num_cores : nat) : list string :=
  system_log stats
  ++ (match num_cores with
      | O => []
      | S _ => core_log stats config cache_line_size
      end)
  ++ l2_log stats.

(** The statistics whose truncation a run that returns has computed. *)
Definition truncated (stats : stat_table) (num_cores : nat) : list Float.float :=
  total_cycles stats
  :: (match num_cores with
      | O => []
      | S _ => map (λ k, stat_or stats k zero) core_keys
      end)
  ++ [ stat_or stats "system.l2cache.ReadReq::total" zero;
       stat_or stats "system.l2cache.WriteReq::total" zero ].

(** The cache line size: [config.get('board', {}).get('cache_line_size', 64)]. *)
Definition cache_line_size (config : value) : res value :=
  board ← py_get config "board" (VDict []);
  py_get board "cache_line_size" (VInt 64).

(** No value of the table is infinite or a NaN. *)
Definition finite_stats (stats : stat_table) : Prop :=
  ∀ k v, stats !! k = Some v → Float.is_finite v = true.

(** What makes a run return: the configuration is a dictionary (or a list
    that starts with one) with dictionaries on the way to the cache line
    size and the cores, every statistic the run truncates converts to an
    integer, and the lookups of the L1 caches of core 0 succeed or are
    caught. *)
Definition converts (stats : stat_table) (config : value) : Prop :=
  ∃ cfg cls n,
    unwrap_config config = Ok cfg
    ∧ cache_line_size cfg = Ok cls
    ∧ core_count cfg = Ok n
    ∧ Forall (λ x, is_Ok (int_of_float x)) (truncated stats n)
    ∧ match n with
      | O => True
      | S _ =>
          handled [KeyError; IndexError] (l1_geometry cfg cls "l1icaches" 0 "0")
          ∧ handled [KeyError; IndexError]
              (l1_geometry cfg cls "l1dcaches" 0 "1")
      end.

End custom_spec.

(** ** What a run of [backup.create_mcpat_xml] assigns and prints *)

Module backup_spec.
Import Py backup.

(** The string of a conversion that does not raise. *)
Definition rstr (r : res string) : string :=
  match r with Ok v => v | Err _ => EmptyString end.

(** What [get_stat_value] returns for a default that converts to [d]. *)
Definition stat_val (stats : stat_table) (key : string) (default : value)
    (d : Float.float) : value :=
  match stats !! key with
  | Some t => match float_of_string t with
              | Some f => VFloat f
              | None => default
              end
  | None => VFloat d
  end.

Definition zero : Float.float := Float.of_Z 0.

(** [str(int(get_stat_value(stats, key, 0)))] *)
Definition sint (stats : stat_table) (key : string) : res string :=
  str_int (stat_val stats key (VInt 0) zero).

Definition sstr (stats : stat_table) (key : string) : string :=
  rstr (sint stats key).

Definition wr (n : node) (tg nm v : string) : list (ET.path * string) :=
  match n ≫= (λ p, ET.find_in mcpat_template p tg nm) with
  | Some q => [(q, v)]
  | None => []
  end.

Definition system_node : node := ET.find_in mcpat_template [] "component" "system".
Definition core_node : node := ET.find_in mcpat_template [] "component" "core".
Definition l1i_node : node := ET.find_in mcpat_template [] "component" "L1Icache".
Definition l1d_node : node := ET.find_in mcpat_template [] "component" "L1Dcache".
Definition l2_node : node := ET.find_in mcpat_template [] "component" "L2cache".
Definition mem_node : node := ET.find_in mcpat_template [] "component" "main_memory".

(** The clock rate in MHz, as a string. *)
Definition clock_rate_mhz (stats : stat_table) : res Float.float :=
  py_truediv
    (stat_val stats "simFreq" (VInt 1000000000000) (Float.of_Z 1000000000000))
    (VFloat million).

Definition mhz_str (stats : stat_table) : string :=
  match clock_rate_mhz stats with
  | Ok f => Float.repr f
  | Err _ => EmptyString
  end.

Definition system_fields : list (string * string) :=
  [ ("total_insts", "simInsts");
    ("total_cycles", "board.processor.cores.core.tickCycles") ].

(** The parameters of the core and the statistic each is filled from, in
    the order they are written. *)
Definition core_fields : list (string * string) :=
  [ ("total_inst", "simInsts");
    ("committed_inst", "simInsts");
    ("int_inst", "board.processor.cores.core.int_insts");
    ("fp_inst", "board.processor.cores.core.fp_insts");
    ("load_inst", "board.cache_hierarchy.l1dcaches.ReadReq.accesses::total");
    ("store_inst", "board.cache_hierarchy.l1dcaches.WriteReq.accesses::total");
    ("committed_int_inst", "board.processor.cores.core.committed_int_insts");
    ("committed_fp_inst", "board.processor.cores.core.committed_fp_insts");
    ("rob_accesses", "board.processor.cores.core.rob_accesses");
    ("issue_queue_accesses", "board.processor.cores.core.issue_queue_accesses");
    ("int_regfile_reads", "board.processor.cores.core.int_regfile_reads");
    ("fp_regfile_reads", "board.processor.cores.core.fp_regfile_reads");
    ("int_regfile_writes", "board.processor.cores.core.int_regfile_writes");
    ("fp_regfile_writes", "board.processor.cores.core.fp_regfile_writes");
    ("rename_accesses", "board.processor.cores.core.rename_accesses");
    ("rob_reads", "board.processor.cores.core.rob_reads");
    ("rob_writes", "board.processor.cores.core.rob_writes");
    ("L1I_hits", "board.cache_hierarchy.l1icaches.overallHits::total");
    ("L1I_misses", "board.cache_hierarchy.l1icaches.overallMisses::total");
    ("L1D_hits", "board.cache_hierarchy.l1dcaches.overallHits::total");
    ("L1D_misses", "board.cache_hierarchy.l1dcaches.overallMisses::total");
    ("L2_hits", "board.cache_hierarchy.l2cache.overallHits::total");
    ("L2_misses", "board.cache_hierarchy.l2cache.overallMisses::total");
    ("ITLB_accesses", "board.processor.cores.core.mmu.dtb.accesses");
    ("ITLB_misses", "board.processor.cores.core.mmu.dtb.misses");
    ("DTLB_accesses", "board.processor.cores.core.mmu.itb.accesses");
    ("DTLB_misses", "board.processor.cores.core.mmu.itb.misses");
    ("branch_insts", "board.processor.cores.core.branchPred.condPredicted");
    ("branch_mispredictions", "board.processor.cores.core.branchPred.condIncorrect") ].

Definition stat_writes (stats : stat_table) (n : node)
    (fields : list (string * string)) : list (ET.path * string) :=
  concat (map (λ fk, wr n "param" fk.1 (sstr stats fk.2)) fields).

Definition system_writes (stats : stat_table) : list (ET.path * string) :=
  stat_writes stats system_node system_fields
  ++ wr system_node "param" "target_core_clockrate" (mhz_str stats).

Definition core_writes (stats : stat_table) : list (ET.path * string) :=
  wr core_node "param" "clock_rate" (mhz_str stats)
  ++ stat_writes stats core_node core_fields.

(** The configuration lookups of a cache block: its size and
    associativity. *)
Definition geometry (entry : res value) : res (value * value) :=
  cache_config ← entry;
  size ← getitem cache_config (VStr "size");
  assoc ← getitem cache_config (VStr "assoc");
  Ok (size, assoc).

(** [int(size) / 1024] and its string. *)
Definition kb (size : value) : res Float.float :=
  z ← py_int size; py_truediv (VInt z) (VInt 1024).

Definition kb_str (size : value) : string :=
  match kb size with Ok f => Float.repr f | Err _ => EmptyString end.

Definition cache_fields (name : string) : list (string * string) :=
  [ ("total_accesses", "board.cache_hierarchy." +:+ name +:+ ".overallAccesses::total");
    ("total_reads", "board.cache_hierarchy." +:+ name +:+ ".ReadReq.accesses::total");
    ("total_writes", "board.cache_hierarchy." +:+ name +:+ ".WriteReq.accesses::total") ].

Definition cache_writes (stats : stat_table) (n : node) (entry : res value)
    (cache_line_size : value) (name : string) : list (ET.path * string) :=
  match geometry entry with
  | Ok (size, assoc) =>
      wr n "param" "cache_size" (kb_str size)
      ++ wr n "param" "line_size" (py_str cache_line_size)
      ++ wr n "param" "associativity" (py_str assoc)
      ++ stat_writes stats n (cache_fields name)
  | Err _ => []
  end.

Definition cache_log (entry : res value) (warn : string) : list string :=
  match geometry entry with
  | Ok _ => []
  | Err _ => [warn]
  end.

Definition l1i_warning : string :=
  "Warning: Could not find L1I cache config. Defaulting to 0.".
Definition l1d_warning : string :=
  "Warning: Could not find L1D cache config. Defaulting to 0.".
Definition l2_warning : string :=
  "Warning: Could not find L2 cache config. Defaulting to 0.".

(** [str(int(dram_reads + l1d_writebacks))] *)
Definition ext_dram_accesses (stats : stat_table) : res string :=
  ext ← py_add
    (stat_val stats "board.memory.mem_ctrl.dram.numReads::total" (VInt 0) zero)
    (stat_val stats "board.cache_hierarchy.l1dcaches.writebacks::total" (VInt 0) zero);
  str_int ext.

Definition memory_writes (stats : stat_table) : list (ET.path * string) :=
  wr mem_node "param" "ext_dram_accesses" (rstr (ext_dram_accesses stats)).

Definition cache_line_size (config : value) : res value :=
  board ← py_get config "board" (VDict []);
  py_get board "cache_line_size" (VInt 64).

(** Everything a run that returns has assigned, and printed. *)
Definition writes (stats : stat_table) (config cache_line_size : value)
  : list (ET.path * string) :=
  system_writes stats
  ++ core_writes stats
  ++ cache_writes stats l1i_node (l1_entry config "l1icaches")
       cache_line_size "l1icaches"
  ++ cache_writes stats l1d_node (l1_entry config "l1dcaches")
       cache_line_size "l1dcaches"
  ++ cache_writes stats l2_node (l2_entry config) cache_line_size "l2cache"
  ++ memory_writes stats.

Definition log (config : value) : list string :=
  cache_log (l1_entry config "l1icaches") l1i_warning
  ++ cache_log (l1_entry config "l1dcaches") l1d_warning
  ++ cache_log (l2_entry config) l2_warning.

(** No value token of the table reads as an infinite float or a NaN. *)
Definition finite_stats (stats : stat_table) : Prop :=
  ∀ k text f,
    stats !! k = Some text → float_of_string text = Some f →
    Float.is_finite f = true.

(** Every statistic of the table converts to an integer. *)
Definition integral (stats : stat_table) : Prop :=
  ∀ key, is_Ok (sint stats key).

(** The configuration of a cache is there and its size converts, or its
    lookup raises one of [classes]. *)
Definition cache_ok (entry : res value) (classes : list exn_class) : Prop :=
  match geometry entry with
  | Ok (size, assoc) => is_Ok (kb size)
  | Err e => exn_cls e ∈ classes
  end.

(** What makes a run return: the cache line size is found, every
    conversion succeeds, and every cache lookup succeeds or is caught. *)
Definition converts (stats : stat_table) (config : value) : Prop :=
  is_Ok (cache_line_size config)
  ∧ integral stats
  ∧ is_Ok (ext_dram_accesses stats)
  ∧ cache_ok (l1_entry config "l1icaches") [KeyError; IndexError]
  ∧ cache_ok (l1_entry config "l1dcaches") [KeyError; IndexError]
  ∧ cache_ok (l2_entry config) [KeyError].

End backup_spec.

(** ** Inputs of the examples *)
Module examples.
Import Py.

Definition newline : string := String (ascii_of_nat 10) EmptyString.

(** A table that has the total cycle count under its second alias only. *)
Definition cycles_by_alias : custom_converter.stat_table :=
  {[ "system.cpu_clk_domain.num_cycles" := Float.of_Z 9 ]}.

Definition five_cycles : custom_converter.stat_table :=
  {[ "total_cycles" := Float.of_Z 5 ]}.

(** [{"board": {"processor": {"cores": l}}}] *)
Definition processor_cores (l : value) : value :=
  VDict [("board", VDict [("processor", VDict [("cores", l)])])].

Definition cores (l : list value) : value := processor_cores (VList l).

Definition l1_of (size assoc : Z) : value :=
  VDict [("size", VInt size); ("assoc", VInt assoc)].

(** Two cores, each with L1 caches of its own. *)
Definition two_cores : value :=
  VDict [("board", VDict
    [ ("processor", VDict [("cores", VList [VDict []; VDict []])]);
      ("cache_hierarchy", VDict
        [ ("l1icaches", VList [l1_of 16384 4; l1_of 8192 2]);
          ("l1dcaches", VList [l1_of 16384 4; l1_of 65536 2]) ]) ])].

Definition run_one_core : res ET.Element * state :=
  custom_converter.create_mcpat_xml five_cycles (cores [VDict []]) initial.

Definition run_two_cores : res ET.Element * state :=
  custom_converter.create_mcpat_xml ∅ two_cores initial.

(** A statistics file with the single line [x 0x1000]. *)
Definition hex_file : files :=
  {| read_lines := λ _, Ok ["x 0x1000" +:+ newline];
     json_load := λ _, Ok (VDict []);
     open_w := λ _, Ok tt;
     write_text := λ _ _, Ok tt |}.

(** A configuration file that holds the number 5. *)
Definition number_file : files :=
  {| read_lines := λ _, Ok [];
     json_load := λ _, Ok (VInt 5);
     open_w := λ _, Ok tt;
     write_text := λ _ _, Ok tt |}.

(** The configuration of the specification's L1 data cache example. *)
Definition l1d_32k : value :=
  VDict [("board", VDict
    [ ("cache_line_size", VInt 64);
      ("cache_hierarchy", VDict
        [("l1dcaches", VList [VDict [("size", VInt 32768); ("assoc", VInt 8)]])]) ])].

Definition run_l1d_32k : res ET.Element * state :=
  backup.create_mcpat_xml ∅ l1d_32k initial.

(** 100 DRAM reads and 20 writebacks of the L1 data cache. *)
Definition reads_and_writebacks : backup.stat_table :=
  {[ "board.memory.mem_ctrl.dram.numReads::total" := "100";
     "board.cache_hierarchy.l1dcaches.writebacks::total" := "20" ]}.

Definition run_reads_and_writebacks : res ET.Element * state :=
  backup.create_mcpat_xml reads_and_writebacks (VDict []) initial.

Definition run_no_caches : res ET.Element * state :=
  backup.create_mcpat_xml ∅ (VDict []) initial.

(** A file system without the two input files. *)
Definition missing_files : files :=
  {| read_lines := λ _, Err (Raise FileNotFoundError "No such file or directory");
     json_load := λ _, Err (Raise FileNotFoundError "No such file or directory");
     open_w := λ _, Ok tt;
     write_text := λ _ _, Ok tt |}.

End examples.

(** ** Reading the statistics files *)

(** What a match of the pattern of [custom_converter.parse_stats] takes
    from the line. *)
Module pattern.
Import custom_converter.

(** The groups after the atom [a] took the characters [seg]. *)
Definition captured (a : atom) (seg : list ascii) (g : groups) : groups :=
  fold_left (λ g c, capture a c g) seg g.

(** [seg] is a run of characters the atom [a] can take. *)
Definition takes (a : atom) (seg : list ascii) : Prop :=
  Forall (λ c, cls a c = true) seg
  ∧ match rep a with
    | Opt => (length seg ≤ 1)%nat
    | Star => True
    | Plus => (1 ≤ length seg)%nat
    end.

(** [l] starts with one run per atom of the pattern, and [g'] are the
    groups [g] with what the runs add. *)
Inductive splits : list atom → list ascii → groups → groups → Prop :=
| splits_nil l g : splits [] l g g
| splits_cons a r seg l g g' :
    takes a seg → splits r l (captured a seg g) g' →
    splits (a :: r) (seg ++ l) g g'.

(** The atom [a] cannot take the first character of [l]. *)
Definition stops (a : atom) (l : list ascii) : Prop :=
  match l with
  | [] => True
  | c :: _ => cls a c = false
  end.

End pattern.

(** The sign bit of a float is set. *)
Definition negative (x : Float.float) : bool :=
  match x with
  | S754_zero s | S754_infinity s | S754_finite s _ _ => s
  | S754_nan => false
  end.

(** [[\d.]]: what the text of group 2 starts with. *)
Definition digit_or_dot (c : ascii) : bool :=
  is_digit c || custom_converter.one_of "." c.

(** A text is empty or starts with white space: where a token ends. *)
Definition token_end (l : list ascii) : Prop :=
  match l with
  | [] => True
  | c :: _ => is_space c = true
  end.

(** The text has a character that is not white space. *)
Definition has_token (l : list ascii) : Prop :=
  Exists (λ c, is_space c = false) l.

(** ** The runs of [backup.create_mcpat_xml] that return *)
Module backup_exact.
Import Py backup backup_spec.

(** [str(int(get_stat_value(stats, key, 0)))] does not raise for the
    statistic of the field [fk]. *)
Definition converted (stats : stat_table) (fk : string * string) : Prop :=
  is_Ok (sint stats fk.2).

(** The [try] of a cache returns: its configuration is found, its size
    converts and so do its three access counts, or a lookup raises one of
    the [classes] of the [except] clause. *)
Definition cache_converts (stats : stat_table) (entry : res value)
    (classes : list exn_class) (name : string) : Prop :=
  match geometry entry with
  | Ok (size, _) =>
      is_Ok (kb size) ∧ Forall (converted stats) (cache_fields name)
  | Err e => exn_cls e ∈ classes
  end.

(** What makes a run return, and nothing more. *)
Definition converts (stats : stat_table) (config : value) : Prop :=
  is_Ok (cache_line_size config)
  ∧ Forall (converted stats) (system_fields ++ core_fields)
  ∧ cache_converts stats (l1_entry config "l1icaches")
      [KeyError; IndexError] "l1icaches"
  ∧ cache_converts stats (l1_entry config "l1dcaches")
      [KeyError; IndexError] "l1dcaches"
  ∧ cache_converts stats (l2_entry config) [KeyError] "l2cache"
  ∧ is_Ok (ext_dram_accesses stats).

End backup_exact.

(** ** The caches of [backup.create_mcpat_xml] *)

(** The three cache blocks: the component, the name of the cache in the
    statistics, and the lookup of its configuration. *)
Definition backup_caches (config : Py.value)
  : list (string * string * res Py.value) :=
  [ ("L1Icache", "l1icaches", backup.l1_entry config "l1icaches");
    ("L1Dcache", "l1dcaches", backup.l1_entry config "l1dcaches");
    ("L2cache", "l2cache", backup.l2_entry config) ].

(** [config['board']['cache_hierarchy']] *)
Definition hierarchy (config : Py.value) : res Py.value :=
  board ← Py.getitem config (Py.VStr "board");
  Py.getitem board (Py.VStr "cache_hierarchy").

(** ** The statistics [custom_converter.create_mcpat_xml] reads *)

(** The names a run with the core count [n] asks [get_stat_value] for,
    each with its default. *)
Definition custom_statistics (n : nat) : list (string * Py.value) :=
  [ ("total_cycles", Py.VInt 0);
    ("system.clk_domain.clock", Py.VInt 1000000000) ]
  ++ match n with
     | O => []
     | S _ => map (λ k, (k, Py.VInt 0)) custom_spec.core_keys
     end
  ++ [ ("system.l2cache.ReadReq::total", Py.VInt 0);
       ("system.l2cache.WriteReq::total", Py.VInt 0) ].

(** ** The fields the converters assign *)

(** A field of the output: the name of its component, its tag and its
    name. *)
Definition field_id : Type := string * string * string.

(** The element [root.find(".//component[@name='c']").find(".//tg[@name='nm']")]
    of the tree [t]. *)
Definition field_path (t : ET.Element) (f : field_id) : option ET.path :=
  p ← ET.find_in t [] "component" f.1.1; ET.find_in t p f.1.2 f.2.

(** The element at [q] is one of the [fields] of [t]. *)
Definition assigned_in (t : ET.Element) (fields : list field_id) (q : ET.path)
  : bool :=
  existsb (λ f, bool_decide (field_path t f = Some q)) fields.

(** The fields a run of [custom_converter.create_mcpat_xml] assigns. *)
Definition custom_assigned : list field_id :=
  [ ("system", "param", "number_of_cores");
    ("system", "stat", "total_cycles");
    ("system", "stat", "busy_cycles");
    ("system", "param", "target_core_clockrate");
    ("core0", "param", "clock_rate") ]
  ++ map (λ fk, ("core0", "stat", fk.1)) custom_spec.core_fields
  ++ [ ("core0", "stat", "total_cycles");
       ("core0", "stat", "busy_cycles");
       ("icache", "param", "icache_config");
       ("dcache", "param", "dcache_config");
       ("L20", "stat", "read_accesses");
       ("L20", "stat", "write_accesses") ].

(** The fields a run of [backup.create_mcpat_xml] assigns. *)
Definition backup_assigned : list field_id :=
  map (λ fk, ("system", "param", fk.1)) backup_spec.system_fields
  ++ [ ("system", "param", "target_core_clockrate");
       ("core", "param", "clock_rate") ]
  ++ map (λ fk, ("core", "param", fk.1)) backup_spec.core_fields
  ++ map (λ nm, ("L1Icache", "param", nm)) cache_params
  ++ map (λ nm, ("L1Dcache", "param", nm)) cache_params
  ++ map (λ nm, ("L2cache", "param", nm)) cache_params
  ++ [ ("main_memory", "param", "ext_dram_accesses") ].

(** ** The configuration of an L1 cache in [custom_converter.py] *)

(** [config['board']['cache_hierarchy'][caches][i]] *)
Definition l1_config (config : Py.value) (caches : string) (i : nat)
  : res Py.value :=
  board ← Py.getitem config (Py.VStr "board");
  hierarchy ← Py.getitem board (Py.VStr "cache_hierarchy");
  l1_list ← Py.getitem hierarchy (Py.VStr caches);
  Py.getitem l1_list (Py.VInt (Z.of_nat i)).

(** [size.replace('B', '')] *)
Definition without_B (size : string) : string :=
  str_of (remove_char "B" (chars size)).

(** The size in bytes that stands in the geometry string, for the value
    [raw] of [size] in the entry of the cache: [raw] itself, or, for a
    string, the integer [int] reads in it once its [B]s are taken out. *)
Definition size_in_bytes (raw size : Py.value) : Prop :=
  match raw with
  | Py.VStr text =>
      ∃ z, Py.int_of_string (without_B text) = Some z ∧ size = Py.VInt z
  | _ => size = raw
  end.

(** ** More inputs of the examples *)
Module inputs.
Import Py.

(** A file system whose statistics file has the given lines, and whose
    configuration file holds [config]. *)
Definition with_files (lines : list string) (config : value) : files :=
  {| read_lines := λ _, Ok lines;
     json_load := λ _, Ok config;
     open_w := λ _, Ok tt;
     write_text := λ _ _, Ok tt |}.

Definition one_line : list string := ["a 1" +:+ examples.newline].
Definition two_lines : list string :=
  ["a 1" +:+ examples.newline; "a 42" +:+ examples.newline].

(** A cycle count that [float] reads as infinity. *)
Definition huge_line : list string :=
  ["system.cpu.numCycles 1e999" +:+ examples.newline].
Definition huge_cycles : custom_converter.stat_table :=
  {[ "system.cpu.numCycles" := S754_infinity false ]}.

(** The two cores of [examples.two_cores] and the same L1 caches for the
    first of them, with other caches, or none, for the second. *)
Definition two_cores_other : value :=
  VDict [("board", VDict
    [ ("processor", VDict [("cores", VList [VDict []; VDict []])]);
      ("cache_hierarchy", VDict
        [ ("l1icaches", VList [examples.l1_of 16384 4; examples.l1_of 1 1]);
          ("l1dcaches", VList [examples.l1_of 16384 4]) ]) ])].

(** A configuration file that holds the empty list. *)
Definition empty_list_file : files :=
  {| read_lines := λ _, Ok [];
     json_load := λ _, Ok (VList []);
     open_w := λ _, Ok tt;
     write_text := λ _ _, Ok tt |}.

(** Tables of [backup.py] with the cycle count under an alternate name of
    [custom_converter.py], and with a count that is not a number. *)
Definition cycles_alias_text : backup.stat_table :=
  {[ "system.cpu.numCycles" := "9" ]}.
Definition unreadable_cycles : backup.stat_table :=
  {[ "total_cycles" := "n/a" ]}.


(** A cache hierarchy whose L1 instruction cache is one object, not a
    list, and one whose L2 cache is a list of one object. *)
Definition l1i_object : value :=
  VDict [("board", VDict [("cache_hierarchy", VDict
    [("l1icaches", examples.l1_of 32768 8)])])].
Definition l2_list : value :=
  VDict [("board", VDict [("cache_hierarchy", VDict
    [("l2cache", VList [examples.l1_of 262144 8])])])].

(** Instruction counts that [float] does not read, and reads as a NaN. *)
Definition unreadable_insts : backup.stat_table := {[ "simInsts" := "n/a" ]}.
Definition nan_insts : backup.stat_table := {[ "simInsts" := "nan" ]}.

(** Seven accesses of the data TLB. *)
Definition dtb_accesses : backup.stat_table :=
  {[ "board.processor.cores.core.mmu.dtb.accesses" := "7" ]}.
Definition run_dtb_accesses : res ET.Element * state :=
  backup.create_mcpat_xml dtb_accesses (VDict []) initial.

(** An L2 cache of 256 KB. *)
Definition l2_object : value :=
  VDict [("board", VDict [("cache_hierarchy", VDict
    [("l2cache", examples.l1_of 262144 8)])])].
Definition run_l2_object : res ET.Element * state :=
  backup.create_mcpat_xml ∅ l2_object initial.

Definition run_l1i_object : res ET.Element * state :=
  backup.create_mcpat_xml ∅ l1i_object initial.

Definition run_unreadable_insts : res ET.Element * state :=
  backup.create_mcpat_xml unreadable_insts (VDict []) initial.

End inputs.

(** * Proofs *)

(** * Facts about the element tree *)
Section tree_facts.

Import ET.
Local Arguments String.eqb : simpl never.

Lemma Element_rect' (P : Element → Prop) :
  (∀ t a cs, Forall P cs → P (Elem t a cs)) → ∀ e, P e.
Proof.
  intros H. fix IH 1. intros [t a cs]. apply H.
  induction cs as [|c cs IHcs]; constructor; [apply IH | apply IHcs].
Qed.

Lemma attr_get_filter a k :
  k ≠ "value" → attr_get (List.filter no_value a) k = attr_get a k.
Proof.
  intros Hk. induction a as [|[k' v] a IH]; [done|]. simpl.
  unfold no_value at 1. simpl.
  destruct (String.eqb_spec k' "value") as [->|Hne]; simpl.
  - destruct (String.eqb_spec "value" k); [congruence|done].
  - by rewrite IH.
Qed.

Lemma filter_attr_set a v :
  List.filter no_value (attr_set a "value" v) = List.filter no_value a.
Proof.
  induction a as [|[k' v'] a IH]; [done|]. simpl.
  destruct (String.eqb_spec k' "value") as [->|Hne]; simpl.
  - done.
  - by rewrite IH.
Qed.

Lemma skeleton_eq e :
  skeleton e = Elem (tag e) (List.filter no_value (attrib e))
                 (map skeleton (children e)).
Proof. by destruct e. Qed.

Lemma matches_skeleton tg nm e : matches tg nm (skeleton e) = matches tg nm e.
Proof.
  destruct e as [t a cs]. unfold matches. simpl.
  fold no_value. by rewrite attr_get_filter.
Qed.

Lemma first_match_ext test test' rec rec' cs cs' i :
  Forall2 (λ c c', test c = test' c' ∧ rec c = rec' c') cs cs' →
  first_match test rec cs i = first_match test' rec' cs' i.
Proof.
  intros H. revert i.
  induction H as [|c c' cs cs' [Ht Hr] _ IH]; intros i; simpl; [done|].
  by rewrite Ht, Hr, IH.
Qed.

Lemma find_desc_skeleton tg nm e :
  find_desc tg nm (skeleton e) = find_desc tg nm e.
Proof.
  induction e as [t a cs IH] using Element_rect'. simpl.
  apply first_match_ext. induction IH as [|c cs Hc _ IHcs]; simpl.
  - constructor.
  - constructor; [|done]. split; [apply matches_skeleton | done].
Qed.

Lemma lookup_map {A B} (f : A → B) (l : list A) i :
  map f l !! i = f <$> l !! i.
Proof. revert i. induction l; intros [|i]; simpl; auto. Qed.

Lemma subtree_skeleton t p :
  subtree (skeleton t) p = skeleton <$> subtree t p.
Proof.
  revert t. induction p as [|i p IH]; intros [tg a cs]; [done|]. simpl.
  rewrite lookup_map. destruct (cs !! i) as [c|]; simpl; [|done].
  apply IH.
Qed.

Lemma skeleton_set_attr v e : skeleton (set_attr "value" v e) = skeleton e.
Proof.
  destruct e as [t a cs]. unfold set_attr. simpl. f_equal.
  apply filter_attr_set.
Qed.

Lemma skeleton_update v p t :
  skeleton (update (set_attr "value" v) p t) = skeleton t.
Proof.
  revert t. induction p as [|i p IH]; intros t.
  - apply skeleton_set_attr.
  - destruct t as [tg a cs]. simpl. f_equal.
    revert i. induction cs as [|c cs IHcs]; intros [|i]; simpl; try done.
    + by rewrite IH.
    + f_equal. apply IHcs.
Qed.

Lemma apply_writes_snoc ws w t :
  apply_writes (ws ++ [w]) t
  = update (set_attr "value" w.2) w.1 (apply_writes ws t).
Proof. unfold apply_writes. by rewrite fold_left_app. Qed.

Lemma skeleton_apply_writes ws t :
  skeleton (apply_writes ws t) = skeleton t.
Proof.
  induction ws as [|w ws IH] using rev_ind; [done|].
  by rewrite apply_writes_snoc, skeleton_update.
Qed.

Lemma find_in_skeleton t p tg nm :
  find_in (skeleton t) p tg nm = find_in t p tg nm.
Proof.
  unfold find_in. rewrite subtree_skeleton.
  destruct (subtree t p) as [e|]; simpl; [|done].
  by rewrite find_desc_skeleton.
Qed.

Lemma truth_in_skeleton t p : truth_in (skeleton t) p = truth_in t p.
Proof.
  unfold truth_in. rewrite subtree_skeleton.
  destruct (subtree t p) as [[tg a cs]|]; simpl; [|done].
  by rewrite length_map.
Qed.

(** Assignments to [value] attributes change neither what [find] finds
    nor the truth value of an element. *)
Lemma find_in_apply_writes ws t p tg nm :
  find_in (apply_writes ws t) p tg nm = find_in t p tg nm.
Proof.
  by rewrite <-find_in_skeleton, skeleton_apply_writes, find_in_skeleton.
Qed.

Lemma truth_in_apply_writes ws t p :
  truth_in (apply_writes ws t) p = truth_in t p.
Proof.
  by rewrite <-truth_in_skeleton, skeleton_apply_writes, truth_in_skeleton.
Qed.

Lemma valid_skeleton t p : valid (skeleton t) p = valid t p.
Proof. unfold valid. rewrite subtree_skeleton. by destruct (subtree t p). Qed.

Lemma valid_apply_writes ws t p : valid (apply_writes ws t) p = valid t p.
Proof.
  by rewrite <-valid_skeleton, skeleton_apply_writes, valid_skeleton.
Qed.

Lemma attrib_update_ne k v q t p :
  p ≠ q →
  attrib <$> subtree (update (set_attr k v) q t) p = attrib <$> subtree t p.
Proof.
  revert t p. induction q as [|i q IH]; intros [tg a cs] p Hne.
  - destruct p as [|j p]; [done|]. done.
  - destruct p as [|j p]; [done|]. simpl.
    destruct (decide (i = j)) as [->|Hij].
    + rewrite list_lookup_alter_eq.
      destruct (cs !! j) as [c|]; simpl; [|done].
      apply IH. congruence.
    + by rewrite list_lookup_alter_ne.
Qed.

Lemma value_at_update_ne v q t p :
  p ≠ q → value_at (update (set_attr "value" v) q t) p = value_at t p.
Proof.
  intros Hne. unfold value_at.
  pose proof (attrib_update_ne "value" v q t p Hne) as H.
  destruct (subtree (update _ q t) p), (subtree t p); simpl in H;
    congruence.
Qed.

Lemma attr_get_set a k v : attr_get (attr_set a k v) k = Some v.
Proof.
  induction a as [|[k' v'] a IH]; simpl.
  - by rewrite String.eqb_refl.
  - destruct (String.eqb_spec k' k) as [->|Hne]; simpl.
    + by rewrite String.eqb_refl.
    + destruct (String.eqb_spec k' k); [done|]. apply IH.
Qed.

Lemma value_at_update_eq v q t :
  valid t q = true → value_at (update (set_attr "value" v) q t) q = Some v.
Proof.
  unfold valid, value_at. revert t.
  induction q as [|i q IH]; intros [tg a cs]; simpl.
  - intros _. apply attr_get_set.
  - rewrite list_lookup_alter_eq.
    destruct (cs !! i) as [c|]; simpl; [apply IH|done].
Qed.

Lemma last_write_snoc ws q v p :
  last_write (ws ++ [(q, v)]) p
  = if bool_decide (q = p) then Some v else last_write ws p.
Proof.
  induction ws as [|[q' v'] ws IH]; simpl.
  - done.
  - rewrite IH. case_bool_decide; [done|]. done.
Qed.

(** Reading back after a sequence of assignments. *)
Lemma value_at_apply_writes ws t p :
  forallb (λ w, valid t w.1) ws = true →
  value_at (apply_writes ws t) p
  = match last_write ws p with Some v => Some v | None => value_at t p end.
Proof.
  induction ws as [|[q v] ws IH] using rev_ind; [done|].
  rewrite forallb_app. simpl. rewrite andb_true_r.
  intros [Hws Hq]%andb_true_iff.
  rewrite apply_writes_snoc, last_write_snoc. simpl.
  case_bool_decide as Hqp.
  - subst p. apply value_at_update_eq. by rewrite valid_apply_writes.
  - rewrite value_at_update_ne by done. by apply IH.
Qed.

Lemma field_apply_writes ws t p tg nm :
  forallb (λ w, valid t w.1) ws = true →
  field (apply_writes ws t) p tg nm
  = match find_in t p tg nm with
    | Some q => match last_write ws q with
                | Some v => Some v
                | None => value_at t q
                end
    | None => None
    end.
Proof.
  intros Hv. unfold field. rewrite find_in_apply_writes.
  destruct (find_in t p tg nm); [|done].
  by apply value_at_apply_writes.
Qed.

(** What [find] finds has the name asked for. *)
Lemma first_match_names tg nm cs i p :
  Forall (λ c, ∀ p, find_desc tg nm c = Some p → nm ∈ names tg c) cs →
  first_match (matches tg nm) (find_desc tg nm) cs i = Some p →
  nm ∈ concat (map (λ c,
        (if String.eqb (tag c) tg then
           match attr_get (attrib c) "name" with
           | Some x => [x]
           | None => []
           end
         else []) ++ names tg c) cs).
Proof.
  intros H. revert i. induction H as [|c cs Hc _ IH]; intros i; simpl; [done|].
  rewrite !elem_of_app.
  destruct (find_desc tg nm c) as [q|] eqn:E.
  { intros _. left; right. by apply (Hc q). }
  unfold matches at 1.
  destruct (String.eqb (tag c) tg); simpl; [|intros Hr; right; eauto].
  destruct (attr_get (attrib c) "name") as [x|]; [|intros Hr; right; eauto].
  destruct (String.eqb_spec x nm) as [->|Hne]; [|intros Hr; right; eauto].
  intros _. left; left. apply list_elem_of_singleton. done.
Qed.

Lemma find_desc_names tg nm e p :
  find_desc tg nm e = Some p → nm ∈ names tg e.
Proof.
  revert p. induction e as [t a cs IH] using Element_rect'. intros p. simpl.
  by apply first_match_names.
Qed.

Lemma find_in_names t tg nm p :
  find_in t [] tg nm = Some p → nm ∈ names tg t.
Proof.
  unfold find_in. cbn [subtree].
  destruct (find_desc tg nm t) as [q|] eqn:F; [|done].
  intros _. by apply find_desc_names in F.
Qed.

End tree_facts.

(** * Running the converters step by step *)
Section run_facts.

Context {A B : Type}.

Lemma bind_run (m : M A) (k : A → M B) s :
  (m ≫= k) s
  = match m s with
    | (Ok a, s') => k a s'
    | (Err e, s') => (Err e, s')
    end.
Proof. reflexivity. Qed.

Lemma ret_run (a : A) s : (mret a : M A) s = (Ok a, s).
Proof. reflexivity. Qed.

Lemma lift_run (r : res A) s : lift r s = (r, s).
Proof. reflexivity. Qed.

Lemma local_run name (a : A) s : local name (Some a) s = (Ok a, s).
Proof. reflexivity. Qed.

End run_facts.

Lemma bind_assoc_run {A B C} (m : M A) (k : A → M B) (k' : B → M C) s :
  ((m ≫= k) ≫= k') s = (m ≫= (λ a, k a ≫= k')) s.
Proof. unfold mbind, M_bind. by destruct (m s) as [[a|e] s']. Qed.

Lemma Ok_pair_inv {A} (a b : A) (s1 s2 : state) :
  (Ok a, s1) = (Ok b, s2) → a = b ∧ s1 = s2.
Proof. by intros [= -> ->]. Qed.

Lemma res_Ok_bind {A B} (a : A) (k : A → res B) : (Ok a ≫= k) = k a.
Proof. reflexivity. Qed.

Lemma print_run line t out :
  print line (State t out) = (Ok tt, State t (out ++ [line])).
Proof. reflexivity. Qed.

Lemma fromstring_run T s :
  fromstring T s = (Ok (Some []), State (ET.apply_writes [] T) (stdout s)).
Proof. reflexivity. Qed.

Lemma find_run p tg nm ws T out :
  find (Some p) tg nm (State (ET.apply_writes ws T) out)
  = (Ok (ET.find_in T p tg nm), State (ET.apply_writes ws T) out).
Proof. unfold find. simpl. by rewrite find_in_apply_writes. Qed.

Lemma find_None_run tg nm s :
  find None tg nm s
  = (Err (Raise AttributeError "'NoneType' object has no attribute 'find'"), s).
Proof. reflexivity. Qed.

Lemma truth_run p ws T out :
  truth (Some p) (State (ET.apply_writes ws T) out)
  = (Ok (ET.truth_in T p), State (ET.apply_writes ws T) out).
Proof. unfold truth. simpl. by rewrite truth_in_apply_writes. Qed.

Lemma truth_None_run s : truth None s = (Ok false, s).
Proof. reflexivity. Qed.

Lemma set_value_run p tg nm v ws T out :
  set_value (Some p) tg nm v (State (ET.apply_writes ws T) out)
  = match ET.find_in T p tg nm with
    | Some q => (Ok tt, State (ET.apply_writes (ws ++ [(q, v)]) T) out)
    | None =>
        (Err (Raise AttributeError "'NoneType' object has no attribute 'attrib'"),
         State (ET.apply_writes ws T) out)
    end.
Proof.
  unfold set_value. rewrite bind_run, find_run.
  destruct (ET.find_in T p tg nm) as [q|]; [|done].
  unfold set_attrib. simpl. by rewrite apply_writes_snoc.
Qed.

Lemma tostring_run ws T out :
  tostring (Some []) (State (ET.apply_writes ws T) out)
  = (Ok (ET.apply_writes ws T), State (ET.apply_writes ws T) out).
Proof. reflexivity. Qed.

Lemma get_attrib_run p ws T out :
  forallb (λ w, valid T w.1) ws = true →
  get_attrib (Some p) "value" (State (ET.apply_writes ws T) out)
  = (match match ET.last_write ws p with
           | Some v => Some v
           | None => ET.value_at T p
           end with
     | Some v => Ok v
     | None => Py.raise KeyError (Py.str_repr "value")
     end, State (ET.apply_writes ws T) out).
Proof.
  intros Hv. unfold get_attrib. simpl.
  rewrite <-(value_at_apply_writes ws T p Hv). unfold ET.value_at.
  by destruct (ET.subtree (ET.apply_writes ws T) p) as [e|].
Qed.

Lemma for_from_skip body i n s :
  (∀ j, (i ≤ j)%nat → body j s = (Ok tt, s)) →
  for_from i n body s = (Ok tt, s).
Proof.
  revert i. induction n as [|n IH]; intros i Hb; [done|].
  simpl. rewrite bind_run, Hb by lia. apply IH. intros j Hj. apply Hb. lia.
Qed.

(** Reading a field of the output of a run that made the assignments [ws]
    on the template [T]. *)
Lemma at_component_writes T ws name tg nm :
  forallb (λ w, valid T w.1) ws = true →
  at_component (ET.apply_writes ws T) name tg nm
  = match ET.find_in T [] "component" name with
    | Some p =>
        match ET.find_in T p tg nm with
        | Some q => match ET.last_write ws q with
                    | Some v => Some v
                    | None => ET.value_at T q
                    end
        | None => None
        end
    | None => None
    end.
Proof.
  intros Hv. unfold at_component. rewrite find_in_apply_writes.
  destruct (ET.find_in T [] "component" name); [|done].
  by apply field_apply_writes.
Qed.

(** * The exceptions of the numeric conversions *)
Section conversion_errors.
Import Py.

Lemma numeric_error_uncaught e :
  numeric_error e →
  bool_decide (exn_cls e ∈ [KeyError; IndexError]) = false
  ∧ bool_decide (exn_cls e ∈ [KeyError]) = false.
Proof. unfold numeric_error. by destruct (exn_cls e). Qed.

Ltac cls :=
  repeat match goal with
    | H : Ok _ = Err _ |- _ => discriminate H
    | H : Py.raise _ _ = Err _ |- _ =>
        injection H as <-; exact I
    | H : context [match ?x with _ => _ end] |- _ => destruct x eqn:?
    end.

Lemma int_of_float_error f e : int_of_float f = Err e → numeric_error e.
Proof. unfold int_of_float. intros H. cls. Qed.

Lemma float_of_int_error z e : float_of_int z = Err e → numeric_error e.
Proof. unfold float_of_int. intros H. cls. Qed.

Lemma py_int_error v e : py_int v = Err e → numeric_error e.
Proof.
  destruct v; simpl; intros H; try (cls; fail).
  by apply int_of_float_error in H.
Qed.

Lemma number_float_error n e : number_float n = Err e → numeric_error e.
Proof. destruct n; simpl; [apply float_of_int_error|done]. Qed.

Lemma py_truediv_error a b e : py_truediv a b = Err e → numeric_error e.
Proof.
  unfold py_truediv. intros H.
  destruct (as_number a) as [[x|x]|], (as_number b) as [[y|y]|];
    try (cls; fail).
  all: unfold mbind, res_mbind, res_bind in H.
  all: repeat match type of H with
         | context [match ?r with Ok _ => _ | Err _ => _ end] =>
             let E := fresh in destruct r eqn:E;
             [|injection H as <-;
               first [ by apply float_of_int_error in E
                     | by apply number_float_error in E ]]
         end.
  all: cls.
Qed.

Lemma res_bind_error {A B} (r : res A) (k : A → res B) e (P : exn → Prop) :
  (∀ e, r = Err e → P e) → (∀ a e, k a = Err e → P e) →
  (r ≫= k) = Err e → P e.
Proof.
  intros Hr Hk. destruct r as [a|e']; simpl.
  - apply Hk.
  - intros [= <-]. by apply Hr.
Qed.

Lemma is_Ok_bind {A B} (r : res A) (k : A → res B) :
  is_Ok (r ≫= k) → ∃ a, r = Ok a ∧ is_Ok (k a).
Proof. destruct r as [a|e]; [by exists a|by intros [? ?]]. Qed.

Lemma Ok_not_Err {A} (a : A) e (P : Prop) : Ok a = Err e → P.
Proof. done. Qed.

Lemma backup_str_int_error x e : backup.str_int x = Err e → numeric_error e.
Proof.
  apply res_bind_error; [apply py_int_error|]. intros a e'. apply Ok_not_Err.
Qed.

Lemma custom_str_int_error x e :
  custom_converter.str_int x = Err e → numeric_error e.
Proof.
  apply res_bind_error; [apply py_int_error|]. intros a e'. apply Ok_not_Err.
Qed.

End conversion_errors.

(** * Runs of [custom_converter.create_mcpat_xml] *)
Section custom_run.
Import Py custom_converter custom_spec.

Lemma get_stat_value_run stats key default d s :
  py_float default = Ok d →
  get_stat_value stats key default s
  = (Ok (stat_or stats key d),
     State (root s) (stdout s ++ stat_warnings stats key default)).
Proof.
  intros Hd. unfold get_stat_value, stat_or, stat_warnings. destruct s as [t out].
  destruct (stats !! key) as [v|]; simpl.
  { by rewrite app_nil_r. }
  destruct (first_present stats (aliases key)) as [v|]; simpl.
  { by rewrite app_nil_r. }
  rewrite bind_run, print_run, lift_run, Hd. done.
Qed.

Lemma custom_py_float_0 : py_float (VInt 0) = Ok zero.
Proof. reflexivity. Qed.

Lemma py_float_1e9 : py_float (VInt 1000000000) = Ok (Float.of_Z 1000000000).
Proof. reflexivity. Qed.

Lemma truediv_million x :
  py_truediv (VFloat x) (VFloat million) = Ok (Float.div x million).
Proof. reflexivity. Qed.

Lemma write_int_run n tg nm x s :
  write_int n tg nm x s
  = match int_of_float x with
    | Ok z => set_value n tg nm (pretty z) s
    | Err e => (Err e, s)
    end.
Proof.
  unfold write_int. rewrite bind_run, lift_run. unfold str_int. simpl.
  unfold mbind, res_mbind, res_bind. by destruct (int_of_float x).
Qed.

Local Abbreviation T := mcpat_template.

Lemma write_int_run' p tg nm x ws out :
  write_int (Some p) tg nm x (State (ET.apply_writes ws T) out)
  = match int_of_float x with
    | Ok _ =>
        match ET.find_in T p tg nm with
        | Some q => (Ok tt, State (ET.apply_writes (ws ++ [(q, itos x)]) T) out)
        | None =>
            (Err (Raise AttributeError "'NoneType' object has no attribute 'attrib'"),
             State (ET.apply_writes ws T) out)
        end
    | Err e => (Err e, State (ET.apply_writes ws T) out)
    end.
Proof.
  rewrite write_int_run. unfold itos.
  destruct (int_of_float x); [|done]. apply set_value_run.
Qed.

Ltac eval_nodes H :=
  repeat match type of H with
    | context [ET.find_in T ?p ?tg ?nm] =>
        let r := eval vm_compute in (ET.find_in T p tg nm) in
        change (ET.find_in T p tg nm) with r in H
    | context [ET.truth_in T ?p] =>
        let r := eval vm_compute in (ET.truth_in T p) in
        change (ET.truth_in T p) with r in H
    end.

Ltac tidy H := cbv beta iota in H; eval_nodes H; cbv beta iota in H.

Ltac step H :=
  rewrite ?bind_assoc_run in H;
  rewrite bind_run in H;
  first
    [ rewrite find_run in H
    | rewrite truth_run in H
    | rewrite set_value_run in H
    | rewrite (get_stat_value_run _ _ _ _ _ custom_py_float_0) in H
    | rewrite (get_stat_value_run _ _ _ _ _ py_float_1e9) in H
    | rewrite local_run in H
    | rewrite ret_run in H
    | rewrite truediv_million, lift_run in H
    | rewrite write_int_run' in H;
      match type of H with
      | context [match int_of_float ?x with _ => _ end] =>
          first
            [ match goal with
              | E : int_of_float x = Ok _ |- _ => rewrite E in H
              end
            | let E := fresh "Hint" in
              destruct (int_of_float x) eqn:E; [|discriminate H] ]
      end ];
  tidy H; cbn [root stdout] in H.

Lemma custom_system_parameters_ok stats n ws out r s' :
  system_parameters stats system_node n (State (ET.apply_writes ws T) out)
  = (Ok r, s') →
  r = (Some (total_cycles stats), Some (clock_rate_mhz stats))
  ∧ s' = State (ET.apply_writes (ws ++ system_writes stats n) T)
           (out ++ system_log stats)
  ∧ is_Ok (int_of_float (total_cycles stats)).
Proof.
  intros H. unfold system_parameters in H.
  let r := eval vm_compute in system_node in change system_node with r in H.
  do 8 step H. rewrite ret_run in H.
  injection H as <- <-. repeat rewrite <-app_assoc.
  split_and!; [reflexivity|reflexivity|by eexists].
Qed.

Ltac step_try H :=
  unfold l1_cache_config, try_except in H; rewrite bind_run, lift_run in H;
  match type of H with
  | context [l1_geometry ?a ?b ?c ?d ?e] =>
      let G := fresh "Hgeo" in
      destruct (l1_geometry a b c d e) as [?|?] eqn:G
  end;
  cbv beta iota in H;
  [ rewrite set_value_run in H; tidy H
  | case_bool_decide; [rewrite print_run in H|discriminate H] ];
  cbv beta iota in H.

Lemma custom_core_parameters_ok stats config cls ws out s' :
  core_parameters stats config cls (Some []) (Some (total_cycles stats))
    (Some (clock_rate_mhz stats)) 0 (State (ET.apply_writes ws T) out)
  = (Ok tt, s') →
  s' = State (ET.apply_writes (ws ++ core_writes stats config cls) T)
         (out ++ core_log stats config cls)
  ∧ Forall (λ x, is_Ok (int_of_float x))
      (total_cycles stats :: map (λ k, stat_or stats k zero) core_keys).
Proof.
  intros H. unfold core_parameters in H.
  do 27 step H.
  rewrite bind_run in H. step_try H.
  all: step H; step_try H.
  all: injection H as <-.
  all: split; [|repeat constructor; by eexists].
  all: unfold core_writes, core_log, geometry_writes, geometry_log.
  all: rewrite Hgeo, Hgeo0.
  all: f_equal; [repeat rewrite <-app_assoc; reflexivity|].
  all: cbn [core_keys map concat]; rewrite ?app_nil_r.
  all: repeat rewrite <-app_assoc; reflexivity.
Qed.

Lemma str_nat_inj i j : str_nat i = str_nat j → i = j.
Proof.
  unfold str_nat. simpl. intros H%(inj pretty). lia.
Qed.

(** The template has the single core component [core0]. *)
Lemma find_core_None ws j :
  (1 ≤ j)%nat →
  ET.find_in (ET.apply_writes ws T) [] "component" ("core" +:+ str_nat j) = None.
Proof.
  intros Hj. rewrite find_in_apply_writes.
  destruct (ET.find_in T [] "component" ("core" +:+ str_nat j)) as [p|] eqn:E;
    [exfalso|done].
  apply find_in_names in E. rename E into F.
  let l := eval vm_compute in (ET.names "component" T) in
  change (ET.names "component" T) with l in F.
  repeat (apply elem_of_cons in F as [F|F]);
    try (simpl in F; discriminate F); [|by apply elem_of_nil in F].
  simpl in F. injection F as F. apply (str_nat_inj j 0) in F. lia.
Qed.

Lemma core_parameters_skip stats config cls tc mhz j ws out :
  (1 ≤ j)%nat →
  core_parameters stats config cls (Some []) tc mhz j
    (State (ET.apply_writes ws T) out)
  = (Ok tt, State (ET.apply_writes ws T) out).
Proof.
  intros Hj. unfold core_parameters.
  rewrite bind_run. unfold find. cbn [root].
  rewrite (find_core_None ws j Hj). done.
Qed.

Lemma l2_cache_ok stats ws out s' :
  forallb (λ w, valid T w.1) ws = true →
  ET.last_write ws [0; 3]%nat = None →
  l2_cache stats (Some []) system_node (State (ET.apply_writes ws T) out)
  = (Ok tt, s') →
  s' = State (ET.apply_writes (ws ++ l2_writes stats) T) (out ++ l2_log stats)
  ∧ Forall (λ x, is_Ok (int_of_float x))
      [ stat_or stats "system.l2cache.ReadReq::total" zero;
        stat_or stats "system.l2cache.WriteReq::total" zero ].
Proof.
  intros Hv Hw H. unfold l2_cache in H.
  let r := eval vm_compute in system_node in change system_node with r in H.
  step H.
  rewrite bind_run, (get_attrib_run _ _ _ _ Hv), Hw in H.
  let r := eval vm_compute in (ET.value_at T [0; 3]%nat) in
  change (ET.value_at T [0; 3]%nat) with r in H.
  cbv beta iota in H.
  rewrite bind_run, lift_run in H.
  let r := eval vm_compute in (py_int (VStr "1")) in
  change (py_int (VStr "1")) with r in H.
  cbv beta iota in H.
  change (Z.to_nat 1) with 1%nat in H. unfold for_range in H. cbn [for_from] in H.
  do 6 step H. rewrite ret_run in H.
  injection H as <-.
  split; [|repeat constructor; by eexists].
  unfold l2_writes, l2_log. f_equal; repeat rewrite <-app_assoc; reflexivity.
Qed.

Lemma last_write_app ws ws' p :
  ET.last_write (ws ++ ws') p
  = match ET.last_write ws' p with
    | Some v => Some v
    | None => ET.last_write ws p
    end.
Proof.
  induction ws as [|[q v] ws IH]; simpl.
  - by destruct (ET.last_write ws' p).
  - rewrite IH. by destruct (ET.last_write ws' p).
Qed.

Lemma system_writes_valid stats n :
  forallb (λ w, valid T w.1) (system_writes stats n) = true
  ∧ ET.last_write (system_writes stats n) [0; 3]%nat = None.
Proof. split; reflexivity. Qed.

Lemma core_writes_valid stats cfg cls :
  forallb (λ w, valid T w.1) (core_writes stats cfg cls) = true
  ∧ ET.last_write (core_writes stats cfg cls) [0; 3]%nat = None.
Proof.
  unfold core_writes, geometry_writes.
  destruct (l1_geometry cfg cls "l1icaches" 0 "0"),
    (l1_geometry cfg cls "l1dcaches" 0 "1"); split; reflexivity.
Qed.

Ltac step_lift H :=
  rewrite ?bind_assoc_run in H; rewrite bind_run, lift_run in H;
  match type of H with
  | context [match ?r with Ok _ => _ | Err _ => _ end] =>
      let E := fresh "Hres" in
      destruct r eqn:E; [|discriminate H]
  end;
  cbv beta iota in H.

(** A run of [create_mcpat_xml] that returns has made the assignments
    [writes] on the template and printed [log]. *)
Lemma custom_create_mcpat_xml_ok stats config s t s' :
  create_mcpat_xml stats config s = (Ok t, s') →
  ∃ cfg cls n,
    unwrap_config config = Ok cfg
    ∧ cache_line_size cfg = Ok cls
    ∧ core_count cfg = Ok n
    ∧ t = ET.apply_writes (writes stats cfg cls n) T
    ∧ s' = State t (stdout s ++ log stats cfg cls n)
    ∧ Forall (λ x, is_Ok (int_of_float x)) (truncated stats n).
Proof.
  intros H. unfold create_mcpat_xml in H.
  step_lift H. rename a into cfg.
  rewrite bind_run, fromstring_run in H. cbv beta iota in H.
  step_lift H. rename a into board.
  step_lift H. rename a into cls.
  step_lift H. rename a into n.
  step H.
  rewrite bind_run in H.
  destruct (system_parameters _ _ _ _) as [[[tc mhz]|e] s1] eqn:Hsys;
    [|discriminate H].
  apply custom_system_parameters_ok in Hsys as (Hr & -> & Hint).
  injection Hr as -> ->.
  exists cfg, cls, n. split; [done|]. split.
  { unfold cache_line_size. rewrite Hres0. exact Hres1. }
  split; [done|].
  destruct (system_writes_valid stats n) as [Hv1 Hw1].
  destruct (core_writes_valid stats cfg cls) as [Hv2 Hw2].
  destruct n as [|n].
  - unfold for_range in H. cbn [for_from] in H.
    rewrite bind_run, ret_run in H.
    rewrite bind_run in H.
    destruct (l2_cache _ _ _ _) as [[[]|e] s2] eqn:Hl2; [|discriminate H].
    apply l2_cache_ok in Hl2 as [-> Hint2]; [|done..].
    rewrite tostring_run in H. apply Ok_pair_inv in H as [<- <-].
    split_and!.
    + unfold writes. rewrite <-?app_assoc, ?app_nil_l. reflexivity.
    + unfold log. rewrite <-?app_assoc, ?app_nil_l. reflexivity.
    + constructor; [done|]. exact Hint2.
  - unfold for_range in H. cbn [for_from] in H.
    rewrite bind_assoc_run, bind_run in H.
    destruct (core_parameters _ _ _ _ _ _ _ _) as [[[]|e] s2] eqn:Hcore;
      [|discriminate H].
    apply custom_core_parameters_ok in Hcore as [-> Hint1].
    rewrite bind_run, for_from_skip in H
      by (intros j Hj; by apply core_parameters_skip).
    rewrite bind_run in H.
    destruct (l2_cache _ _ _ _) as [[[]|e] s2] eqn:Hl2; [|discriminate H].
    apply l2_cache_ok in Hl2 as [-> Hint2].
    2: { rewrite !forallb_app, Hv1, Hv2. done. }
    2: { rewrite !last_write_app, Hw2, Hw1. done. }
    rewrite tostring_run in H. apply Ok_pair_inv in H as [<- <-].
    split_and!.
    + unfold writes. rewrite <-?app_assoc, ?app_nil_l. reflexivity.
    + unfold log. rewrite <-?app_assoc, ?app_nil_l. reflexivity.
    + unfold truncated. apply Forall_cons in Hint1 as [? Hint1].
      constructor; [done|]. apply Forall_app. done.
Qed.
Lemma custom_system_parameters_returns stats n ws out :
  is_Ok (int_of_float (total_cycles stats)) →
  system_parameters stats system_node n (State (ET.apply_writes ws T) out)
  = (Ok (Some (total_cycles stats), Some (clock_rate_mhz stats)),
     State (ET.apply_writes (ws ++ system_writes stats n) T)
       (out ++ system_log stats)).
Proof.
  intros [z Hz].
  destruct (system_parameters _ _ _ _) as [[r|e] s'] eqn:H.
  { by apply custom_system_parameters_ok in H as (-> & -> & _). }
  exfalso. unfold total_cycles in Hz. unfold system_parameters in H.
  let r := eval vm_compute in system_node in change system_node with r in H.
  do 8 step H. rewrite ret_run in H. discriminate H.
Qed.

(** The [try] of an L1 cache, when its lookups succeed or are caught. *)
Ltac step_handled H :=
  unfold l1_cache_config, try_except in H; rewrite bind_run, lift_run in H;
  match type of H with
  | context [l1_geometry ?a ?b ?c ?d ?e] =>
      match goal with
      | Hh : handled _ (l1_geometry a b c d e) |- _ =>
          let G := fresh "Hgeo" in
          destruct (l1_geometry a b c d e) as [?|?] eqn:G;
          cbv beta iota in H;
          [ rewrite set_value_run in H; tidy H
          | rewrite bool_decide_eq_true_2 in H by exact Hh;
            rewrite print_run in H ]
      end
  end;
  cbv beta iota in H.

Lemma custom_core_parameters_returns stats config cls ws out :
  Forall (λ x, is_Ok (int_of_float x))
    (total_cycles stats :: map (λ k, stat_or stats k zero) core_keys) →
  handled [KeyError; IndexError] (l1_geometry config cls "l1icaches" 0 "0") →
  handled [KeyError; IndexError] (l1_geometry config cls "l1dcaches" 0 "1") →
  core_parameters stats config cls (Some []) (Some (total_cycles stats))
    (Some (clock_rate_mhz stats)) 0 (State (ET.apply_writes ws T) out)
  = (Ok tt,
     State (ET.apply_writes (ws ++ core_writes stats config cls) T)
       (out ++ core_log stats config cls)).
Proof.
  intros Hint Hi Hd.
  destruct (core_parameters _ _ _ _ _ _ _ _) as [[[]|e] s'] eqn:H.
  { by apply custom_core_parameters_ok in H as [-> _]. }
  exfalso. cbn [core_keys map] in Hint.
  repeat match goal with
    | F : Forall _ (_ :: _) |- _ => apply Forall_cons in F as [[? ?] F]
    end.
  unfold core_parameters in H.
  do 27 step H.
  rewrite bind_run in H. step_handled H.
  all: step H; step_handled H.
  all: discriminate H.
Qed.

Lemma l2_cache_returns stats ws out :
  forallb (λ w, valid T w.1) ws = true →
  ET.last_write ws [0; 3]%nat = None →
  Forall (λ x, is_Ok (int_of_float x))
    [ stat_or stats "system.l2cache.ReadReq::total" zero;
      stat_or stats "system.l2cache.WriteReq::total" zero ] →
  l2_cache stats (Some []) system_node (State (ET.apply_writes ws T) out)
  = (Ok tt,
     State (ET.apply_writes (ws ++ l2_writes stats) T) (out ++ l2_log stats)).
Proof.
  intros Hv Hw Hint.
  destruct (l2_cache _ _ _ _) as [[[]|e] s'] eqn:H.
  { by apply l2_cache_ok in H as [-> _]. }
  exfalso.
  repeat match goal with
    | F : Forall _ (_ :: _) |- _ => apply Forall_cons in F as [[? ?] F]
    end.
  unfold l2_cache in H.
  let r := eval vm_compute in system_node in change system_node with r in H.
  step H.
  rewrite bind_run, (get_attrib_run _ _ _ _ Hv), Hw in H.
  let r := eval vm_compute in (ET.value_at T [0; 3]%nat) in
  change (ET.value_at T [0; 3]%nat) with r in H.
  cbv beta iota in H.
  rewrite bind_run, lift_run in H.
  let r := eval vm_compute in (py_int (VStr "1")) in
  change (py_int (VStr "1")) with r in H.
  cbv beta iota in H.
  change (Z.to_nat 1) with 1%nat in H. unfold for_range in H. cbn [for_from] in H.
  do 6 step H. rewrite ret_run in H. discriminate H.
Qed.

(** A run of [create_mcpat_xml] whose conversions succeed returns, with
    the assignments [writes] made and [log] printed. *)
Lemma custom_create_mcpat_xml_returns stats config cfg cls n s :
  unwrap_config config = Ok cfg →
  cache_line_size cfg = Ok cls →
  core_count cfg = Ok n →
  Forall (λ x, is_Ok (int_of_float x)) (truncated stats n) →
  match n with
  | O => True
  | S _ =>
      handled [KeyError; IndexError] (l1_geometry cfg cls "l1icaches" 0 "0")
      ∧ handled [KeyError; IndexError] (l1_geometry cfg cls "l1dcaches" 0 "1")
  end →
  create_mcpat_xml stats config s
  = (Ok (ET.apply_writes (writes stats cfg cls n) T),
     State (ET.apply_writes (writes stats cfg cls n) T)
       (stdout s ++ log stats cfg cls n)).
Proof.
  intros Hcfg Hcls Hn Hint Hgeo.
  unfold cache_line_size in Hcls.
  destruct (py_get cfg "board" (VDict [])) as [board|] eqn:Hb; [|done].
  rewrite res_Ok_bind in Hcls.
  destruct (system_writes_valid stats n) as [Hv1 Hw1].
  destruct (core_writes_valid stats cfg cls) as [Hv2 Hw2].
  unfold create_mcpat_xml.
  rewrite bind_run, lift_run, Hcfg. cbv beta iota.
  rewrite bind_run, fromstring_run. cbv beta iota.
  rewrite bind_run, lift_run, Hb. cbv beta iota.
  rewrite bind_run, lift_run, Hcls. cbv beta iota.
  rewrite bind_run, lift_run, Hn. cbv beta iota.
  rewrite bind_run, find_run.
  change (ET.find_in T [] "component" "system") with system_node.
  cbv beta iota.
  unfold truncated in Hint. apply Forall_cons in Hint as [Htc Hint].
  rewrite bind_run, custom_system_parameters_returns by done.
  cbv beta iota. unfold for_range.
  destruct n as [|n].
  - cbn [for_from]. rewrite bind_run, ret_run, bind_run.
    rewrite l2_cache_returns by done.
    rewrite tostring_run. unfold writes, log.
    by rewrite <-?app_assoc, ?app_nil_l.
  - destruct Hgeo as [Hi Hd]. apply Forall_app in Hint as [Hcore Hl2].
    cbn [for_from]. rewrite bind_assoc_run, bind_run.
    rewrite custom_core_parameters_returns by (try done; by constructor).
    rewrite bind_run, for_from_skip
      by (intros j Hj; by apply core_parameters_skip).
    rewrite bind_run, l2_cache_returns; [|by rewrite !forallb_app, Hv1, Hv2
      |by rewrite !last_write_app, Hw2, Hw1|done].
    rewrite tostring_run. unfold writes, log.
    by rewrite <-?app_assoc, ?app_nil_l.
Qed.

Lemma finite_int_of_float x :
  Float.is_finite x = true → is_Ok (int_of_float x).
Proof. destruct x; try done; by eexists. Qed.

Lemma first_present_in stats names v :
  first_present stats names = Some v → ∃ k, stats !! k = Some v.
Proof.
  induction names as [|k names IH]; simpl; [done|].
  destruct (stats !! k) as [x|] eqn:Hk; [|done].
  intros [= <-]. by exists k.
Qed.

Lemma finite_stat_or stats key :
  finite_stats stats → is_Ok (int_of_float (stat_or stats key zero)).
Proof.
  intros Hf. apply finite_int_of_float. unfold stat_or.
  destruct (stats !! key) as [v|] eqn:Hk; [by apply (Hf key)|].
  destruct (first_present _ _) as [v|] eqn:Ha; [|done].
  apply first_present_in in Ha as [k Hk']. by apply (Hf k).
Qed.

(** A table of finite values has every truncation a run makes. *)
Lemma finite_truncated stats n :
  finite_stats stats →
  Forall (λ x, is_Ok (int_of_float x)) (truncated stats n).
Proof.
  intros Hf. unfold truncated, total_cycles.
  destruct n; cbn [core_keys map app];
    repeat constructor; by apply finite_stat_or.
Qed.

Lemma custom_converts_returns stats config s :
  converts stats config →
  ∃ t s', create_mcpat_xml stats config s = (Ok t, s').
Proof.
  intros (cfg & cls & n & Hcfg & Hcls & Hn & Hint & Hgeo).
  eexists _, _. by apply (custom_create_mcpat_xml_returns _ _ cfg cls n).
Qed.

(** In a run of the body of the core loop that returns, each lookup of
    an L1 cache succeeded or raised what its [try] catches. *)
Lemma custom_core_parameters_handled stats config cls ws out s' :
  core_parameters stats config cls (Some []) (Some (total_cycles stats))
    (Some (clock_rate_mhz stats)) 0 (State (ET.apply_writes ws T) out)
  = (Ok tt, s') →
  handled [KeyError; IndexError] (l1_geometry config cls "l1icaches" 0 "0")
  ∧ handled [KeyError; IndexError] (l1_geometry config cls "l1dcaches" 0 "1").
Proof.
  intros H. unfold core_parameters in H.
  do 27 step H.
  rewrite bind_run in H. step_try H.
  all: step H; step_try H.
  all: rewrite ?Hgeo, ?Hgeo0; split; done.
Qed.

Lemma custom_returns_converts stats config s t s' :
  create_mcpat_xml stats config s = (Ok t, s') → converts stats config.
Proof.
  intros H.
  destruct (custom_create_mcpat_xml_ok _ _ _ _ _ H)
    as (cfg & cls & n & Hcfg & Hcls & Hn & _ & _ & Hint).
  exists cfg, cls, n. split_and!; try done.
  destruct n as [|n]; [done|].
  unfold create_mcpat_xml in H. rewrite bind_run, lift_run, Hcfg in H.
  cbv beta iota in H.
  rewrite bind_run, fromstring_run in H. cbv beta iota in H.
  unfold cache_line_size in Hcls.
  destruct (py_get cfg "board" (VDict [])) as [board|] eqn:Hb; [|done].
  rewrite res_Ok_bind in Hcls.
  rewrite bind_run, lift_run in H. cbv beta iota in H.
  rewrite bind_run, lift_run, Hcls in H. cbv beta iota in H.
  rewrite bind_run, lift_run, Hn in H. cbv beta iota in H.
  rewrite bind_run, find_run in H.
  change (ET.find_in T [] "component" "system") with system_node in H.
  cbv beta iota in H.
  apply Forall_cons in Hint as [Htc Hint].
  rewrite bind_run, custom_system_parameters_returns in H by done.
  cbv beta iota in H. unfold for_range in H. cbn [for_from] in H.
  rewrite bind_assoc_run, bind_run in H.
  destruct (core_parameters _ _ _ _ _ _ _ _) as [[[]|e] s2] eqn:Hcore;
    [|discriminate H].
  by apply custom_core_parameters_handled in Hcore.
Qed.

End custom_run.

(** * Runs of [backup.create_mcpat_xml] *)
Section backup_run.
Import Py backup backup_spec.

Local Abbreviation T := mcpat_template.

Lemma get_stat_value_eq stats key default d :
  py_float default = Ok d →
  get_stat_value stats key default = Ok (stat_val stats key default d).
Proof.
  intros Hd. unfold get_stat_value, stat_val.
  destruct (stats !! key) as [t|]; cbv zeta beta iota; [|by rewrite Hd].
  unfold py_float. destruct (float_of_string t); reflexivity.
Qed.

Lemma backup_py_float_0 : py_float (VInt 0) = Ok zero.
Proof. reflexivity. Qed.

Lemma py_float_1e12 :
  py_float (VInt 1000000000000) = Ok (Float.of_Z 1000000000000).
Proof. reflexivity. Qed.

Lemma write_stat_run p nm key stats ws out :
  write_stat stats (Some p) nm key (VInt 0) (State (ET.apply_writes ws T) out)
  = match sint stats key with
    | Ok _ =>
        match ET.find_in T p "param" nm with
        | Some q =>
            (Ok tt,
             State (ET.apply_writes (ws ++ [(q, sstr stats key)]) T) out)
        | None =>
            (Err (Raise AttributeError "'NoneType' object has no attribute 'attrib'"),
             State (ET.apply_writes ws T) out)
        end
    | Err e => (Err e, State (ET.apply_writes ws T) out)
    end.
Proof.
  unfold write_stat. rewrite bind_run, lift_run.
  rewrite (get_stat_value_eq _ _ _ _ backup_py_float_0). unfold sstr, sint.
  rewrite res_Ok_bind.
  destruct (str_int _); [|done]. apply set_value_run.
Qed.

Lemma lift_sint_run {B} stats key (k : string → M B) s :
  (lift (str_int (stat_val stats key (VInt 0) zero)) ≫= k) s
  = match sint stats key with
    | Ok _ => k (sstr stats key) s
    | Err e => (Err e, s)
    end.
Proof.
  rewrite bind_run, lift_run. unfold sstr, sint.
  by destruct (str_int _).
Qed.

Ltac eval_nodes H :=
  repeat match type of H with
    | context [ET.find_in T ?p ?tg ?nm] =>
        let r := eval vm_compute in (ET.find_in T p tg nm) in
        change (ET.find_in T p tg nm) with r in H
    | context [ET.truth_in T ?p] =>
        let r := eval vm_compute in (ET.truth_in T p) in
        change (ET.truth_in T p) with r in H
    end.

Ltac tidy H := cbv beta iota in H; eval_nodes H; cbv beta iota in H.

Ltac case_sint H :=
  match type of H with
  | context [match sint ?s ?k with _ => _ end] =>
      first
        [ match goal with
          | E : sint s k = Ok _ |- _ => rewrite E in H
          end
        | let E := fresh "Hint" in
          destruct (sint s k) eqn:E; [|discriminate H] ]
  end.

Ltac bstep H :=
  rewrite ?bind_assoc_run in H;
  first
    [ rewrite lift_sint_run in H; case_sint H
    | rewrite bind_run in H;
      first
        [ rewrite find_run in H
        | rewrite truth_run in H
        | rewrite set_value_run in H
        | rewrite local_run in H
        | rewrite ret_run in H
        | rewrite (get_stat_value_eq _ _ _ _ backup_py_float_0), lift_run in H
        | rewrite (get_stat_value_eq _ _ _ _ py_float_1e12), lift_run in H
        | rewrite write_stat_run in H; case_sint H ] ];
  tidy H; cbn [root stdout] in H.

Lemma backup_system_parameters_ok stats ws out r s' :
  system_parameters stats system_node (State (ET.apply_writes ws T) out)
  = (Ok r, s') →
  ∃ mhz, r = Some mhz ∧ clock_rate_mhz stats = Ok mhz
  ∧ s' = State (ET.apply_writes (ws ++ system_writes stats) T) out.
Proof.
  intros H. unfold system_parameters in H.
  let r := eval vm_compute in system_node in change system_node with r in H.
  do 4 bstep H.
  rewrite bind_run, lift_run in H.
  change (py_truediv _ _) with (clock_rate_mhz stats) in H.
  destruct (clock_rate_mhz stats) as [mhz|] eqn:Hmhz; [|discriminate H].
  cbv beta iota in H.
  bstep H. rewrite ret_run in H.
  apply Ok_pair_inv in H as [<- <-].
  exists mhz. split_and!; [done..|].
  unfold system_writes, mhz_str. rewrite Hmhz.
  rewrite <-?app_assoc. reflexivity.
Qed.

Lemma backup_core_parameters_ok stats mhz ws out s' :
  clock_rate_mhz stats = Ok mhz →
  core_parameters stats core_node (Some mhz) (State (ET.apply_writes ws T) out)
  = (Ok tt, s') →
  s' = State (ET.apply_writes (ws ++ core_writes stats) T) out.
Proof.
  intros Hmhz H. unfold core_parameters in H.
  let r := eval vm_compute in core_node in change core_node with r in H.
  repeat bstep H.
  rewrite write_stat_run in H; case_sint H; tidy H.
  apply Ok_pair_inv in H as [_ <-].
  unfold core_writes, mhz_str. rewrite Hmhz.
  rewrite <-?app_assoc. reflexivity.
Qed.

Lemma sint_error stats key e : sint stats key = Err e → numeric_error e.
Proof. apply backup_str_int_error. Qed.

Lemma kb_error size e : kb size = Err e → numeric_error e.
Proof.
  apply res_bind_error; [apply py_int_error|]. intros a e'.
  apply py_truediv_error.
Qed.

(** Inside a [try]: the outcome of the body, then the [except] clause. *)
Ltac spec_rewrite :=
  unfold cache_writes, cache_log, geometry;
  repeat first
    [ rewrite res_Ok_bind
    | match goal with
      | E : getitem _ _ = _ |- _ => rewrite E
      end ];
  cbn [mbind res_mbind res_bind].

Ltac caught H :=
  cbv beta iota in H;
  case_bool_decide; [rewrite print_run in H|discriminate H];
  apply Ok_pair_inv in H as [_ <-];
  spec_rewrite; by rewrite app_nil_r.

Ltac uncaught H E lem :=
  apply lem in E; destruct (numeric_error_uncaught _ E) as [? ?];
  cbv beta iota in H;
  match type of H with
  | context [bool_decide ?P] =>
      replace (bool_decide P) with false in H by done
  end;
  discriminate H.

Ltac try_lookup H :=
  rewrite ?bind_assoc_run in H; rewrite bind_run, lift_run in H;
  match type of H with
  | context [match ?r with Ok _ => _ | Err _ => _ end] =>
      let E := fresh "Hlookup" in
      destruct r as [?|?] eqn:E; [cbv beta iota in H|caught H]
  end.

Ltac try_sint H :=
  match type of H with
  | context [match sint ?s ?k with _ => _ end] =>
      first
        [ match goal with
          | E : sint s k = Ok _ |- _ => rewrite E in H
          end
        | let E := fresh "Hint" in
          destruct (sint s k) eqn:E; [|uncaught H E sint_error] ]
  end.

Ltac try_step H :=
  rewrite ?bind_assoc_run in H;
  first
    [ rewrite lift_sint_run in H; try_sint H
    | rewrite bind_run in H;
      first
        [ rewrite set_value_run in H
        | rewrite (get_stat_value_eq _ _ _ _ backup_py_float_0), lift_run in H ] ];
  tidy H; cbn [root stdout] in H.

Ltac cache_block H :=
  bstep H; unfold try_except, cache_body in H;
  do 3 try_lookup H;
  rewrite ?bind_assoc_run in H; rewrite bind_run, lift_run in H;
  match type of H with
  | context [match ?r with Ok _ => _ | Err _ => _ end] =>
      match r with
      | context [py_int ?size] =>
          change r with (kb size) in H;
          let E := fresh "Hkb" in
          destruct (kb size) as [?|?] eqn:E;
          [cbv beta iota in H|uncaught H E kb_error]
      end
  end;
  repeat try_step H;
  rewrite set_value_run in H; tidy H;
  apply Ok_pair_inv in H as [_ <-];
  spec_rewrite; unfold kb_str;
  match goal with E : kb _ = Ok _ |- _ => rewrite E end;
  rewrite ?app_nil_r, <-?app_assoc; reflexivity.

Lemma l1i_parameters_ok stats config cls ws out s' :
  l1i_parameters stats config cls l1i_node (State (ET.apply_writes ws T) out)
  = (Ok tt, s') →
  s' = State
         (ET.apply_writes
            (ws ++ cache_writes stats l1i_node (l1_entry config "l1icaches")
                     cls "l1icaches") T)
         (out ++ cache_log (l1_entry config "l1icaches") l1i_warning).
Proof.
  intros H. unfold l1i_parameters in H.
  let r := eval vm_compute in l1i_node in change l1i_node with r in *.
  cache_block H.
Qed.

Lemma l1d_parameters_ok stats config cls ws out s' :
  l1d_parameters stats config cls l1d_node (State (ET.apply_writes ws T) out)
  = (Ok tt, s') →
  s' = State
         (ET.apply_writes
            (ws ++ cache_writes stats l1d_node (l1_entry config "l1dcaches")
                     cls "l1dcaches") T)
         (out ++ cache_log (l1_entry config "l1dcaches") l1d_warning).
Proof.
  intros H. unfold l1d_parameters in H.
  let r := eval vm_compute in l1d_node in change l1d_node with r in *.
  cache_block H.
Qed.

Lemma l2_parameters_ok stats config cls ws out s' :
  l2_parameters stats config cls l2_node (State (ET.apply_writes ws T) out)
  = (Ok tt, s') →
  s' = State
         (ET.apply_writes
            (ws ++ cache_writes stats l2_node (l2_entry config) cls "l2cache") T)
         (out ++ cache_log (l2_entry config) l2_warning).
Proof.
  intros H. unfold l2_parameters in H.
  let r := eval vm_compute in l2_node in change l2_node with r in *.
  cache_block H.
Qed.

Lemma main_memory_ok stats ws out s' :
  main_memory stats mem_node (State (ET.apply_writes ws T) out) = (Ok tt, s') →
  s' = State (ET.apply_writes (ws ++ memory_writes stats) T) out
  ∧ is_Ok (ext_dram_accesses stats).
Proof.
  intros H. unfold main_memory in H.
  let r := eval vm_compute in mem_node in change mem_node with r in *.
  do 3 bstep H.
  rewrite bind_run, lift_run in H.
  destruct (py_add _ _) as [ext|] eqn:Hadd; [|discriminate H].
  cbv beta iota in H. rewrite bind_run, lift_run in H.
  destruct (str_int ext) as [v|] eqn:Hstr; [|discriminate H].
  cbv beta iota in H. rewrite set_value_run in H. tidy H.
  apply Ok_pair_inv in H as [_ <-].
  unfold memory_writes, ext_dram_accesses. rewrite Hadd, res_Ok_bind, Hstr.
  split; [reflexivity|by eexists].
Qed.

(** A run of [create_mcpat_xml] that returns has made the assignments
    [writes] on the template and printed [log]. *)
Lemma backup_create_mcpat_xml_ok stats config s t s' :
  create_mcpat_xml stats config s = (Ok t, s') →
  ∃ cls,
    cache_line_size config = Ok cls
    ∧ t = ET.apply_writes (writes stats config cls) T
    ∧ s' = State t (stdout s ++ log config)
    ∧ is_Ok (ext_dram_accesses stats).
Proof.
  intros H. unfold create_mcpat_xml in H.
  rewrite bind_run, fromstring_run in H. cbv beta iota in H.
  rewrite bind_run, lift_run in H.
  destruct (py_get config _ _) as [board|] eqn:Hboard; [|discriminate H].
  cbv beta iota in H. rewrite bind_run, lift_run in H.
  destruct (py_get board _ _) as [cls|] eqn:Hcls; [|discriminate H].
  cbv beta iota in H.
  bstep H. rewrite bind_run in H.
  destruct (system_parameters _ _ _) as [[r|e] s1] eqn:Hsys; [|discriminate H].
  apply backup_system_parameters_ok in Hsys as (mhz & -> & Hmhz & ->).
  bstep H. rewrite bind_run in H.
  destruct (core_parameters _ _ _ _) as [[[]|e] s1] eqn:Hcore; [|discriminate H].
  apply (backup_core_parameters_ok _ _ _ _ _ Hmhz) in Hcore as ->.
  bstep H. rewrite bind_run in H.
  destruct (l1i_parameters _ _ _ _ _) as [[[]|e] s1] eqn:Hl1i; [|discriminate H].
  apply l1i_parameters_ok in Hl1i as ->.
  bstep H. rewrite bind_run in H.
  destruct (l1d_parameters _ _ _ _ _) as [[[]|e] s1] eqn:Hl1d; [|discriminate H].
  apply l1d_parameters_ok in Hl1d as ->.
  bstep H. rewrite bind_run in H.
  destruct (l2_parameters _ _ _ _ _) as [[[]|e] s1] eqn:Hl2; [|discriminate H].
  apply l2_parameters_ok in Hl2 as ->.
  bstep H. rewrite bind_run in H.
  destruct (main_memory _ _ _) as [[[]|e] s1] eqn:Hmem; [|discriminate H].
  apply main_memory_ok in Hmem as [-> Hext].
  rewrite tostring_run in H. apply Ok_pair_inv in H as [<- <-].
  exists cls. split.
  { unfold cache_line_size. by rewrite Hboard, res_Ok_bind. }
  split_and!; [| |done].
  - unfold writes. rewrite <-?app_assoc, ?app_nil_l. reflexivity.
  - unfold log. rewrite <-?app_assoc, ?app_nil_l. reflexivity.
Qed.

(** The clock rate always converts. *)
Lemma clock_rate_mhz_ok stats : is_Ok (clock_rate_mhz stats).
Proof.
  unfold clock_rate_mhz, stat_val.
  destruct (stats !! "simFreq") as [t|]; [|by eexists].
  destruct (float_of_string t) as [f|]; [|by eexists].
  unfold py_truediv. simpl. by eexists.
Qed.

Ltac use_sint H Hs :=
  match type of H with
  | context [match sint ?s ?k with _ => _ end] =>
      let E := fresh "Hint" in
      destruct (Hs k) as [? E]; rewrite E in H
  end.

Ltac fstep H Hs :=
  rewrite ?bind_assoc_run in H;
  first
    [ rewrite lift_sint_run in H; use_sint H Hs
    | rewrite bind_run in H;
      first
        [ rewrite find_run in H
        | rewrite truth_run in H
        | rewrite set_value_run in H
        | rewrite local_run in H
        | rewrite ret_run in H
        | rewrite (get_stat_value_eq _ _ _ _ backup_py_float_0), lift_run in H
        | rewrite (get_stat_value_eq _ _ _ _ py_float_1e12), lift_run in H
        | rewrite write_stat_run in H; use_sint H Hs ] ];
  tidy H; cbn [root stdout] in H.

Lemma backup_system_parameters_returns stats mhz ws out :
  integral stats →
  clock_rate_mhz stats = Ok mhz →
  system_parameters stats system_node (State (ET.apply_writes ws T) out)
  = (Ok (Some mhz),
     State (ET.apply_writes (ws ++ system_writes stats) T) out).
Proof.
  intros Hs Hmhz.
  destruct (system_parameters _ _ _) as [[r|e] s'] eqn:H.
  { apply backup_system_parameters_ok in H as (mhz' & -> & Hmhz' & ->).
    rewrite Hmhz in Hmhz'. by injection Hmhz' as <-. }
  exfalso. unfold system_parameters in H.
  let r := eval vm_compute in system_node in change system_node with r in H.
  do 4 fstep H Hs.
  rewrite bind_run, lift_run in H.
  change (py_truediv _ _) with (clock_rate_mhz stats) in H.
  rewrite Hmhz in H. cbv beta iota in H.
  fstep H Hs. rewrite ret_run in H. discriminate H.
Qed.

Lemma backup_core_parameters_returns stats mhz ws out :
  integral stats →
  clock_rate_mhz stats = Ok mhz →
  core_parameters stats core_node (Some mhz) (State (ET.apply_writes ws T) out)
  = (Ok tt, State (ET.apply_writes (ws ++ core_writes stats) T) out).
Proof.
  intros Hs Hmhz.
  destruct (core_parameters _ _ _ _) as [[[]|e] s'] eqn:H.
  { by apply (backup_core_parameters_ok _ _ _ _ _ Hmhz) in H as ->. }
  exfalso. unfold core_parameters in H.
  let r := eval vm_compute in core_node in change core_node with r in H.
  repeat fstep H Hs.
  rewrite write_stat_run in H; use_sint H Hs; tidy H.
  discriminate H.
Qed.

(** A lookup of the [try]: it succeeds, or it is caught and the block
    returns. *)
Ltac handled_lookup H Hc :=
  rewrite ?bind_assoc_run in H; rewrite bind_run, lift_run in H;
  match type of H with
  | context [match ?r with Ok _ => _ | Err _ => _ end] =>
      destruct r as [?|?] eqn:?;
      cbn [mbind res_mbind res_bind] in Hc; cbv beta iota in H;
      [ | rewrite bool_decide_eq_true_2 in H by exact Hc;
          rewrite print_run in H; discriminate H ]
  end.

Ltac handled_block H Hs Hc :=
  fstep H Hs; unfold try_except, cache_body in H;
  unfold cache_ok, geometry in Hc;
  do 3 handled_lookup H Hc;
  rewrite ?bind_assoc_run in H; rewrite bind_run, lift_run in H;
  match type of H with
  | context [match ?r with Ok _ => _ | Err _ => _ end] =>
      match r with
      | context [py_int ?size] =>
          change r with (kb size) in H;
          let E := fresh "Hkb" in
          destruct Hc as [? E]; rewrite E in H; cbv beta iota in H
      end
  end;
  repeat fstep H Hs;
  rewrite set_value_run in H; tidy H;
  discriminate H.

Lemma l1i_parameters_returns stats config cls ws out :
  integral stats →
  cache_ok (l1_entry config "l1icaches") [KeyError; IndexError] →
  l1i_parameters stats config cls l1i_node (State (ET.apply_writes ws T) out)
  = (Ok tt,
     State
       (ET.apply_writes
          (ws ++ cache_writes stats l1i_node (l1_entry config "l1icaches")
                   cls "l1icaches") T)
       (out ++ cache_log (l1_entry config "l1icaches") l1i_warning)).
Proof.
  intros Hs Hc.
  destruct (l1i_parameters _ _ _ _ _) as [[[]|e] s'] eqn:H.
  { by apply l1i_parameters_ok in H as ->. }
  exfalso. unfold l1i_parameters in H.
  let r := eval vm_compute in l1i_node in change l1i_node with r in *.
  handled_block H Hs Hc.
Qed.

Lemma l1d_parameters_returns stats config cls ws out :
  integral stats →
  cache_ok (l1_entry config "l1dcaches") [KeyError; IndexError] →
  l1d_parameters stats config cls l1d_node (State (ET.apply_writes ws T) out)
  = (Ok tt,
     State
       (ET.apply_writes
          (ws ++ cache_writes stats l1d_node (l1_entry config "l1dcaches")
                   cls "l1dcaches") T)
       (out ++ cache_log (l1_entry config "l1dcaches") l1d_warning)).
Proof.
  intros Hs Hc.
  destruct (l1d_parameters _ _ _ _ _) as [[[]|e] s'] eqn:H.
  { by apply l1d_parameters_ok in H as ->. }
  exfalso. unfold l1d_parameters in H.
  let r := eval vm_compute in l1d_node in change l1d_node with r in *.
  handled_block H Hs Hc.
Qed.

Lemma l2_parameters_returns stats config cls ws out :
  integral stats →
  cache_ok (l2_entry config) [KeyError] →
  l2_parameters stats config cls l2_node (State (ET.apply_writes ws T) out)
  = (Ok tt,
     State
       (ET.apply_writes
          (ws ++ cache_writes stats l2_node (l2_entry config) cls "l2cache") T)
       (out ++ cache_log (l2_entry config) l2_warning)).
Proof.
  intros Hs Hc.
  destruct (l2_parameters _ _ _ _ _) as [[[]|e] s'] eqn:H.
  { by apply l2_parameters_ok in H as ->. }
  exfalso. unfold l2_parameters in H.
  let r := eval vm_compute in l2_node in change l2_node with r in *.
  handled_block H Hs Hc.
Qed.

Lemma main_memory_returns stats ws out :
  is_Ok (ext_dram_accesses stats) →
  main_memory stats mem_node (State (ET.apply_writes ws T) out)
  = (Ok tt, State (ET.apply_writes (ws ++ memory_writes stats) T) out).
Proof.
  intros Hext.
  destruct (main_memory _ _ _) as [[[]|e] s'] eqn:H.
  { by apply main_memory_ok in H as [-> _]. }
  exfalso. unfold ext_dram_accesses in Hext.
  apply is_Ok_bind in Hext as (ext & Hadd & [v Hstr]).
  unfold main_memory in H.
  let r := eval vm_compute in mem_node in change mem_node with r in *.
  rewrite bind_run, truth_run in H. tidy H.
  rewrite bind_run, (get_stat_value_eq _ _ _ _ backup_py_float_0), lift_run in H.
  cbv beta iota in H.
  rewrite bind_run, (get_stat_value_eq _ _ _ _ backup_py_float_0), lift_run in H.
  cbv beta iota in H.
  rewrite bind_run, lift_run, Hadd in H. cbv beta iota in H.
  rewrite bind_run, lift_run, Hstr in H. cbv beta iota in H.
  rewrite set_value_run in H. tidy H. discriminate H.
Qed.

(** A run of [create_mcpat_xml] whose conversions succeed returns, with
    the assignments [writes] made and [log] printed. *)
Lemma backup_create_mcpat_xml_returns stats config cls s :
  cache_line_size config = Ok cls →
  converts stats config →
  create_mcpat_xml stats config s
  = (Ok (ET.apply_writes (writes stats config cls) T),
     State (ET.apply_writes (writes stats config cls) T)
       (stdout s ++ log config)).
Proof.
  intros Hcls (_ & Hs & Hext & Hl1i & Hl1d & Hl2).
  unfold cache_line_size in Hcls.
  destruct (py_get config "board" (VDict [])) as [board|] eqn:Hb; [|done].
  rewrite res_Ok_bind in Hcls.
  destruct (clock_rate_mhz_ok stats) as [mhz Hmhz].
  unfold create_mcpat_xml.
  rewrite bind_run, fromstring_run. cbv beta iota.
  rewrite bind_run, lift_run, Hb. cbv beta iota.
  rewrite bind_run, lift_run, Hcls. cbv beta iota.
  rewrite bind_run, find_run.
  change (ET.find_in T [] "component" "system") with system_node.
  cbv beta iota.
  rewrite bind_run, (backup_system_parameters_returns _ mhz) by done.
  cbv beta iota.
  rewrite bind_run, find_run.
  change (ET.find_in T [] "component" "core") with core_node.
  cbv beta iota.
  rewrite bind_run, (backup_core_parameters_returns _ mhz) by done.
  cbv beta iota.
  rewrite bind_run, find_run.
  change (ET.find_in T [] "component" "L1Icache") with l1i_node.
  cbv beta iota.
  rewrite bind_run, l1i_parameters_returns by done.
  cbv beta iota.
  rewrite bind_run, find_run.
  change (ET.find_in T [] "component" "L1Dcache") with l1d_node.
  cbv beta iota.
  rewrite bind_run, l1d_parameters_returns by done.
  cbv beta iota.
  rewrite bind_run, find_run.
  change (ET.find_in T [] "component" "L2cache") with l2_node.
  cbv beta iota.
  rewrite bind_run, l2_parameters_returns by done.
  cbv beta iota.
  rewrite bind_run, find_run.
  change (ET.find_in T [] "component" "main_memory") with mem_node.
  cbv beta iota.
  rewrite bind_run, main_memory_returns by done.
  cbv beta iota.
  rewrite tostring_run. unfold writes, log.
  by rewrite <-?app_assoc, ?app_nil_l.
Qed.

(** A table with no infinite value and no NaN has every statistic
    convert. *)
Lemma finite_integral stats : finite_stats stats → integral stats.
Proof.
  intros Hf key. unfold sint, stat_val.
  destruct (stats !! key) as [text|] eqn:Hk; [|by eexists].
  destruct (float_of_string text) as [f|] eqn:Ht; [|by eexists].
  specialize (Hf key text f Hk Ht). unfold str_int. simpl.
  destruct f; try done; by eexists.
Qed.

Lemma backup_converts_returns stats config s :
  converts stats config →
  ∃ t s', create_mcpat_xml stats config s = (Ok t, s').
Proof.
  intros Hc. pose proof Hc as ([cls Hcls] & _).
  eexists _, _. by apply (backup_create_mcpat_xml_returns _ _ cls).
Qed.

End backup_run.

(** * The claims about [custom_converter.py] *)

Section custom_claims.
Import Py custom_converter custom_spec examples.

Local Abbreviation T := mcpat_template.

Lemma l2_writes_valid stats :
  forallb (λ w, valid T w.1) (l2_writes stats) = true.
Proof. reflexivity. Qed.

Lemma custom_writes_valid stats cfg cls n :
  forallb (λ w, valid T w.1) (writes stats cfg cls n) = true.
Proof.
  unfold writes. rewrite !forallb_app.
  rewrite (proj1 (system_writes_valid stats n)), l2_writes_valid.
  destruct n; [done|]. by rewrite (proj1 (core_writes_valid stats cfg cls)).
Qed.

Lemma itos_ok x z : int_of_float x = Ok z → itos x = pretty z.
Proof. unfold itos. by intros ->. Qed.

Ltac read_field :=
  rewrite at_component_writes by apply custom_writes_valid;
  unfold writes, core_writes, geometry_writes;
  repeat match goal with
    | |- context [l1_geometry ?a ?b ?c ?d ?e] =>
        destruct (l1_geometry a b c d e)
    end;
  reflexivity.

(** C10, as amended: a run returns when its conversions succeed
    ([converts]), and a run that returns has written the truncated total
    cycle count into the system-level [total_cycles] and [busy_cycles], and
    into those of [core0] when the core count is at least one; with a core
    count of zero [core0] keeps the template's 100000 in both.  The
    [idle_cycles] statistics keep the template's 0. *)
Theorem busy_cycles_follow_total_cycles stats config s :
  (converts stats config →
   ∃ t s', create_mcpat_xml stats config s = (Ok t, s'))
  ∧ ∀ t s',
      create_mcpat_xml stats config s = (Ok t, s') →
      ∃ cfg n tc z,
        unwrap_config config = Ok cfg
        ∧ core_count cfg = Ok n
        ∧ (get_stat_value stats "total_cycles" (VInt 0) s).1 = Ok tc
        ∧ int_of_float tc = Ok z
        ∧ at_component t "system" "stat" "total_cycles" = Some (pretty z)
        ∧ at_component t "system" "stat" "busy_cycles" = Some (pretty z)
        ∧ at_component t "system" "stat" "idle_cycles" = Some "0"
        ∧ at_component t "core0" "stat" "idle_cycles" = Some "0"
        ∧ at_component t "core0" "stat" "total_cycles"
          = Some (match n with O => "100000" | S _ => pretty z end)
        ∧ at_component t "core0" "stat" "busy_cycles"
          = Some (match n with O => "100000" | S _ => pretty z end).
Proof.
  split; [apply custom_converts_returns|]. intros t s' H.
  apply custom_create_mcpat_xml_ok in H
    as (cfg & cls & n & Hcfg & Hcls & Hn & -> & _ & Hint).
  apply Forall_cons in Hint as [[z Hz] _].
  exists cfg, n, (total_cycles stats), z.
  rewrite (get_stat_value_run _ _ _ _ _ custom_py_float_0).
  rewrite <-(itos_ok _ _ Hz).
  split_and!; try done.
  all: destruct n; read_field.
Qed.

(** *** The resolver *)

Lemma first_present_skip stats before name after v :
  Forall (λ x, stats !! x = None) before → stats !! name = Some v →
  first_present stats (before ++ name :: after) = Some v.
Proof.
  intros Hb Hn. induction Hb as [|x before Hx _ IH]; simpl.
  - by rewrite Hn.
  - by rewrite Hx.
Qed.

Lemma first_present_none stats names :
  Forall (λ x, stats !! x = None) names → first_present stats names = None.
Proof.
  intros H. induction H as [|x names Hx _ IH]; simpl; [done|]. by rewrite Hx.
Qed.

(** One of the three steps applies: a name of the list is in the table,
    with none before it, or none of them is. *)
Lemma first_present_cases (stats : stat_table) names :
  (∃ before name after v,
     names = before ++ name :: after
     ∧ Forall (λ x, stats !! x = None) before
     ∧ stats !! name = Some v)
  ∨ Forall (λ x, stats !! x = None) names.
Proof.
  induction names as [|x names IH]; [by right|].
  destruct (stats !! x) as [v|] eqn:Hx.
  - left. by exists [], x, names, v.
  - destruct IH as [(before & name & after & v & -> & Hb & Hn)|Hall].
    + left. exists (x :: before), name, after, v. split_and!; [done| |done].
      by constructor.
    + right. by constructor.
Qed.

(** *** The core count *)

Lemma core_count_of_list board processor cores (config : list (string * value)) :
  dict_lookup config "board" = Some (VDict board) →
  dict_lookup board "processor" = Some (VDict processor) →
  dict_lookup processor "cores" = Some (VList cores) →
  core_count (VDict config) = Ok (length cores).
Proof.
  intros Hb Hp Hc. unfold core_count. simpl. rewrite Hb. simpl. rewrite Hp.
  simpl. by rewrite Hc.
Qed.

Lemma core_count_not_a_list board processor cores (config : list (string * value)) :
  dict_lookup config "board" = Some (VDict board) →
  dict_lookup board "processor" = Some (VDict processor) →
  dict_lookup processor "cores" = Some cores →
  isinstance_list cores = false →
  core_count (VDict config) = Ok 1%nat.
Proof.
  intros Hb Hp Hc Hl. unfold core_count. simpl. rewrite Hb. simpl. rewrite Hp.
  simpl. rewrite Hc. simpl. by rewrite Hl.
Qed.

(** The core count of a run that returns is in [number_of_cores]. *)
Lemma number_of_cores_written stats config s t s' :
  create_mcpat_xml stats config s = (Ok t, s') →
  ∃ cfg n, unwrap_config config = Ok cfg ∧ core_count cfg = Ok n
    ∧ at_component t "system" "param" "number_of_cores" = Some (str_nat n).
Proof.
  intros H.
  apply custom_create_mcpat_xml_ok in H
    as (cfg & cls & n & Hcfg & Hcls & Hn & -> & _).
  exists cfg, n. split_and!; try done.
  destruct n; read_field.
Qed.

(** C1, at the input where the code departs from it: for the configuration
    [{}], where the path [board.processor.cores] is absent, the core count is
    0 and [number_of_cores] is written as 0, not 1.  The default 1 of the
    code is taken only when [cores] is there and is not a list. *)
Theorem number_of_cores_without_cores_path :
  core_count (VDict []) = Ok 0%nat
  ∧ core_count (processor_cores (VInt 4)) = Ok 1%nat
  ∧ ∃ t s',
      create_mcpat_xml ∅ (VDict []) initial = (Ok t, s')
      ∧ at_component t "system" "param" "number_of_cores" = Some "0".
Proof.
  split; [reflexivity|]. split; [reflexivity|].
  eexists _, _. split; [vm_compute; reflexivity|]. vm_compute. reflexivity.
Qed.

(** C10 fails with an empty list of cores: the system-level [busy_cycles]
    is 5 and that of [core0] keeps the template's 100000. *)
Lemma busy_cycles_counterexample :
  ∃ t s',
    create_mcpat_xml five_cycles (cores []) initial = (Ok t, s')
    ∧ (get_stat_value five_cycles "total_cycles" (VInt 0) initial).1
      = Ok (Float.of_Z 5)
    ∧ int_of_float (Float.of_Z 5) = Ok 5
    ∧ at_component t "system" "stat" "busy_cycles" = Some "5"
    ∧ at_component t "core0" "stat" "busy_cycles" = Some "100000".
Proof.
  eexists _, _. split; [vm_compute; reflexivity|].
  split_and!; vm_compute; reflexivity.
Qed.

(** With one core and 5 cycles, [core0] gets 5 busy cycles. *)
Lemma busy_cycles_follow_total_cycles_witness :
  create_mcpat_xml five_cycles (cores [VDict []]) initial
  = (Ok (returned run_one_core), run_one_core.2)
  ∧ at_component (returned run_one_core) "core0" "stat" "busy_cycles"
    = Some "5".
Proof.
  assert (create_mcpat_xml five_cycles (cores [VDict []]) initial
          = (Ok (returned run_one_core), run_one_core.2)) as H
    by (vm_compute; reflexivity).
  split; [exact H|].
  destruct (proj2 (busy_cycles_follow_total_cycles _ _ _) _ _ H)
    as (cfg & n & tc & z & Hcfg & Hn & Htc & Hz & _ & _ & _ & _ & _ & Hbusy).
  vm_compute in Hcfg. injection Hcfg as <-.
  vm_compute in Hn. injection Hn as <-.
  vm_compute in Htc. injection Htc as <-.
  vm_compute in Hz. injection Hz as <-.
  exact Hbusy.
Defined.

(** C3 fails with two cores: the output has no component [core1], and the
    geometry string of entry 1 of the L1 data cache list is written nowhere;
    the one data cache of the output has the geometry of entry 0. *)
Lemma second_core_counterexample :
  ∃ t s',
    create_mcpat_xml ∅ two_cores initial = (Ok t, s')
    ∧ core_count two_cores = Ok 2%nat
    ∧ ET.find_in t [] "component" ("core" +:+ str_nat 1) = None
    ∧ at_component t ("core" +:+ str_nat 1) "stat" "total_instructions" = None
    ∧ l1_geometry two_cores (VInt 64) "l1dcaches" 1 "1"
      = Ok "65536,64,2,1,10,10,64,1"
    ∧ existsb (String.eqb "65536,64,2,1,10,10,64,1") (all_values t) = false
    ∧ at_component t "dcache" "param" "dcache_config"
      = Some "16384,64,4,1,10,10,64,1".
Proof.
  eexists _, _. split; [vm_compute; reflexivity|].
  split_and!; vm_compute; reflexivity.
Qed.

Lemma core_fields_written stats cfg cls n :
  Forall (λ x, is_Ok (int_of_float x)) (truncated stats (S n)) →
  Forall (λ fk, ∃ z, int_of_float (stat_or stats fk.2 zero) = Ok z
            ∧ at_component (ET.apply_writes (writes stats cfg cls (S n)) T)
                "core0" "stat" fk.1 = Some (pretty z))
    core_fields.
Proof.
  intros Hint. unfold truncated in Hint. cbn [core_keys map app] in Hint.
  repeat match goal with
    | H : Forall _ (_ :: _) |- _ => apply Forall_cons in H as [[? ?] H]
    end.
  unfold core_fields.
  repeat (apply Forall_cons; split;
    [eexists; split; [eassumption|];
     erewrite <-itos_ok by eassumption; read_field|]).
  constructor.
Qed.

Lemma l1_geometry_of_config config cls caches i mode :
  l1_geometry config cls caches i mode
  = (c ← l1_config config caches i;
     raw ← getitem c (VStr "size");
     size ← (match raw with
             | VStr t => z ← py_int (VStr (without_B t)); Ok (VInt z)
             | _ => Ok raw
             end);
     assoc ← getitem c (VStr "assoc");
     Ok (py_str size +:+ "," +:+ py_str cls +:+ ","
           +:+ py_str assoc +:+ ",1,10,10," +:+ py_str cls
           +:+ "," +:+ mode)).
Proof.
  unfold l1_geometry, l1_config.
  destruct (getitem config (VStr "board")) as [board|]; [|done].
  rewrite !res_Ok_bind.
  destruct (getitem board (VStr "cache_hierarchy")) as [h|]; [|done].
  rewrite !res_Ok_bind.
  destruct (getitem h (VStr caches)) as [l|]; [|done].
  by rewrite !res_Ok_bind.
Qed.


(** The geometry string of an L1 cache is made of entry [i] of its list:
    two configurations with the same entry there, or the same failure of
    its lookup, give the same string or the same exception. *)
Lemma l1_geometry_same config config' cls caches i mode :
  l1_config config' caches i = l1_config config caches i →
  l1_geometry config' cls caches i mode = l1_geometry config cls caches i mode.
Proof. intros H. by rewrite !l1_geometry_of_config, H. Qed.

(** The geometry string made of an entry: its size in bytes, the cache
    line size, its associativity, [1,10,10], the cache line size again
    and the mode, joined by commas. *)
Lemma l1_geometry_entry config cls caches i mode entry raw size assoc :
  l1_config config caches i = Ok entry →
  getitem entry (VStr "size") = Ok raw →
  size_in_bytes raw size →
  getitem entry (VStr "assoc") = Ok assoc →
  l1_geometry config cls caches i mode
  = Ok (py_str size +:+ "," +:+ py_str cls +:+ "," +:+ py_str assoc
          +:+ ",1,10,10," +:+ py_str cls +:+ "," +:+ mode).
Proof.
  intros He Hr Hs Ha. rewrite l1_geometry_of_config, He, res_Ok_bind, Hr.
  rewrite res_Ok_bind.
  assert ((match raw with
           | VStr t => z ← py_int (VStr (without_B t)); Ok (VInt z)
           | _ => Ok raw
           end) = Ok size) as ->.
  { destruct raw; simpl in Hs; try by rewrite Hs.
    destruct Hs as (z & Hz & ->). cbn [py_int]. by rewrite Hz. }
  by rewrite res_Ok_bind, Ha.
Qed.

Lemma writes_same stats cfg cfg' cls n :
  l1_geometry cfg' cls "l1icaches" 0 "0" = l1_geometry cfg cls "l1icaches" 0 "0" →
  l1_geometry cfg' cls "l1dcaches" 0 "1" = l1_geometry cfg cls "l1dcaches" 0 "1" →
  writes stats cfg' cls n = writes stats cfg cls n
  ∧ log stats cfg' cls n = log stats cfg cls n.
Proof.
  intros Hi Hd.
  unfold writes, log, core_writes, core_log, geometry_writes, geometry_log.
  by rewrite Hi, Hd.
Qed.

(** C3, as amended: the per-core fields are written for core index 0 only.
    A run returns when its conversions succeed ([converts], for a
    configuration whose values [str] prints).  The template
    has the single core component [core0]: in the output of a run that
    returns there is no component [core<i>] for [1 ≤ i], and when
    the core count is at least one, [core0] holds the shared clock rate, the
    truncated instruction counts and cycle counts, and, for each L1 list
    whose entry 0 is found with its [size] and [assoc], the geometry
    string of that entry: its size in bytes, the cache line size, its
    associativity, [1,10,10], the cache line size again and the mode flag,
    joined by commas.  No other
    entry of the L1 lists is read: a configuration with the same cache line
    size, the same core count and the same entries 0 (or the same failure
    of their lookup) gives the same output and prints the same lines,
    whatever its other entries are. *)
Theorem core0_is_the_core_populated stats config s :
  (plain config = true → converts stats config →
   ∃ t s', create_mcpat_xml stats config s = (Ok t, s'))
  ∧ ∀ t s',
      create_mcpat_xml stats config s = (Ok t, s') →
      ∃ cfg cls n,
        unwrap_config config = Ok cfg
        ∧ cache_line_size cfg = Ok cls
        ∧ core_count cfg = Ok n
        ∧ (∀ i, (1 ≤ i)%nat →
             ET.find_in t [] "component" ("core" +:+ str_nat i) = None)
        ∧ at_component t "system" "param" "target_core_clockrate"
          = Some (Float.repr (clock_rate_mhz stats))
        ∧ ((1 ≤ n)%nat →
           at_component t "core0" "param" "clock_rate"
           = Some (Float.repr (clock_rate_mhz stats))
           ∧ Forall (λ fk, ∃ z, int_of_float (stat_or stats fk.2 zero) = Ok z
                       ∧ at_component t "core0" "stat" fk.1 = Some (pretty z))
               core_fields
           ∧ (∃ z, int_of_float (total_cycles stats) = Ok z
                ∧ at_component t "core0" "stat" "total_cycles"
                  = Some (pretty z)
                ∧ at_component t "core0" "stat" "busy_cycles"
                  = Some (pretty z))
           ∧ (∀ entry raw size assoc,
                l1_config cfg "l1icaches" 0 = Ok entry →
                getitem entry (VStr "size") = Ok raw →
                size_in_bytes raw size →
                getitem entry (VStr "assoc") = Ok assoc →
                at_component t "icache" "param" "icache_config"
                = Some (py_str size +:+ "," +:+ py_str cls +:+ ","
                          +:+ py_str assoc +:+ ",1,10,10," +:+ py_str cls
                          +:+ ",0"))
           ∧ (∀ entry raw size assoc,
                l1_config cfg "l1dcaches" 0 = Ok entry →
                getitem entry (VStr "size") = Ok raw →
                size_in_bytes raw size →
                getitem entry (VStr "assoc") = Ok assoc →
                at_component t "dcache" "param" "dcache_config"
                = Some (py_str size +:+ "," +:+ py_str cls +:+ ","
                          +:+ py_str assoc +:+ ",1,10,10," +:+ py_str cls
                          +:+ ",1")))
        ∧ (∀ config' cfg',
             unwrap_config config' = Ok cfg' →
             cache_line_size cfg' = Ok cls →
             core_count cfg' = Ok n →
             l1_config cfg' "l1icaches" 0 = l1_config cfg "l1icaches" 0 →
             l1_config cfg' "l1dcaches" 0 = l1_config cfg "l1dcaches" 0 →
             create_mcpat_xml stats config' s = (Ok t, s')).
Proof.
  split; [intros _; apply custom_converts_returns|]. intros t s' H.
  pose proof (custom_returns_converts _ _ _ _ _ H)
    as (cfg0 & cls0 & n0 & Hcfg0 & Hcls0 & Hn0 & _ & Hgeo).
  apply custom_create_mcpat_xml_ok in H
    as (cfg & cls & n & Hcfg & Hcls & Hn & -> & -> & Hint).
  rewrite Hcfg in Hcfg0. injection Hcfg0 as <-.
  rewrite Hcls in Hcls0. injection Hcls0 as <-.
  rewrite Hn in Hn0. injection Hn0 as <-.
  exists cfg, cls, n. split_and!; try done.
  - intros i Hi. by apply find_core_None.
  - destruct n; read_field.
  - intros Hn1. destruct n as [|n]; [lia|]. split_and!.
    + read_field.
    + by apply core_fields_written.
    + apply Forall_cons in Hint as [[z Hz] _]. exists z.
      rewrite <-(itos_ok _ _ Hz). split_and!; [done|read_field..].
    + intros entry raw size assoc He Hr Hs Ha.
      rewrite at_component_writes by apply custom_writes_valid.
      unfold writes, core_writes, geometry_writes.
      rewrite (l1_geometry_entry _ _ _ _ _ _ _ _ _ He Hr Hs Ha).
      destruct (l1_geometry cfg cls "l1dcaches" 0 "1"); reflexivity.
    + intros entry raw size assoc He Hr Hs Ha.
      rewrite at_component_writes by apply custom_writes_valid.
      unfold writes, core_writes, geometry_writes.
      rewrite (l1_geometry_entry _ _ _ _ _ _ _ _ _ He Hr Hs Ha).
      destruct (l1_geometry cfg cls "l1icaches" 0 "0"); reflexivity.
  - intros config' cfg' Hcfg' Hcls' Hn' Hi Hd.
    pose proof (l1_geometry_same _ _ cls _ _ "0" Hi) as Hgi.
    pose proof (l1_geometry_same _ _ cls _ _ "1" Hd) as Hgd.
    destruct (writes_same stats cfg cfg' cls n Hgi Hgd) as [<- <-].
    apply (custom_create_mcpat_xml_returns _ _ cfg' cls n); try done.
    destruct n; [done|]. by rewrite Hgi, Hgd.
Qed.

(** The run on two cores returns, and its output has no [core1]; the data
    cache of [core0] has the geometry of entry 0, and the run on
    [two_cores_other] gives the same output. *)
Lemma core0_is_the_core_populated_witness :
  create_mcpat_xml ∅ two_cores initial
  = (Ok (returned run_two_cores), run_two_cores.2)
  ∧ ET.find_in (returned run_two_cores) [] "component" ("core" +:+ str_nat 1)
    = None
  ∧ at_component (returned run_two_cores) "dcache" "param" "dcache_config"
    = Some "16384,64,4,1,10,10,64,1"
  ∧ create_mcpat_xml ∅ inputs.two_cores_other initial
    = (Ok (returned run_two_cores), run_two_cores.2).
Proof.
  assert (create_mcpat_xml ∅ two_cores initial
          = (Ok (returned run_two_cores), run_two_cores.2)) as H
    by (vm_compute; reflexivity).
  split; [exact H|].
  destruct (proj2 (core0_is_the_core_populated _ _ _) _ _ H)
    as (cfg & cls & n & Hcfg & Hcls & Hn & Hno & _ & Hcore & Hsame).
  injection Hcfg as <-. injection Hcls as <-. injection Hn as <-.
  split_and!.
  - apply Hno. lia.
  - destruct (Hcore ltac:(lia)) as (_ & _ & _ & _ & Hd).
    exact (Hd (l1_of 16384 4) (VInt 16384) (VInt 16384) (VInt 4)
             eq_refl eq_refl eq_refl eq_refl).
  - exact (Hsame inputs.two_cores_other inputs.two_cores_other
             eq_refl eq_refl eq_refl eq_refl eq_refl).
Defined.

(** *** The statistics file *)

(** What a line adds to the table: the key of group 1 and the float read
    from group 2 of the pattern. *)
Lemma parse_line_adds stats line k v :
  parse_line stats line !! k = Some v →
  stats !! k = Some v
  ∨ ∃ g1 g2,
      re_match stat_line (chars line) ([], []) = Some (g1, g2)
      ∧ k = str_of (strip g1)
      ∧ float_of_string (str_of (strip g2)) = Some v.
Proof.
  unfold parse_line. cbv zeta. destruct (_ || _); [by left|].
  destruct (re_match _ _ _) as [[g1 g2]|] eqn:Hm; [|by left].
  destruct (float_of_string _) as [f|] eqn:Hf; [|by left].
  destruct (decide (str_of (strip g1) = k)) as [<-|Hne].
  - rewrite lookup_insert_eq. intros [= <-]. right. by exists g1, g2.
  - rewrite lookup_insert_ne by done. by left.
Qed.

(** Every value of the table was read as a float from group 2 of the
    pattern on some line of the file. *)
Lemma parse_stats_values lines k v :
  fold_left parse_line lines ∅ !! k = Some v →
  ∃ line g1 g2,
    line ∈ lines
    ∧ re_match stat_line (chars line) ([], []) = Some (g1, g2)
    ∧ k = str_of (strip g1)
    ∧ float_of_string (str_of (strip g2)) = Some v.
Proof.
  induction lines as [|line lines IH] using rev_ind; [done|].
  rewrite fold_left_app. simpl. intros [H|(g1 & g2 & ? & ? & ?)]%parse_line_adds.
  - destruct (IH H) as (l & g1 & g2 & ? & ?). exists l, g1, g2.
    split; [|done]. apply elem_of_app. by left.
  - exists line, g1, g2. split; [|done]. apply elem_of_app. right.
    by apply list_elem_of_singleton.
Qed.

(** A line without a second token adds nothing. *)
Example parse_line_one_token : parse_line ∅ "simInsts" = ∅.
Proof. vm_compute. reflexivity. Qed.

(** C5, at the input where the code departs from it: the value token of
    the line [x 0x1000] is not a number, and yet the line is not dropped: the
    pattern takes the leading [0] of the token and the table gets [x] with the
    value 0.0. *)
Theorem hex_value_is_not_dropped :
  float_of_string "0x1000" = None
  ∧ re_match stat_line (chars ("x 0x1000" +:+ newline)) ([], [])
    = Some (chars "x", chars "0")
  ∧ parse_stats hex_file "stats.txt" = Ok {[ "x" := Float.of_Z 0 ]}.
Proof. split_and!; vm_compute; reflexivity. Qed.

End custom_claims.

(** * The claims about [backup.py] *)
Section backup_claims.
Import Py backup backup_spec examples.

Local Abbreviation T := mcpat_template.

Lemma cache_writes_valid stats n entry cls name :
  n = l1i_node ∨ n = l1d_node ∨ n = l2_node →
  forallb (λ w, valid T w.1) (cache_writes stats n entry cls name) = true.
Proof.
  intros Hn. unfold cache_writes.
  destruct (geometry entry) as [[size assoc]|]; [|done].
  destruct Hn as [->|[->| ->]]; reflexivity.
Qed.

Lemma backup_writes_valid stats config cls :
  forallb (λ w, valid T w.1) (writes stats config cls) = true.
Proof.
  unfold writes. rewrite !forallb_app.
  rewrite !cache_writes_valid by auto. reflexivity.
Qed.

Ltac read_field :=
  rewrite at_component_writes by apply backup_writes_valid;
  unfold writes, cache_writes;
  repeat match goal with
    | |- context [match geometry ?e with _ => _ end] =>
        let g := fresh in destruct (geometry e) as [[? ?]|]
    end;
  reflexivity.

(** C4: with the configuration of the example, a run returns when the
    statistics convert to integers, and a run that returns has written
    32768/1024 = 32.0 into the cache size of the L1 data cache and 8 into
    its associativity (and the line size 64). *)
Theorem l1d_cache_size_in_kb stats s :
  py_truediv (VInt 32768) (VInt 1024) = Ok (Float.of_Z 32)
  ∧ py_str (VFloat (Float.of_Z 32)) = "32.0"
  ∧ (integral stats → is_Ok (ext_dram_accesses stats) →
     ∃ t s', create_mcpat_xml stats l1d_32k s = (Ok t, s'))
  ∧ ∀ t s',
      create_mcpat_xml stats l1d_32k s = (Ok t, s') →
      at_component t "L1Dcache" "param" "cache_size" = Some "32.0"
      ∧ at_component t "L1Dcache" "param" "associativity" = Some "8"
      ∧ at_component t "L1Dcache" "param" "line_size" = Some "64".
Proof.
  split; [vm_compute; reflexivity|]. split; [vm_compute; reflexivity|].
  split.
  { intros Hs Hext. apply backup_converts_returns.
    split_and!; try done.
    - by eexists.
    - unfold cache_ok. simpl. apply list_elem_of_here.
    - unfold cache_ok. simpl. by eexists.
    - unfold cache_ok. simpl. apply list_elem_of_here. }
  intros t s' H.
  apply backup_create_mcpat_xml_ok in H as (cls & Hcls & -> & _ & _).
  injection Hcls as <-.
  split_and!.
  all: rewrite at_component_writes by apply backup_writes_valid.
  all: unfold writes.
  all: change (cache_writes stats l1d_node (l1_entry l1d_32k "l1dcaches")
                 (VInt 64) "l1dcaches")
         with ([([0; 14; 0]%nat, "32.0"); ([0; 14; 1]%nat, "64");
                ([0; 14; 2]%nat, "8")]
               ++ stat_writes stats l1d_node (cache_fields "l1dcaches")).
  all: reflexivity.
Qed.

(** The run of the example on an empty table. *)
Lemma l1d_cache_size_in_kb_witness :
  create_mcpat_xml ∅ l1d_32k initial = (Ok (returned run_l1d_32k), run_l1d_32k.2)
  ∧ at_component (returned run_l1d_32k) "L1Dcache" "param" "cache_size"
    = Some "32.0"
  ∧ at_component (returned run_l1d_32k) "L1Dcache" "param" "associativity"
    = Some "8".
Proof.
  assert (create_mcpat_xml ∅ l1d_32k initial
          = (Ok (returned run_l1d_32k), run_l1d_32k.2)) as H
    by (vm_compute; reflexivity).
  split; [exact H|].
  destruct (proj2 (proj2 (proj2 (l1d_cache_size_in_kb _ _))) _ _ H)
    as (H1 & H2 & _).
  by split.
Defined.

(** *** Main memory *)

(** C9: a run returns when its conversions succeed ([converts]), and in a
    run that returns the external DRAM access count written to the output
    is the (truncated) sum of the resolved total DRAM read count and the
    resolved L1 data-cache writeback count. *)
Theorem ext_dram_accesses_is_sum stats config s :
  (converts stats config →
   ∃ t s', create_mcpat_xml stats config s = (Ok t, s'))
  ∧ ∀ t s',
      create_mcpat_xml stats config s = (Ok t, s') →
      ∃ dram_reads l1d_writebacks ext z,
        get_stat_value stats "board.memory.mem_ctrl.dram.numReads::total"
          (VInt 0) = Ok dram_reads
        ∧ get_stat_value stats
            "board.cache_hierarchy.l1dcaches.writebacks::total" (VInt 0)
          = Ok l1d_writebacks
        ∧ py_add dram_reads l1d_writebacks = Ok ext
        ∧ py_int ext = Ok z
        ∧ at_component t "main_memory" "param" "ext_dram_accesses"
          = Some (pretty z).
Proof.
  split; [apply backup_converts_returns|]. intros t s' H.
  apply backup_create_mcpat_xml_ok in H as (cls & Hcls & -> & _ & Hext).
  pose proof Hext as [v Hv].
  unfold ext_dram_accesses in Hext.
  apply is_Ok_bind in Hext as (ext & Hadd & Hstr).
  unfold str_int in Hstr. apply is_Ok_bind in Hstr as (z & Hz & _).
  eexists _, _, ext, z.
  rewrite !(get_stat_value_eq _ _ _ _ backup_py_float_0).
  split_and!; try done.
  assert (pretty z = rstr (ext_dram_accesses stats)) as ->.
  { unfold ext_dram_accesses. rewrite Hadd, res_Ok_bind. unfold str_int.
    by rewrite Hz. }
  read_field.
Qed.

(** 100 reads and 20 writebacks give 120. *)
Lemma ext_dram_accesses_is_sum_witness :
  create_mcpat_xml reads_and_writebacks (VDict []) initial
  = (Ok (returned run_reads_and_writebacks), run_reads_and_writebacks.2)
  ∧ at_component (returned run_reads_and_writebacks) "main_memory" "param"
      "ext_dram_accesses" = Some "120".
Proof.
  assert (create_mcpat_xml reads_and_writebacks (VDict []) initial
          = (Ok (returned run_reads_and_writebacks),
             run_reads_and_writebacks.2)) as H
    by (vm_compute; reflexivity).
  split; [exact H|].
  destruct (proj2 (ext_dram_accesses_is_sum _ _ _) _ _ H)
    as (r & w & ext & z & Hr & Hw & Hadd & Hz & ->).
  vm_compute in Hr. injection Hr as <-.
  vm_compute in Hw. injection Hw as <-.
  vm_compute in Hadd. injection Hadd as <-.
  vm_compute in Hz. injection Hz as <-.
  reflexivity.
Defined.

End backup_claims.

(** * Missing configuration paths, and the drivers *)
Section both_converters.
Import Py examples.

(** A lookup of the [try] of an L1 cache that fails is printed once and
    changes nothing else: in [custom_converter.py], ... *)
Lemma custom_missing_path_is_caught config cls caches i mode cache_node nm warn e s :
  custom_converter.l1_geometry config cls caches i mode = Err e →
  exn_cls e ∈ [KeyError; IndexError] →
  custom_converter.l1_cache_config config cls caches i mode cache_node nm warn s
  = (Ok tt, State (root s) (stdout s ++ [warn])).
Proof.
  intros He Hc. unfold custom_converter.l1_cache_config, try_except.
  rewrite bind_run, lift_run, He. cbv beta iota.
  rewrite bool_decide_eq_true_2 by done. by destruct s.
Qed.

(** ... and in [backup.py]. *)
Lemma backup_missing_path_is_caught stats cache_node entry cls name classes warn e s :
  backup_spec.geometry entry = Err e →
  exn_cls e ∈ classes →
  try_except (backup.cache_body stats cache_node entry cls name) classes
    (print warn) s
  = (Ok tt, State (root s) (stdout s ++ [warn])).
Proof.
  intros He Hc. unfold backup.cache_body, try_except.
  unfold backup_spec.geometry in He.
  rewrite bind_run, lift_run.
  destruct entry as [cache_config|e']; simpl in He.
  2: { injection He as ->. cbv beta iota.
       rewrite bool_decide_eq_true_2 by done. by destruct s. }
  cbv beta iota. rewrite bind_run, lift_run.
  destruct (getitem cache_config (VStr "size")) as [size|e']; simpl in He.
  2: { injection He as ->. cbv beta iota.
       rewrite bool_decide_eq_true_2 by done. by destruct s. }
  cbv beta iota. rewrite bind_run, lift_run.
  destruct (getitem cache_config (VStr "assoc")) as [assoc|e']; simpl in He.
  2: { injection He as ->. cbv beta iota.
       rewrite bool_decide_eq_true_2 by done. by destruct s. }
  done.
Qed.

Lemma occurrences_app x l l' :
  occurrences x (l ++ l') = (occurrences x l + occurrences x l')%nat.
Proof. unfold occurrences. by rewrite List.filter_app, length_app. Qed.

Lemma occurrences_stat_warnings x stats key default :
  (∀ k d, String.eqb x (custom_converter.warning k d) = false) →
  occurrences x (custom_spec.stat_warnings stats key default) = 0%nat.
Proof.
  intros Hx. unfold custom_spec.stat_warnings, occurrences.
  destruct (stats !! key); [done|].
  destruct (custom_converter.first_present _ _); [done|].
  simpl. by rewrite Hx.
Qed.

Lemma custom_log_l1i stats cfg cls n e :
  custom_converter.l1_geometry cfg cls "l1icaches" 0 "0" = Err e →
  occurrences custom_spec.l1i_warning (custom_spec.log stats cfg cls n)
  = match n with O => 0%nat | S _ => 1%nat end.
Proof.
  intros He. unfold custom_spec.log, custom_spec.system_log, custom_spec.l2_log.
  rewrite !occurrences_app, !occurrences_stat_warnings by reflexivity.
  destruct n; [done|].
  unfold custom_spec.core_log, custom_spec.geometry_log.
  cbn [custom_spec.core_keys map concat].
  rewrite !occurrences_app, !occurrences_stat_warnings by reflexivity.
  rewrite He.
  by destruct (custom_converter.l1_geometry cfg cls "l1dcaches" 0 "1").
Qed.

Lemma custom_log_l1d stats cfg cls n e :
  custom_converter.l1_geometry cfg cls "l1dcaches" 0 "1" = Err e →
  occurrences custom_spec.l1d_warning (custom_spec.log stats cfg cls n)
  = match n with O => 0%nat | S _ => 1%nat end.
Proof.
  intros He. unfold custom_spec.log, custom_spec.system_log, custom_spec.l2_log.
  rewrite !occurrences_app, !occurrences_stat_warnings by reflexivity.
  destruct n; [done|].
  unfold custom_spec.core_log, custom_spec.geometry_log.
  cbn [custom_spec.core_keys map concat].
  rewrite !occurrences_app, !occurrences_stat_warnings by reflexivity.
  rewrite He.
  by destruct (custom_converter.l1_geometry cfg cls "l1icaches" 0 "0").
Qed.

Ltac backup_read H :=
  rewrite at_component_writes by apply backup_writes_valid;
  unfold backup_spec.writes, backup_spec.cache_writes; rewrite H;
  repeat match goal with
    | |- context [match backup_spec.geometry ?e with _ => _ end] =>
        destruct (backup_spec.geometry e) as [[? ?]|]
    end;
  reflexivity.

Ltac backup_count H :=
  unfold backup_spec.log, backup_spec.cache_log; rewrite H;
  repeat match goal with
    | |- context [match backup_spec.geometry ?e with _ => _ end] =>
        destruct (backup_spec.geometry e) as [[? ?]|]
    end;
  reflexivity.

(** C7, as amended: a lookup of the configuration of a cache that raises
    [KeyError] or [IndexError] is caught: the [try] statement prints its
    warning once, changes nothing in the tree and returns.  In a run that
    returns, the fields of that cache keep their template defaults: the
    preset geometry string in the fuller template ([custom_converter.py],
    where the lookups are made for core 0 only, and not at all with a core
    count of zero); in the minimal template ([backup.py]) 0 for the six
    parameters the block would have assigned, and its preset for each of
    the ten parameters of the cache component (1 for [bank], [true] for
    [sequential_access], 0 for the others).  A run returns when nothing
    but such lookups fails (on a configuration whose values [str]
    prints). *)
Theorem missing_cache_path_keeps_template_default :
  (∀ config cls caches i mode cache_node nm warn e s,
     custom_converter.l1_geometry config cls caches i mode = Err e →
     exn_cls e ∈ [KeyError; IndexError] →
     custom_converter.l1_cache_config config cls caches i mode cache_node nm
       warn s
     = (Ok tt, State (root s) (stdout s ++ [warn])))
  ∧ (∀ stats cache_node entry cls name classes warn e s,
       backup_spec.geometry entry = Err e →
       exn_cls e ∈ classes →
       try_except (backup.cache_body stats cache_node entry cls name) classes
         (print warn) s
       = (Ok tt, State (root s) (stdout s ++ [warn])))
  ∧ (∀ stats config s t s',
       custom_converter.create_mcpat_xml stats config s = (Ok t, s') →
       ∃ cfg cls n printed,
         custom_converter.unwrap_config config = Ok cfg
         ∧ custom_spec.cache_line_size cfg = Ok cls
         ∧ custom_converter.core_count cfg = Ok n
         ∧ stdout s' = stdout s ++ printed
         ∧ (∀ e, custom_converter.l1_geometry cfg cls "l1icaches" 0 "0" = Err e →
              at_component t "icache" "param" "icache_config"
              = Some "32768,64,8,1,10,10,64,0"
              ∧ occurrences custom_spec.l1i_warning printed
                = match n with O => 0%nat | S _ => 1%nat end)
         ∧ (∀ e, custom_converter.l1_geometry cfg cls "l1dcaches" 0 "1" = Err e →
              at_component t "dcache" "param" "dcache_config"
              = Some "32768,64,8,1,10,10,64,1"
              ∧ occurrences custom_spec.l1d_warning printed
                = match n with O => 0%nat | S _ => 1%nat end))
  ∧ (∀ stats config s t s',
       backup.create_mcpat_xml stats config s = (Ok t, s') →
       ∃ printed,
         stdout s' = stdout s ++ printed
         ∧ (∀ e, backup_spec.geometry (backup.l1_entry config "l1icaches") = Err e →
              Forall (λ nm, at_component t "L1Icache" "param" nm = Some "0")
                cache_params
              ∧ Forall (λ nv, at_component t "L1Icache" "param" nv.1 = Some nv.2)
                  cache_template
              ∧ occurrences backup_spec.l1i_warning printed = 1%nat)
         ∧ (∀ e, backup_spec.geometry (backup.l1_entry config "l1dcaches") = Err e →
              Forall (λ nm, at_component t "L1Dcache" "param" nm = Some "0")
                cache_params
              ∧ Forall (λ nv, at_component t "L1Dcache" "param" nv.1 = Some nv.2)
                  cache_template
              ∧ occurrences backup_spec.l1d_warning printed = 1%nat)
         ∧ (∀ e, backup_spec.geometry (backup.l2_entry config) = Err e →
              Forall (λ nm, at_component t "L2cache" "param" nm = Some "0")
                cache_params
              ∧ Forall (λ nv, at_component t "L2cache" "param" nv.1 = Some nv.2)
                  cache_template
              ∧ occurrences backup_spec.l2_warning printed = 1%nat))
  ∧ (∀ stats config s,
       plain config = true →
       custom_spec.converts stats config →
       ∃ t s', custom_converter.create_mcpat_xml stats config s = (Ok t, s'))
  ∧ (∀ stats config s,
       plain config = true →
       backup_spec.converts stats config →
       ∃ t s', backup.create_mcpat_xml stats config s = (Ok t, s')).
Proof.
  split_and!; [| | | |intros stats config s _; apply custom_converts_returns
               |intros stats config s _; apply backup_converts_returns].
  - apply custom_missing_path_is_caught.
  - apply backup_missing_path_is_caught.
  - intros stats config s t s' H.
    apply custom_create_mcpat_xml_ok in H
      as (cfg & cls & n & Hcfg & Hcls & Hn & -> & -> & _).
    exists cfg, cls, n, (custom_spec.log stats cfg cls n).
    split_and!; try done.
    + intros e He. split; [|by apply (custom_log_l1i _ _ _ _ e)].
      rewrite at_component_writes by apply custom_writes_valid.
      unfold custom_spec.writes, custom_spec.core_writes,
        custom_spec.geometry_writes.
      rewrite He.
      destruct n, (custom_converter.l1_geometry cfg cls "l1dcaches" 0 "1");
        reflexivity.
    + intros e He. split; [|by apply (custom_log_l1d _ _ _ _ e)].
      rewrite at_component_writes by apply custom_writes_valid.
      unfold custom_spec.writes, custom_spec.core_writes,
        custom_spec.geometry_writes.
      rewrite He.
      destruct n, (custom_converter.l1_geometry cfg cls "l1icaches" 0 "0");
        reflexivity.
  - intros stats config s t s' H.
    apply backup_create_mcpat_xml_ok in H as (cls & Hcls & -> & -> & _).
    exists (backup_spec.log config). split_and!; [done|..].
    all: intros e He; split_and!; [| |backup_count He].
    all: unfold cache_params, cache_template; cbn [fst snd];
      repeat (apply Forall_cons; split);
      [backup_read He..|constructor].
Qed.

(** The conditions of a run that returns hold with configuration paths
    missing: with no cache hierarchy at all, in [backup.py], ... *)
Example no_caches_converts : backup_spec.converts ∅ (VDict []).
Proof.
  split_and!.
  - by eexists.
  - apply finite_integral. intros k text f Hk. by rewrite lookup_empty in Hk.
  - by eexists.
  - apply list_elem_of_here.
  - apply list_elem_of_here.
  - apply list_elem_of_here.
Qed.

(** ... and in [custom_converter.py], with one core. *)
Example one_core_converts : custom_spec.converts five_cycles (cores [VDict []]).
Proof.
  exists (cores [VDict []]), (VInt 64), 1%nat. split_and!; try reflexivity.
  - apply finite_truncated. intros k v Hk.
    unfold five_cycles in Hk. apply lookup_singleton_Some in Hk as [_ <-].
    reflexivity.
  - apply list_elem_of_here.
  - apply list_elem_of_here.
Qed.

(** C7 fails in the fuller template: with one core and no cache hierarchy
    the lookup of the L1 instruction cache raises [KeyError], and the field
    keeps the template's geometry string, which is not 0. *)
Lemma missing_l1i_counterexample :
  ∃ t s' e,
    custom_converter.create_mcpat_xml ∅ (cores [VDict []]) initial = (Ok t, s')
    ∧ custom_converter.l1_geometry (cores [VDict []]) (VInt 64) "l1icaches" 0 "0"
      = Err e
    ∧ exn_cls e = KeyError
    ∧ at_component t "icache" "param" "icache_config"
      = Some "32768,64,8,1,10,10,64,0"
    ∧ at_component t "icache" "param" "icache_config" ≠ Some "0".
Proof.
  eexists _, _, _. split; [vm_compute; reflexivity|].
  split; [vm_compute; reflexivity|].
  split; [reflexivity|]. split; [vm_compute; reflexivity|].
  vm_compute. discriminate.
Qed.

(** With no cache hierarchy, the cache size of the L1 instruction cache of
    the minimal template stays 0, and its bank count stays 1. *)
Lemma missing_cache_path_keeps_template_default_witness :
  (backup.create_mcpat_xml ∅ (VDict []) initial
   = (Ok (returned run_no_caches), run_no_caches.2)
   ∧ backup_spec.geometry (backup.l1_entry (VDict []) "l1icaches")
     = Err (Raise KeyError "'board'"))
  ∧ at_component (returned run_no_caches) "L1Icache" "param" "cache_size"
    = Some "0"
  ∧ at_component (returned run_no_caches) "L1Icache" "param" "bank"
    = Some "1".
Proof.
  assert (backup.create_mcpat_xml ∅ (VDict []) initial
          = (Ok (returned run_no_caches), run_no_caches.2)) as H
    by (vm_compute; reflexivity).
  assert (backup_spec.geometry (backup.l1_entry (VDict []) "l1icaches")
          = Err (Raise KeyError "'board'")) as He by reflexivity.
  split; [by split|].
  destruct (proj1 (proj2 (proj2 (proj2
              missing_cache_path_keeps_template_default)))
              _ _ _ _ _ H) as (printed & _ & Hl1i & _).
  destruct (Hl1i _ He) as (Hf & Ht & _).
  split.
  - by apply Forall_cons in Hf as [Hf _].
  - do 3 apply Forall_cons in Ht as [_ Ht].
    by apply Forall_cons in Ht as [Ht _].
Defined.

(** *** The resolver *)

Lemma backup_log_warnings config :
  Forall (λ line, line ∈ [ backup_spec.l1i_warning; backup_spec.l1d_warning;
                           backup_spec.l2_warning ])
    (backup_spec.log config).
Proof.
  unfold backup_spec.log, backup_spec.cache_log.
  destruct (backup_spec.geometry (backup.l1_entry config "l1icaches")),
    (backup_spec.geometry (backup.l1_entry config "l1dcaches")),
    (backup_spec.geometry (backup.l2_entry config)); cbn [app].
  all: repeat (apply Forall_cons; split;
         [first [ apply list_elem_of_here
                | apply list_elem_of_further, list_elem_of_here
                | do 2 apply list_elem_of_further; apply list_elem_of_here ]|]).
  all: apply Forall_nil; exact I.
Qed.

(** C2, as amended.  In [custom_converter.py], [get_stat_value] returns
    the table's value of the key when the key is in the table; otherwise the
    value of the first alias of the key that is in the table; otherwise it
    prints a warning naming the key and the default, and returns
    [float(default)]; one of the three steps always applies.  On the empty
    table, key [total_cycles] and default 7 it returns 7.0 and warns.  In
    [backup.py], [get_stat_value] has no alias and no warning: it returns
    [float] of the table's text of the key when that reads as a number and
    the default itself, not converted, when it does not; without the key it
    returns [float(default)] (the default itself when that raises
    [ValueError] or [TypeError]); what the table has under other names
    does not count, and a run prints nothing but the warnings of the
    caches.  On the empty table, key [total_cycles] and default 7 it
    returns 7.0 too. *)
Theorem get_stat_value_fallback :
  (∀ (stats : custom_converter.stat_table) key default s,
     (∀ v, stats !! key = Some v →
        custom_converter.get_stat_value stats key default s = (Ok v, s))
     ∧ (∀ before name after v,
          stats !! key = None →
          custom_converter.aliases key = before ++ name :: after →
          Forall (λ x, stats !! x = None) before →
          stats !! name = Some v →
          custom_converter.get_stat_value stats key default s = (Ok v, s))
     ∧ (stats !! key = None →
        Forall (λ x, stats !! x = None) (custom_converter.aliases key) →
        custom_converter.get_stat_value stats key default s
        = (py_float default,
           State (root s)
             (stdout s ++
                ["Warning: Stat '" +:+ key
                   +:+ "' not found. Returning default value '"
                   +:+ py_str default +:+ "'."])))
     ∧ (is_Some (stats !! key)
        ∨ (∃ before name after v,
             custom_converter.aliases key = before ++ name :: after
             ∧ Forall (λ x, stats !! x = None) before
             ∧ stats !! name = Some v)
        ∨ Forall (λ x, stats !! x = None) (custom_converter.aliases key)))
  ∧ custom_converter.aliases "total_cycles"
    = ["system.cpu.numCycles"; "system.cpu_clk_domain.num_cycles"]
  ∧ (∀ s,
       custom_converter.get_stat_value ∅ "total_cycles" (VInt 7) s
       = (Ok (Float.of_Z 7),
          State (root s)
            (stdout s ++
               ["Warning: Stat 'total_cycles' not found. Returning default value '7'."])))
  ∧ Float.repr (Float.of_Z 7) = "7.0"
  ∧ (∀ (stats : backup.stat_table) key default,
       (∀ text f,
          stats !! key = Some text → float_of_string text = Some f →
          backup.get_stat_value stats key default = Ok (VFloat f))
       ∧ (∀ text,
            stats !! key = Some text → float_of_string text = None →
            backup.get_stat_value stats key default = Ok default)
       ∧ (∀ f,
            stats !! key = None → py_float default = Ok f →
            backup.get_stat_value stats key default = Ok (VFloat f))
       ∧ (∀ e,
            stats !! key = None → py_float default = Err e →
            exn_cls e = ValueError ∨ exn_cls e = TypeError →
            backup.get_stat_value stats key default = Ok default)
       ∧ (∀ stats' : backup.stat_table,
            stats' !! key = stats !! key →
            backup.get_stat_value stats' key default
            = backup.get_stat_value stats key default))
  ∧ backup.get_stat_value ∅ "total_cycles" (VInt 7)
    = Ok (VFloat (Float.of_Z 7))
  ∧ (∀ (stats : backup.stat_table) config s t s',
       backup.create_mcpat_xml stats config s = (Ok t, s') →
       ∃ printed,
         stdout s' = stdout s ++ printed
         ∧ Forall (λ line,
                     line ∈ [ backup_spec.l1i_warning; backup_spec.l1d_warning;
                              backup_spec.l2_warning ])
             printed).
Proof.
  split_and!.
  - intros stats key default s. split_and!.
    + intros v Hv. unfold custom_converter.get_stat_value. by rewrite Hv.
    + intros before name after v Hk Ha Hb Hn.
      unfold custom_converter.get_stat_value.
      by rewrite Hk, Ha, (first_present_skip _ _ _ _ _ Hb Hn).
    + intros Hk Ha. unfold custom_converter.get_stat_value.
      rewrite Hk, (first_present_none _ _ Ha). destruct s as [t out].
      by rewrite bind_run, print_run, lift_run.
    + destruct (stats !! key) as [v|]; [left; by eexists|]. right.
      apply first_present_cases.
  - reflexivity.
  - intros [t out]. reflexivity.
  - vm_compute. reflexivity.
  - intros stats key default. unfold backup.get_stat_value. split_and!.
    + intros text f -> Hf. cbn [py_float]. by rewrite Hf.
    + intros text -> Hf. cbn [py_float]. rewrite Hf. cbn [Py.raise exn_cls].
      by rewrite bool_decide_eq_true_2 by apply list_elem_of_here.
    + by intros f -> ->.
    + intros e -> -> He. rewrite bool_decide_eq_true_2; [done|].
      destruct He as [-> | ->];
        [apply list_elem_of_here|apply list_elem_of_further, list_elem_of_here].
    + by intros stats' ->.
  - vm_compute. reflexivity.
  - intros stats config s t s' H.
    apply backup_create_mcpat_xml_ok in H as (cls & _ & _ & -> & _).
    exists (backup_spec.log config). split; [done|].
    apply backup_log_warnings.
Qed.

(** The second step of [custom_converter.py], on a table that has the
    cycle count under its second alias. *)
Lemma get_stat_value_fallback_witness :
  (cycles_by_alias !! "total_cycles" = None
   ∧ custom_converter.aliases "total_cycles"
     = ["system.cpu.numCycles"] ++ "system.cpu_clk_domain.num_cycles" :: []
   ∧ Forall (λ x, cycles_by_alias !! x = None) ["system.cpu.numCycles"]
   ∧ cycles_by_alias !! "system.cpu_clk_domain.num_cycles" = Some (Float.of_Z 9))
  ∧ custom_converter.get_stat_value cycles_by_alias "total_cycles" (VInt 7)
      initial
    = (Ok (Float.of_Z 9), initial).
Proof.
  assert (cycles_by_alias !! "total_cycles" = None) as H1
    by (vm_compute; reflexivity).
  assert (custom_converter.aliases "total_cycles"
          = ["system.cpu.numCycles"] ++ "system.cpu_clk_domain.num_cycles" :: [])
    as H2 by reflexivity.
  assert (Forall (λ x, cycles_by_alias !! x = None) ["system.cpu.numCycles"])
    as H3 by (repeat constructor).
  assert (cycles_by_alias !! "system.cpu_clk_domain.num_cycles"
          = Some (Float.of_Z 9)) as H4 by (vm_compute; reflexivity).
  split; [done|].
  exact (proj1 (proj2
    (proj1 get_stat_value_fallback cycles_by_alias "total_cycles" (VInt 7)
       initial))
    _ _ _ _ H1 H2 H3 H4).
Defined.

(** C2 fails in [backup.py]: with the cycle count under an alias of
    [total_cycles] only, [get_stat_value] returns the default 7.0, not the 9
    of the alias; with a text that is not a number under the key itself it
    returns the default as it is, the integer 7; and a run on the empty
    table, where every statistic takes its default, prints the three
    warnings of the caches and no warning about a statistic. *)
Lemma resolver_counterexample :
  custom_converter.aliases "total_cycles"
  = ["system.cpu.numCycles"; "system.cpu_clk_domain.num_cycles"]
  ∧ inputs.cycles_alias_text !! "system.cpu.numCycles" = Some "9"
  ∧ backup.get_stat_value inputs.cycles_alias_text "total_cycles" (VInt 7)
    = Ok (VFloat (Float.of_Z 7))
  ∧ inputs.unreadable_cycles !! "total_cycles" = Some "n/a"
  ∧ backup.get_stat_value inputs.unreadable_cycles "total_cycles" (VInt 7)
    = Ok (VInt 7)
  ∧ backup.get_stat_value ∅ "total_cycles" (VInt 7)
    = Ok (VFloat (Float.of_Z 7))
  ∧ stdout run_no_caches.2
    = [ "Warning: Could not find L1I cache config. Defaulting to 0.";
        "Warning: Could not find L1D cache config. Defaulting to 0.";
        "Warning: Could not find L2 cache config. Defaulting to 0." ].
Proof. split_and!; vm_compute; reflexivity. Qed.

(** *** The configuration file *)

(** C6, as amended.  In [custom_converter.py], when the top-level JSON
    value is a sequence, [parse_config] returns its first element, and
    raises [ValueError] with a message when the sequence is empty; a
    mapping is returned as it is; when the value is neither a mapping nor a
    sequence, [parse_config] returns it and [create_mcpat_xml] raises
    [TypeError].  In [backup.py], [parse_config] returns the value as it
    is, a sequence too, empty or not, and [create_mcpat_xml] raises
    [AttributeError] at its first [config.get] for every value that is
    not a mapping. *)
Theorem parse_config_unwraps fs config_file j :
  json_load fs config_file = Ok j →
  (∀ x l, j = VList (x :: l) →
     custom_converter.parse_config fs config_file = Ok x)
  ∧ (j = VList [] →
     custom_converter.parse_config fs config_file
     = Err (Raise ValueError "config.json is an empty list."))
  ∧ (isinstance_dict j = true →
     custom_converter.parse_config fs config_file = Ok j)
  ∧ (isinstance_list j = false → isinstance_dict j = false →
     custom_converter.parse_config fs config_file = Ok j
     ∧ ∀ stats s,
         custom_converter.create_mcpat_xml stats j s
         = (Err (Raise TypeError "config object must be a dictionary."), s))
  ∧ backup.parse_config fs config_file = Ok j
  ∧ (isinstance_dict j = false →
     ∀ stats s,
       backup.create_mcpat_xml stats j s
       = (Err (Raise AttributeError
                 ("'" +:+ type_name j +:+ "' object has no attribute 'get'")),
          State backup.mcpat_template (stdout s))).
Proof.
  intros Hj. unfold custom_converter.parse_config, backup.parse_config.
  rewrite Hj. split_and!.
  - by intros x l ->.
  - by intros ->.
  - by destruct j.
  - intros Hl Hd. split; [by destruct j|].
    intros stats s. by destruct j.
  - done.
  - intros Hd stats s. unfold backup.create_mcpat_xml.
    rewrite bind_run. unfold fromstring. cbv beta iota.
    rewrite bind_run, lift_run. by destruct j.
Qed.

(** A configuration file that holds a number. *)
Lemma parse_config_unwraps_witness :
  json_load number_file "config.json" = Ok (VInt 5)
  ∧ custom_converter.create_mcpat_xml ∅ (VInt 5) initial
    = (Err (Raise TypeError "config object must be a dictionary."), initial)
  ∧ backup.create_mcpat_xml ∅ (VInt 5) initial
    = (Err (Raise AttributeError "'int' object has no attribute 'get'"),
       State backup.mcpat_template []).
Proof.
  split; [reflexivity|].
  destruct (parse_config_unwraps number_file "config.json" (VInt 5) eq_refl)
    as (_ & _ & _ & Hc & _ & Hb).
  split.
  - exact (proj2 (Hc eq_refl eq_refl) ∅ initial).
  - exact (Hb eq_refl ∅ initial).
Defined.

(** C6 fails in [backup.py]: on a configuration file that holds the empty
    list, [parse_config] raises nothing and returns the list, and
    [create_mcpat_xml] then raises [AttributeError], not a type error. *)
Lemma empty_list_counterexample :
  json_load inputs.empty_list_file "config.json" = Ok (VList [])
  ∧ backup.parse_config inputs.empty_list_file "config.json" = Ok (VList [])
  ∧ backup.create_mcpat_xml ∅ (VList []) initial
    = (Err (Raise AttributeError "'list' object has no attribute 'get'"),
       State backup.mcpat_template []).
Proof. split_and!; reflexivity. Qed.

(** *** The drivers *)

(** C8: the driver exits with status 1, after printing the usage line, when
    and only when it is not given exactly two arguments; in every other
    case the status is 0, and an exception of the conversion (a file that
    is not found, a JSON document that does not parse, or any other) is
    caught and reported. *)
Theorem exit_status fs argv :
  (exit_code (custom_converter.main fs argv) = 1 ↔ length argv ≠ 3%nat)
  ∧ (exit_code (backup.main fs argv) = 1 ↔ length argv ≠ 3%nat)
  ∧ (length argv ≠ 3%nat →
     custom_converter.main fs argv = Outcome 1 [custom_usage] [] None
     ∧ backup.main fs argv = Outcome 1 [backup_usage] [] None)
  ∧ (∀ prog stats_file config_file,
       argv = [prog; stats_file; config_file] →
       exit_code (custom_converter.main fs argv) = 0
       ∧ exit_code (backup.main fs argv) = 0
       ∧ (∀ e s,
            custom_converter.conversion fs stats_file config_file initial
            = (Err e, s) →
            custom_converter.main fs argv
            = Outcome 0 (stdout s) ["An error occurred: " +:+ exn_msg e] None)
       ∧ (∀ e s,
            backup.conversion fs stats_file config_file initial = (Err e, s) →
            backup.main fs argv
            = Outcome 0
                (stdout s ++
                   [if bool_decide (exn_cls e = FileNotFoundError)
                    then "Error: One or both of the files could not be found."
                    else "An unexpected error occurred: " +:+ exn_msg e])
                [] None)
       ∧ (∀ e, read_lines fs stats_file = Err e →
            custom_converter.conversion fs stats_file config_file initial
            = (Err e, initial)
            ∧ backup.conversion fs stats_file config_file initial
              = (Err e, initial))
       ∧ (∀ lines e,
            read_lines fs stats_file = Ok lines →
            json_load fs config_file = Err e →
            custom_converter.conversion fs stats_file config_file initial
            = (Err e, initial)
            ∧ backup.conversion fs stats_file config_file initial
              = (Err e, initial))).
Proof.
  destruct argv as [|a0 [|a1 [|a2 [|a3 argv]]]]; simpl.
  1-3, 5: split_and!; try (split; [lia|done]); try done.
  split_and!; try (split; [|done]).
  - destruct (custom_converter.conversion _ _ _ _) as [[]]; simpl; lia.
  - destruct (backup.conversion _ _ _ _) as [[]]; simpl; lia.
  - done.
  - intros prog stats_file config_file [= -> -> ->]. split_and!.
    + by destruct (custom_converter.conversion _ _ _ _) as [[]].
    + by destruct (backup.conversion _ _ _ _) as [[]].
    + by intros e s ->.
    + by intros e s ->.
    + intros e He. unfold custom_converter.conversion, backup.conversion.
      unfold custom_converter.parse_stats, backup.parse_stats.
      rewrite !bind_run, !lift_run, He. done.
    + intros lines e Hl He.
      unfold custom_converter.conversion, backup.conversion.
      unfold custom_converter.parse_stats, backup.parse_stats.
      unfold custom_converter.parse_config, backup.parse_config.
      rewrite !bind_run, !lift_run, Hl, He. simpl.
      rewrite !bind_run, !lift_run. done.
Qed.

(** With both input files missing the status is 0. *)
Lemma exit_status_witness :
  read_lines missing_files "stats.txt"
  = Err (Raise FileNotFoundError "No such file or directory")
  ∧ exit_code (custom_converter.main missing_files
                 ["prog"; "stats.txt"; "config.json"]) = 0
  ∧ backup.conversion missing_files "stats.txt" "config.json" initial
    = (Err (Raise FileNotFoundError "No such file or directory"), initial).
Proof.
  split; [reflexivity|].
  destruct (proj2 (proj2 (proj2
    (exit_status missing_files ["prog"; "stats.txt"; "config.json"])))
    "prog" "stats.txt" "config.json" eq_refl)
    as (Hcustom & _ & _ & _ & Hmissing & _).
  split; [exact Hcustom|].
  exact (proj2 (Hmissing _ eq_refl)).
Defined.

(** A file that is not found: nothing is written, the message is reported,
    and the status is 0. *)
Example file_not_found :
  custom_converter.main missing_files ["prog"; "stats.txt"; "config.json"]
  = Outcome 0 [] ["An error occurred: No such file or directory"] None
  ∧ backup.main missing_files ["prog"; "stats.txt"; "config.json"]
    = Outcome 0 ["Error: One or both of the files could not be found."] [] None.
Proof. split; reflexivity. Qed.

End both_converters.

(** * The statistics file of [custom_converter.py] *)

(** ** The matcher *)
Section pattern_facts.
Import custom_converter pattern.

Lemma many_sound a (rest : list ascii → groups → option groups) l g g' :
  (fix many (l : list ascii) (g : groups) : option groups :=
     match l with
     | c :: l' =>
         if cls a c then
           match many l' (capture a c g) with
           | Some x => Some x
           | None => rest l g
           end
         else rest l g
     | [] => rest l g
     end) l g = Some g' →
  ∃ seg l', l = seg ++ l' ∧ Forall (λ c, cls a c = true) seg
            ∧ rest l' (captured a seg g) = Some g'.
Proof.
  revert g. induction l as [|c l IH]; intros g H.
  - by exists [], [].
  - destruct (cls a c) eqn:Hc; [|by exists [], (c :: l)].
    match type of H with
    | match ?m with _ => _ end = _ => destruct m as [x|] eqn:Hm
    end.
    + injection H as ->. apply IH in Hm as (seg & l' & -> & Hseg & Hr).
      exists (c :: seg), l'. split; [done|]. split; [by constructor|done].
    + by exists [], (c :: l).
Qed.

(** A match of the pattern cuts the start of the line into one run per
    atom. *)
Lemma re_match_sound r l g g' :
  re_match r l g = Some g' → splits r l g g'.
Proof.
  revert l g. induction r as [|a r IH]; intros l g H.
  - injection H as <-. constructor.
  - cbn [re_match] in H. cbv zeta in H.
    destruct (rep a) eqn:Hrep.
    + destruct l as [|c l].
      { apply IH in H. apply (splits_cons a r [] []); [|done].
        split; [constructor|]. rewrite Hrep. simpl. lia. }
      destruct (cls a c) eqn:Hc.
      * destruct (re_match r l (capture a c g)) as [x|] eqn:Hm.
        -- injection H as ->. apply IH in Hm.
           apply (splits_cons a r [c] l); [|done].
           split; [by repeat constructor|]. rewrite Hrep. simpl. lia.
        -- apply IH in H. apply (splits_cons a r [] (c :: l)); [|done].
           split; [constructor|]. rewrite Hrep. simpl. lia.
      * apply IH in H. apply (splits_cons a r [] (c :: l)); [|done].
        split; [constructor|]. rewrite Hrep. simpl. lia.
    + apply many_sound in H as (seg & l' & -> & Hseg & Hr).
      apply IH in Hr. apply splits_cons; [|done].
      split; [done|]. by rewrite Hrep.
    + destruct l as [|c l]; [done|].
      destruct (cls a c) eqn:Hc; [|done].
      apply many_sound in H as (seg & l' & -> & Hseg & Hr).
      apply IH in Hr. apply (splits_cons a r (c :: seg) l'); [|done].
      split; [by constructor|]. rewrite Hrep. simpl. lia.
Qed.

(** A repetition takes the longest run when the rest of the pattern
    matches after it. *)
Lemma many_greedy a (rest : list ascii → groups → option groups) seg l g g' :
  Forall (λ c, cls a c = true) seg →
  stops a l →
  rest l (captured a seg g) = Some g' →
  (fix many (l : list ascii) (g : groups) : option groups :=
     match l with
     | c :: l' =>
         if cls a c then
           match many l' (capture a c g) with
           | Some x => Some x
           | None => rest l g
           end
         else rest l g
     | [] => rest l g
     end) (seg ++ l) g = Some g'.
Proof.
  intros Hseg Hl. revert g. induction Hseg as [|c seg Hc _ IH]; intros g Hr.
  - destruct l as [|c l]; [exact Hr|]. simpl in Hl |- *. by rewrite Hl.
  - simpl. rewrite Hc. by rewrite (IH _ Hr).
Qed.

Lemma re_match_star a r seg l g g' :
  rep a = Star →
  Forall (λ c, cls a c = true) seg → stops a l →
  re_match r l (captured a seg g) = Some g' →
  re_match (a :: r) (seg ++ l) g = Some g'.
Proof.
  intros Hrep Hseg Hl Hr. cbn [re_match]. cbv zeta. rewrite Hrep.
  by apply many_greedy.
Qed.

Lemma re_match_plus a r seg l g g' :
  rep a = Plus →
  (1 ≤ length seg)%nat →
  Forall (λ c, cls a c = true) seg → stops a l →
  re_match r l (captured a seg g) = Some g' →
  re_match (a :: r) (seg ++ l) g = Some g'.
Proof.
  intros Hrep Hlen Hseg Hl Hr. cbn [re_match]. cbv zeta. rewrite Hrep.
  destruct Hseg as [|c seg Hc Hseg]; [simpl in Hlen; lia|].
  simpl. rewrite Hc. by apply many_greedy.
Qed.

Lemma re_match_opt_none a r l g g' :
  rep a = Opt → stops a l →
  re_match r l g = Some g' →
  re_match (a :: r) l g = Some g'.
Proof.
  intros Hrep Hl Hr. cbn [re_match]. cbv zeta. rewrite Hrep.
  destruct l as [|c l]; [exact Hr|]. simpl in Hl. by rewrite Hl.
Qed.

(** A last repetition outside the groups matches whatever follows. *)
Lemma re_match_last a l g :
  rep a = Star → grp a = 0%nat → re_match [a] l g = Some g.
Proof.
  intros Hrep Hgrp. cbn [re_match]. cbv zeta. rewrite Hrep.
  assert (∀ c, capture a c g = g) as Hcap
    by (intros c; unfold capture; by rewrite Hgrp).
  induction l as [|c l IH]; [done|].
  destruct (cls a c); [|done].
  by rewrite Hcap, IH.
Qed.

Lemma captured_0 f q seg g : captured (Atom f q 0) seg g = g.
Proof. revert g. induction seg as [|c seg IH]; intros g; [done|apply IH]. Qed.

Lemma captured_1 f q seg g :
  captured (Atom f q 1) seg g = (g.1 ++ seg, g.2).
Proof.
  revert g. induction seg as [|c seg IH]; intros [g1 g2].
  - simpl. by rewrite app_nil_r.
  - change (captured ?a (c :: seg) ?g) with (captured a seg (capture a c g)).
    rewrite IH. simpl. by rewrite <-app_assoc.
Qed.

Lemma captured_2 f q seg g :
  captured (Atom f q 2) seg g = (g.1, g.2 ++ seg).
Proof.
  revert g. induction seg as [|c seg IH]; intros [g1 g2].
  - simpl. by rewrite app_nil_r.
  - change (captured ?a (c :: seg) ?g) with (captured a seg (capture a c g)).
    rewrite IH. simpl. by rewrite <-app_assoc.
Qed.

Lemma splits_inv a r l g g' :
  splits (a :: r) l g g' →
  ∃ seg l', l = seg ++ l' ∧ takes a seg ∧ splits r l' (captured a seg g) g'.
Proof. inversion 1; subst. by eexists _, _. Qed.

End pattern_facts.

(** ** Character classes, [strip] and [float] *)
Section text_facts.
Import Py custom_converter.

Ltac by_cases c :=
  destruct c as [[] [] [] [] [] [] [] []]; vm_compute; done.

Lemma tail_char_e c :
  one_of "e" c = true → is_digit c || one_of "e-+" c = true.
Proof. by_cases c. Qed.

Lemma tail_char_sign c :
  one_of "-+" c = true → is_digit c || one_of "e-+" c = true.
Proof. by_cases c. Qed.

Lemma tail_char_digit c :
  is_digit c = true → is_digit c || one_of "e-+" c = true.
Proof. by_cases c. Qed.

Lemma key_char_not_space c : key_char c = true → is_space c = false.
Proof. by_cases c. Qed.

Lemma space_not_key_char c : is_space c = true → key_char c = false.
Proof. by_cases c. Qed.

Lemma digit_or_dot_not_space c : digit_or_dot c = true → is_space c = false.
Proof. by_cases c. Qed.

Lemma tail_char_not_space c :
  is_digit c || one_of "e-+" c = true → is_space c = false.
Proof. by_cases c. Qed.

Lemma space_ends_number c :
  is_space c = true →
  digit_or_dot c = false ∧ one_of "e" c = false ∧ one_of "-+" c = false
  ∧ is_digit c = false.
Proof. by_cases c. Qed.

Lemma digit_or_dot_plain c :
  digit_or_dot c = true →
  ascii_eqb c "_" = false ∧ ascii_eqb c "-" = false ∧ ascii_eqb c "+" = false.
Proof. by_cases c. Qed.

Lemma digit_is_digit_or_dot c : is_digit c = true → digit_or_dot c = true.
Proof. by_cases c. Qed.

Lemma digit_val_nonneg c : is_digit c = true → 0 ≤ digit_val c.
Proof. by_cases c. Qed.

Lemma digit_not_a_name c s :
  is_digit c = true →
  lower c = c
  ∧ (String c s =? "inf")%string = false
  ∧ (String c s =? "infinity")%string = false
  ∧ (String c s =? "nan")%string = false.
Proof. by_cases c. Qed.

Lemma lstrip_id l :
  Forall (λ c, is_space c = false) l → lstrip l = l.
Proof. destruct 1 as [|c l Hc _]; [done|]. simpl. by rewrite Hc. Qed.

(** [strip] changes nothing in a text without white space. *)
Lemma strip_id l : Forall (λ c, is_space c = false) l → strip l = l.
Proof.
  intros H. unfold strip. rewrite (lstrip_id l H).
  rewrite lstrip_id by by apply Forall_rev.
  apply rev_involutive.
Qed.

Lemma solid_not_num_space c : is_space c = false → num_space c = false.
Proof. by_cases c. Qed.

Lemma num_lstrip_id l :
  Forall (λ c, num_space c = false) l → num_lstrip l = l.
Proof. destruct 1 as [|c l Hc _]; [done|]. simpl. by rewrite Hc. Qed.

(** [int] and [float] skip nothing in a text without white space. *)
Lemma num_strip_id l : Forall (λ c, is_space c = false) l → num_strip l = l.
Proof.
  intros H.
  assert (Forall (λ c, num_space c = false) l) as H'
    by (eapply Forall_impl; [exact H|]; apply solid_not_num_space).
  unfold num_strip. rewrite (num_lstrip_id l H').
  rewrite num_lstrip_id by by apply Forall_rev.
  apply rev_involutive.
Qed.

Lemma lstrip_has_token l : has_token l → has_token (lstrip l).
Proof.
  unfold has_token. induction 1 as [c l Hc|c l _ IH].
  - simpl. rewrite Hc. by constructor.
  - simpl. destruct (is_space c) eqn:Hc; [exact IH|].
    constructor. exact Hc.
Qed.

Lemma rev_has_token l : has_token l → has_token (rev l).
Proof.
  unfold has_token. rewrite !Exists_exists. intros (c & Hin & Hc).
  exists c. split; [|done]. rewrite rev_alt. by apply (elem_of_reverse_2 c l).
Qed.

(** A line with a character that is not white space is not blank. *)
Lemma blank_has_token l : has_token l → blank l = false.
Proof.
  intros H. unfold blank, strip.
  assert (has_token (rev (lstrip (rev (lstrip l))))) as Ht.
  { by apply rev_has_token, lstrip_has_token, rev_has_token, lstrip_has_token. }
  destruct Ht; done.
Qed.

Lemma remove_char_cons x c l :
  remove_char x (c :: l)
  = if ascii_eqb c x then remove_char x l else c :: remove_char x l.
Proof.
  unfold remove_char. cbn [List.filter]. by destruct (ascii_eqb c x).
Qed.

Lemma chars_str_of l : chars (str_of l) = l.
Proof. apply list_ascii_of_string_of_list_ascii. Qed.

Lemma str_of_chars s : str_of (chars s) = s.
Proof. apply string_of_list_ascii_of_string. Qed.

Lemma length_str_of l : String.length (str_of l) = length l.
Proof. induction l as [|c l IH]; simpl; [done|by rewrite IH]. Qed.

Lemma negative_round q e l :
  negative (binary_round_aux Float.prec Float.emax false q e l) = false.
Proof.
  unfold binary_round_aux.
  destruct (shr_fexp _ _ _ _ _) as [m1 e1].
  destruct (shr_fexp _ _ _ _ _) as [m2 e2].
  destruct (shr_m m2); [done| |done]. by destruct (_ <=? _).
Qed.

Lemma negative_of_ratio a b : negative (Float.of_ratio false a b) = false.
Proof.
  unfold Float.of_ratio. destruct a; [done|..].
  all: destruct (SFdiv_core_binary _ _ _ _ _ _) as [[q e] l].
  all: apply negative_round.
Qed.

Lemma negative_of_decimal m e : negative (Float.of_decimal false m e) = false.
Proof.
  unfold Float.of_decimal. destruct (0 <=? e); apply negative_of_ratio.
Qed.

(** A text that starts with a digit or a dot does not read as a negative
    float. *)
Lemma float_of_chars_unsigned c l v :
  digit_or_dot c = true →
  float_of_chars (c :: l) = Some v → negative v = false.
Proof.
  intros Hc. destruct (digit_or_dot_plain c Hc) as (_ & Hm & Hp).
  unfold float_of_chars, split_sign. rewrite Hm, Hp.
  destruct ((_ =? "inf")%string || _); [by intros [= <-]|].
  destruct (_ =? "nan")%string; [by intros [= <-]|].
  destruct (span_digits (c :: l)) as [ip r1].
  destruct (match r1 with [] => _ | _ => _ end) as [fp r2].
  destruct (ip ++ fp); [done|].
  destruct r2 as [|c2 r3]; [intros [= <-]; apply negative_of_decimal|].
  destruct (is_e c2); [|done].
  destruct (match r3 with [] => _ | _ => _ end) as [eneg r4].
  destruct (span_digits r4) as [[|d ed] [|]]; try done.
  intros [= <-]. apply negative_of_decimal.
Qed.

Lemma float_of_string_unsigned c l v :
  digit_or_dot c = true →
  Forall (λ x, is_space x = false) l →
  float_of_string (str_of (c :: l)) = Some v → negative v = false.
Proof.
  intros Hc Hl. unfold float_of_string. rewrite chars_str_of.
  rewrite num_strip_id by (constructor; [by apply digit_or_dot_not_space|done]).
  destruct (underscores_ok _ _); [|done].
  destruct (digit_or_dot_plain c Hc) as (Hu & _ & _).
  rewrite remove_char_cons, Hu.
  by apply float_of_chars_unsigned.
Qed.

(** *** Decimal integers *)

Lemma underscores_ok_digits prev ds :
  ascii_eqb prev "_" = false →
  Forall (λ c, is_digit c = true) ds → underscores_ok prev ds = true.
Proof.
  intros Hp Hds. revert prev Hp.
  induction Hds as [|c ds Hc _ IH]; intros prev Hp; simpl.
  - by rewrite Hp.
  - destruct (digit_or_dot_plain c (digit_is_digit_or_dot c Hc)) as (Hu & _).
    rewrite Hu, Hp. simpl. by apply IH.
Qed.

Lemma remove_char_digits ds :
  Forall (λ c, is_digit c = true) ds → remove_char "_" ds = ds.
Proof.
  induction 1 as [|c ds Hc _ IH]; [done|].
  destruct (digit_or_dot_plain c (digit_is_digit_or_dot c Hc)) as (Hu & _).
  by rewrite remove_char_cons, Hu, IH.
Qed.

Lemma span_digits_digits ds :
  Forall (λ c, is_digit c = true) ds → span_digits ds = (ds, []).
Proof.
  induction 1 as [|c ds Hc _ IH]; [done|]. simpl. by rewrite Hc, IH.
Qed.

Lemma digits_from_nonneg ds acc :
  Forall (λ c, is_digit c = true) ds → 0 ≤ acc →
  0 ≤ fold_left (λ acc c, 10 * acc + digit_val c) ds acc.
Proof.
  intros H. revert acc. induction H as [|c ds Hc _ IH]; intros acc Hacc; [done|].
  simpl. apply IH. pose proof (digit_val_nonneg c Hc). lia.
Qed.

Lemma digits_val_nonneg ds :
  Forall (λ c, is_digit c = true) ds → 0 ≤ digits_val ds.
Proof. intros H. by apply digits_from_nonneg. Qed.

Lemma of_decimal_0 m : 0 ≤ m → Float.of_decimal false m 0 = Float.of_Z m.
Proof.
  intros Hm. unfold Float.of_decimal, Float.of_Z. simpl.
  rewrite Z.mul_1_r, Z.abs_eq by done.
  by destruct (Z.ltb_spec m 0); [lia|].
Qed.

(** [float] of a text of decimal digits is the float nearest to the
    number they write. *)
Lemma float_of_digits ds :
  (1 ≤ length ds)%nat → Forall (λ c, is_digit c = true) ds →
  float_of_string (str_of ds) = Some (Float.of_Z (digits_val ds)).
Proof.
  intros Hlen Hds. unfold float_of_string. rewrite chars_str_of.
  rewrite num_strip_id
    by (eapply Forall_impl; [exact Hds|];
        intros c Hc; by apply digit_or_dot_not_space, digit_is_digit_or_dot).
  rewrite underscores_ok_digits by done.
  rewrite remove_char_digits by done.
  pose proof (digits_val_nonneg ds Hds) as Hm.
  destruct Hds as [|c ds Hc Hds]; [simpl in Hlen; lia|].
  destruct (digit_or_dot_plain c (digit_is_digit_or_dot c Hc)) as (_ & Hmi & Hpl).
  unfold float_of_chars, split_sign. rewrite Hmi, Hpl.
  cbn [map str_of string_of_list_ascii].
  destruct (digit_not_a_name c (string_of_list_ascii (map lower ds)) Hc)
    as (-> & -> & -> & ->).
  cbn [orb].
  rewrite (span_digits_digits (c :: ds)) by by constructor.
  rewrite app_nil_r. cbn [length Z.of_nat Z.opp].
  by rewrite of_decimal_0.
Qed.

End text_facts.

(** ** [custom_converter.parse_stats] *)
Section custom_parse_stats.
Import Py custom_converter pattern examples.

(** What a match of the pattern of [parse_stats] says of the line: white
    space, the key (group 1), white space, and the text of group 2, which
    starts with digits and dots. *)
Lemma stat_line_match l g1 g2 :
  re_match stat_line l ([], []) = Some (g1, g2) →
  ∃ s0 s1 v1 v2 rest,
    l = s0 ++ g1 ++ s1 ++ g2 ++ rest
    ∧ g2 = v1 ++ v2
    ∧ Forall (λ c, is_space c = true) s0
    ∧ (1 ≤ length g1)%nat ∧ Forall (λ c, key_char c = true) g1
    ∧ (1 ≤ length s1)%nat ∧ Forall (λ c, is_space c = true) s1
    ∧ (1 ≤ length v1)%nat ∧ Forall (λ c, digit_or_dot c = true) v1
    ∧ Forall (λ c, is_digit c || one_of "e-+" c = true) v2.
Proof.
  intros H%re_match_sound. unfold stat_line in H.
  apply splits_inv in H as (s0 & l0 & -> & [Hs0 _] & H).
  apply splits_inv in H as (k & l1 & -> & [Hk Hk1] & H).
  apply splits_inv in H as (s1 & l2 & -> & [Hs1 Hs11] & H).
  apply splits_inv in H as (v1 & l3 & -> & [Hv1 Hv11] & H).
  apply splits_inv in H as (e & l4 & -> & [He _] & H).
  apply splits_inv in H as (sg & l5 & -> & [Hsg _] & H).
  apply splits_inv in H as (ds & l6 & -> & [Hds _] & H).
  apply splits_inv in H as (s2 & l7 & -> & [Hs2 _] & H).
  inversion H; subst. clear H.
  rewrite !captured_0, captured_1, !captured_2 in *. simpl in *.
  match goal with E : _ = (g1, g2) |- _ => injection E as <- <- end.
  exists s0, s1, v1, (e ++ sg ++ ds), (s2 ++ l7).
  rewrite <-!app_assoc. split_and!; try done.
  repeat (apply Forall_app; split).
  - eapply Forall_impl; [exact He|]. apply tail_char_e.
  - eapply Forall_impl; [exact Hsg|]. apply tail_char_sign.
  - eapply Forall_impl; [exact Hds|]. apply tail_char_digit.
Qed.

(** The pattern on a line made of a key, white space and a value of
    digits and dots that ends the line or is followed by white space:
    group 1 is the key and group 2 the value. *)
Lemma stat_line_two_columns s0 k sp v tl :
  Forall (λ c, is_space c = true) s0 →
  (1 ≤ length k)%nat → Forall (λ c, key_char c = true) k →
  (1 ≤ length sp)%nat → Forall (λ c, is_space c = true) sp →
  (1 ≤ length v)%nat → Forall (λ c, digit_or_dot c = true) v →
  token_end tl →
  re_match stat_line (s0 ++ k ++ sp ++ v ++ tl) ([], []) = Some (k, v).
Proof.
  intros Hs0 Hk1 Hk Hsp1 Hsp Hv1 Hv Htl. unfold stat_line.
  assert (∀ c : ascii, is_space c = true →
            (λ c, is_digit c || one_of "." c) c = false) as Hdd
    by (intros c Hc; by destruct (space_ends_number c Hc)).
  apply re_match_star; [done|exact Hs0| |].
  { destruct Hk as [|c k Hc _]; [simpl in Hk1; lia|].
    simpl. by apply key_char_not_space. }
  apply re_match_plus; [done|exact Hk1|exact Hk| |].
  { destruct Hsp as [|c sp Hc _]; [simpl in Hsp1; lia|].
    simpl. by apply space_not_key_char. }
  apply re_match_plus; [done|exact Hsp1|exact Hsp| |].
  { destruct Hv as [|c v Hc _]; [simpl in Hv1; lia|].
    simpl. by apply digit_or_dot_not_space. }
  apply re_match_plus; [done|exact Hv1|exact Hv| |].
  { destruct tl as [|c tl]; [done|]. simpl in Htl |- *. by apply Hdd. }
  apply re_match_opt_none; [done| |].
  { destruct tl as [|c tl]; [done|]. simpl in Htl |- *.
    by destruct (space_ends_number c Htl) as (_ & ? & _). }
  apply re_match_opt_none; [done| |].
  { destruct tl as [|c tl]; [done|]. simpl in Htl |- *.
    by destruct (space_ends_number c Htl) as (_ & _ & ? & _). }
  apply (re_match_star _ _ [] tl); [done|constructor| |].
  { destruct tl as [|c tl]; [done|]. simpl in Htl |- *.
    by destruct (space_ends_number c Htl) as (_ & _ & _ & ?). }
  rewrite re_match_last by done.
  rewrite !captured_0, captured_1, !captured_2. simpl.
  by rewrite app_nil_r.
Qed.

Local Opaque re_match stat_line float_of_string.

(** X1: for a statistics file of ASCII text, every entry of the table of
    [parse_stats] comes from a line of the file that starts with white
    space (or nothing), the key, white space, and a text that begins with a
    digit or a dot: the key is not empty and is made of letters, digits and
    [_.:-], the value is what [float] reads from that text, and it is never
    negative (the pattern takes no sign). *)
Theorem parse_stats_entries fs stats_file lines stats k v :
  read_lines fs stats_file = Ok lines →
  Forall ascii_text lines →
  parse_stats fs stats_file = Ok stats →
  stats !! k = Some v →
  (1 ≤ String.length k)%nat
  ∧ Forall (λ c, key_char c = true) (chars k)
  ∧ negative v = false
  ∧ ∃ line s0 s1 c text rest,
      line ∈ lines
      ∧ chars line = s0 ++ chars k ++ s1 ++ (c :: text) ++ rest
      ∧ Forall (λ c, is_space c = true) s0
      ∧ (1 ≤ length s1)%nat ∧ Forall (λ c, is_space c = true) s1
      ∧ digit_or_dot c = true
      ∧ float_of_string (str_of (c :: text)) = Some v.
Proof.
  intros Hr _. unfold parse_stats. rewrite Hr.
  cbn [res_bind]. intros [= <-] Hk.
  apply parse_stats_values in Hk as (line & g1 & g2 & Hin & Hm & -> & Hv).
  destruct (stat_line_match _ _ _ Hm)
    as (s0 & s1 & v1 & v2 & rest & Hl & -> & Hs0 & Hk1 & Hk & Hs11 & Hs1
        & Hv1 & Hv1' & Hv2).
  assert (Forall (λ x, is_space x = false) (v1 ++ v2)) as Hns.
  { apply Forall_app. split.
    - eapply Forall_impl; [exact Hv1'|]. apply digit_or_dot_not_space.
    - eapply Forall_impl; [exact Hv2|]. apply tail_char_not_space. }
  assert (strip g1 = g1) as Hg1.
  { apply strip_id. eapply Forall_impl; [exact Hk|]. apply key_char_not_space. }
  rewrite (strip_id _ Hns) in Hv. rewrite Hg1.
  rewrite length_str_of, chars_str_of.
  destruct v1 as [|c v1]; [simpl in Hv1; lia|].
  apply Forall_cons in Hv1' as [Hc _]. apply Forall_cons in Hns as [_ Hns].
  split_and!; [exact Hk1|exact Hk|..].
  - exact (float_of_string_unsigned c (v1 ++ v2) v Hc Hns Hv).
  - exists line, s0, s1, c, (v1 ++ v2), rest.
    split_and!; (reflexivity || assumption).
Qed.

Lemma parse_stats_entries_witness :
  parse_stats hex_file "stats.txt" = Ok {[ "x" := Float.of_Z 0 ]}
  ∧ Forall (λ c, key_char c = true) (chars "x")
  ∧ negative (Float.of_Z 0) = false.
Proof.
  assert (parse_stats hex_file "stats.txt" = Ok {[ "x" := Float.of_Z 0 ]})
    as H by (vm_compute; reflexivity).
  assert (({[ "x" := Float.of_Z 0 ]} : stat_table) !! "x"
          = Some (Float.of_Z 0)) as Hx by (vm_compute; reflexivity).
  split; [exact H|].
  assert (Forall ascii_text ["x 0x1000" +:+ newline]) as Ha
    by (repeat constructor).
  destruct (parse_stats_entries hex_file "stats.txt" _ _ "x" _ eq_refl Ha H Hx)
    as (_ & Hk & Hn & _).
  split; [exact Hk|exact Hn].
Defined.

(** The loop on a line of two columns: the key gets the value [float]
    reads. *)
Lemma parse_line_two_columns stats s0 k sp v tl f :
  Forall (λ c, is_space c = true) s0 →
  (1 ≤ length k)%nat → Forall (λ c, key_char c = true) k →
  (1 ≤ length sp)%nat → Forall (λ c, is_space c = true) sp →
  (1 ≤ length v)%nat → Forall (λ c, digit_or_dot c = true) v →
  token_end tl →
  contains (chars "----------") (s0 ++ k ++ sp ++ v ++ tl) = false →
  float_of_string (str_of v) = Some f →
  parse_line stats (str_of (s0 ++ k ++ sp ++ v ++ tl))
  = <[str_of k := f]> stats.
Proof.
  intros Hs0 Hk1 Hk Hsp1 Hsp Hv1 Hv Htl Hd Hf.
  unfold parse_line. cbv zeta. rewrite chars_str_of, Hd.
  rewrite blank_has_token.
  2:{ unfold has_token. apply Exists_app. right. apply Exists_app. left.
      destruct Hk as [|c k Hc _]; [simpl in Hk1; lia|].
      constructor. by apply key_char_not_space. }
  cbn [orb].
  rewrite stat_line_two_columns by done.
  rewrite !strip_id.
  - by rewrite Hf.
  - eapply Forall_impl; [exact Hk|]. apply key_char_not_space.
  - eapply Forall_impl; [exact Hv|]. apply digit_or_dot_not_space.
Qed.

(** X2: a line of two columns added at the end of the file sets its key
    to its value and leaves the other entries as they are, so that the last
    line of a key wins.  The line is: white space or nothing, a key of
    letters, digits and [_.:-], white space, a value of digits and dots
    that [float] reads, and then the end of the line or white space and
    anything; a line that holds ten dashes is skipped instead.  A value made
    of decimal digits is stored as the float of the number they write. *)
Theorem parse_stats_last_line_wins fs fs' stats_file lines stats s0 k sp v tl f :
  read_lines fs stats_file = Ok lines →
  parse_stats fs stats_file = Ok stats →
  read_lines fs' stats_file = Ok (lines ++ [str_of (s0 ++ k ++ sp ++ v ++ tl)]) →
  Forall (λ c, is_space c = true) s0 →
  (1 ≤ length k)%nat → Forall (λ c, key_char c = true) k →
  (1 ≤ length sp)%nat → Forall (λ c, is_space c = true) sp →
  (1 ≤ length v)%nat → Forall (λ c, digit_or_dot c = true) v →
  token_end tl →
  contains (chars "----------") (s0 ++ k ++ sp ++ v ++ tl) = false →
  float_of_string (str_of v) = Some f →
  parse_stats fs' stats_file = Ok (<[str_of k := f]> stats)
  ∧ (Forall (λ c, is_digit c = true) v → f = Float.of_Z (digits_val v)).
Proof.
  intros Hr Hp Hr' Hs0 Hk1 Hk Hsp1 Hsp Hv1 Hv Htl Hd Hf. split.
  - unfold parse_stats in Hp |- *. rewrite Hr in Hp. rewrite Hr'.
    cbn [res_bind] in Hp |- *. injection Hp as <-.
    rewrite fold_left_app. cbn [fold_left].
    by rewrite (parse_line_two_columns _ s0 k sp v tl f).
  - intros Hds. rewrite float_of_digits in Hf by done. by injection Hf.
Qed.

Lemma parse_stats_last_line_wins_witness :
  parse_stats (inputs.with_files inputs.two_lines VNone) "stats.txt"
  = Ok (<["a" := Float.of_Z 42]> {[ "a" := Float.of_Z 1 ]}).
Proof.
  apply (parse_stats_last_line_wins
           (inputs.with_files inputs.one_line VNone)
           (inputs.with_files inputs.two_lines VNone)
           "stats.txt" inputs.one_line {[ "a" := Float.of_Z 1 ]}
           [] (chars "a") (chars " ") (chars "42") (chars newline)
           (Float.of_Z 42)).
  all: try (vm_compute; reflexivity).
  all: try (simpl; lia).
  all: try (repeat constructor).
Defined.

Local Transparent re_match stat_line float_of_string.

End custom_parse_stats.

(** * More on the runs of [custom_converter.create_mcpat_xml] *)
Section custom_runs.
Import Py custom_converter custom_spec examples.

Local Abbreviation T := mcpat_template.

Ltac eval_nodes H :=
  repeat match type of H with
    | context [ET.find_in T ?p ?tg ?nm] =>
        let r := eval vm_compute in (ET.find_in T p tg nm) in
        change (ET.find_in T p tg nm) with r in H
    | context [ET.truth_in T ?p] =>
        let r := eval vm_compute in (ET.truth_in T p) in
        change (ET.truth_in T p) with r in H
    end.

Ltac tidy H := cbv beta iota in H; eval_nodes H; cbv beta iota in H.

Ltac step H :=
  rewrite ?bind_assoc_run in H;
  rewrite bind_run in H;
  first
    [ rewrite find_run in H
    | rewrite truth_run in H
    | rewrite set_value_run in H
    | rewrite (get_stat_value_run _ _ _ _ _ custom_py_float_0) in H
    | rewrite (get_stat_value_run _ _ _ _ _ py_float_1e9) in H
    | rewrite local_run in H
    | rewrite ret_run in H
    | rewrite truediv_million, lift_run in H
    | rewrite write_int_run' in H;
      match type of H with
      | context [match int_of_float ?x with _ => _ end] =>
          first
            [ match goal with
              | E : int_of_float x = Ok _ |- _ => rewrite E in H
              end
            | let E := fresh "Hint" in
              destruct (int_of_float x) eqn:E; [|discriminate H] ]
      end ];
  tidy H; cbn [root stdout] in H.

Ltac step_caught H :=
  unfold l1_cache_config, try_except in H; rewrite bind_run, lift_run in H;
  match type of H with
  | context [l1_geometry ?a ?b ?c ?d ?e] =>
      let G := fresh "Hgeo" in
      destruct (l1_geometry a b c d e) as [?|?] eqn:G
  end;
  cbv beta iota in H;
  [ rewrite set_value_run in H; tidy H
  | case_bool_decide; [rewrite print_run in H|discriminate H] ];
  cbv beta iota in H.

Ltac step_res H :=
  rewrite ?bind_assoc_run in H; rewrite bind_run, lift_run in H;
  match type of H with
  | context [match ?r with Ok _ => _ | Err _ => _ end] =>
      let E := fresh "Hres" in
      destruct r eqn:E; [|discriminate H]
  end;
  cbv beta iota in H.

(** X3: for a configuration whose values [str] prints ([plain]: integers
    of at most 4300 digits, a nesting of at most 100), the runs of
    [create_mcpat_xml] that return are exactly those on inputs for which
    [converts] holds: the configuration is a dictionary (or a list that
    starts with one), [board] and [processor] are dictionaries where they
    are there, no statistic the run truncates is infinite or a NaN, and with
    a core count of at least one each lookup of an L1 cache of core 0
    succeeds, with a size that [int] reads when it is a string, or raises
    [KeyError] or [IndexError].  On every other such input the run
    raises. *)
Theorem custom_returns_iff_converts stats config s :
  plain config = true →
  (∃ t s', create_mcpat_xml stats config s = (Ok t, s'))
  ↔ converts stats config.
Proof.
  intros _. split.
  - intros (t & s' & H). by apply custom_returns_converts in H.
  - apply custom_converts_returns.
Qed.

(** The run on one core and five cycles returns. *)
Lemma custom_returns_iff_converts_witness :
  plain (cores [VDict []]) = true
  ∧ converts five_cycles (cores [VDict []]).
Proof.
  split; [reflexivity|].
  apply (proj1 (custom_returns_iff_converts five_cycles (cores [VDict []])
                  initial eq_refl)).
  eexists _, _. vm_compute. reflexivity.
Defined.

(** *** Statistics that do not convert *)

Lemma int_of_float_raises x e :
  int_of_float x = Err e →
  Float.is_finite x = false ∧ exn_cls e ∈ [OverflowError; ValueError].
Proof.
  destruct x; simpl; try done; intros [= <-]; (split; [done|]); simpl.
  - apply list_elem_of_here.
  - apply list_elem_of_further, list_elem_of_here.
Qed.

Lemma not_finite_raises x :
  Float.is_finite x = false → ∃ e, int_of_float x = Err e.
Proof. destruct x; try done; by eexists. Qed.

(** X4: when the total cycle count the run resolves is infinite or a NaN
    (a line such as [system.cpu.numCycles 1e999] is read as infinity),
    [int] raises [OverflowError] or [ValueError] at the first statistic
    assigned and the run of [create_mcpat_xml] ends with that exception,
    once the configuration was read (a dictionary, with dictionaries on the
    way to the cache line size and to the cores). *)
Theorem custom_non_finite_cycles_abort stats config cfg cls n s :
  unwrap_config config = Ok cfg →
  cache_line_size cfg = Ok cls →
  core_count cfg = Ok n →
  Float.is_finite (total_cycles stats) = false →
  ∃ e, int_of_float (total_cycles stats) = Err e
       ∧ exn_cls e ∈ [OverflowError; ValueError]
       ∧ (create_mcpat_xml stats config s).1 = Err e.
Proof.
  intros Hcfg Hcls Hn Hfin.
  destruct (not_finite_raises _ Hfin) as [e He]. exists e.
  split; [exact He|]. split; [exact (proj2 (int_of_float_raises _ _ He))|].
  unfold cache_line_size in Hcls.
  destruct (py_get cfg "board" (VDict [])) as [board|] eqn:Hb; [|done].
  rewrite res_Ok_bind in Hcls.
  destruct (create_mcpat_xml stats config s) as [r s'] eqn:H.
  unfold create_mcpat_xml in H.
  rewrite bind_run, lift_run, Hcfg in H. cbv beta iota in H.
  rewrite bind_run, fromstring_run in H. cbv beta iota in H.
  rewrite bind_run, lift_run, Hb in H. cbv beta iota in H.
  rewrite bind_run, lift_run, Hcls in H. cbv beta iota in H.
  rewrite bind_run, lift_run, Hn in H. cbv beta iota in H.
  step H. rewrite bind_run in H. unfold system_parameters in H.
  do 3 step H.
  rewrite ?bind_assoc_run in H. rewrite bind_run, write_int_run' in H.
  unfold total_cycles in He. rewrite He in H.
  by injection H as <- _.
Qed.

Lemma custom_non_finite_cycles_abort_witness :
  parse_stats (inputs.with_files inputs.huge_line VNone) "stats.txt"
  = Ok inputs.huge_cycles
  ∧ (create_mcpat_xml inputs.huge_cycles (VDict []) initial).1
    = Err (Raise OverflowError "cannot convert float infinity to integer").
Proof.
  split; [vm_compute; reflexivity|].
  destruct (custom_non_finite_cycles_abort inputs.huge_cycles (VDict [])
              (VDict []) (VInt 64) 0 initial eq_refl eq_refl eq_refl)
    as (e & He & _ & Hrun); [vm_compute; reflexivity|].
  vm_compute in He. injection He as <-. exact Hrun.
Defined.

(** *** What a run leaves as the template has it *)

Lemma last_write_other ws q :
  Forall (λ w : ET.path * string, w.1 ≠ q) ws → ET.last_write ws q = None.
Proof.
  induction 1 as [|[p v] ws Hp _ IH]; [done|].
  simpl. rewrite IH. by rewrite bool_decide_eq_false_2.
Qed.

Lemma assigned_in_other t fields ws q :
  forallb (λ w : ET.path * string, assigned_in t fields w.1) ws = true →
  assigned_in t fields q = false →
  ET.last_write ws q = None.
Proof.
  intros Hws Hq. apply last_write_other.
  apply Forall_forall. intros w Hw Hwq. rewrite <-Hwq in Hq.
  rewrite forallb_forall in Hws.
  apply list_elem_of_In, Hws in Hw. simpl in Hw. congruence.
Qed.

Lemma at_component_field_path t name tg nm :
  at_component t name tg nm = field_path t (name, tg, nm) ≫= ET.value_at t.
Proof.
  unfold at_component, field_path, ET.field. simpl.
  destruct (ET.find_in t [] "component" name) as [p|]; [|done]. simpl.
  by destruct (ET.find_in t p tg nm).
Qed.

Lemma field_path_apply_writes ws t f :
  field_path (ET.apply_writes ws t) f = field_path t f.
Proof.
  unfold field_path. rewrite find_in_apply_writes.
  destruct (ET.find_in t [] "component" f.1.1) as [p|]; [|done]. simpl.
  apply find_in_apply_writes.
Qed.

(** The assignments of a run change nothing but [value] attributes, and
    those of the [fields] only. *)
Lemma writes_keep_template t fields ws :
  forallb (λ w, valid t w.1) ws = true →
  forallb (λ w : ET.path * string, assigned_in t fields w.1) ws = true →
  ET.skeleton (ET.apply_writes ws t) = ET.skeleton t
  ∧ (∀ q, assigned_in t fields q = false →
       ET.value_at (ET.apply_writes ws t) q = ET.value_at t q)
  ∧ (∀ name tg nm,
       (∀ q, field_path t (name, tg, nm) = Some q →
          assigned_in t fields q = false) →
       at_component (ET.apply_writes ws t) name tg nm
       = at_component t name tg nm).
Proof.
  intros Hv Ha.
  assert (∀ q, assigned_in t fields q = false →
            ET.value_at (ET.apply_writes ws t) q = ET.value_at t q) as Hq.
  { intros q Hq. rewrite value_at_apply_writes by done.
    by rewrite (assigned_in_other t fields ws q). }
  split_and!; [apply skeleton_apply_writes|exact Hq|].
  intros name tg nm Hf. rewrite !at_component_field_path.
  rewrite field_path_apply_writes.
  destruct (field_path t (name, tg, nm)) as [q|] eqn:Hp; [|done].
  simpl. apply Hq. by apply Hf.
Qed.

Lemma custom_writes_assigned stats cfg cls n :
  forallb (λ w : ET.path * string, assigned_in T custom_assigned w.1)
    (writes stats cfg cls n) = true.
Proof.
  unfold writes, core_writes, geometry_writes.
  destruct n; [reflexivity|].
  destruct (l1_geometry cfg cls "l1icaches" 0 "0"),
    (l1_geometry cfg cls "l1dcaches" 0 "1"); reflexivity.
Qed.

(** X5: a run of [create_mcpat_xml] that returns has changed nothing of
    the template but [value] attributes (no element and no other attribute
    is added, removed or changed), and those of the fields of
    [custom_assigned] only: every other field reads as in the template,
    whatever the statistics and the configuration hold. *)
Theorem custom_other_fields_keep_template stats config s t s' :
  create_mcpat_xml stats config s = (Ok t, s') →
  ET.skeleton t = ET.skeleton mcpat_template
  ∧ (∀ q, assigned_in mcpat_template custom_assigned q = false →
       ET.value_at t q = ET.value_at mcpat_template q)
  ∧ (∀ name tg nm,
       (∀ q, field_path mcpat_template (name, tg, nm) = Some q →
          assigned_in mcpat_template custom_assigned q = false) →
       at_component t name tg nm = at_component mcpat_template name tg nm).
Proof.
  intros H.
  apply custom_create_mcpat_xml_ok in H
    as (cfg & cls & n & _ & _ & _ & -> & _).
  apply writes_keep_template;
    [apply custom_writes_valid|apply custom_writes_assigned].
Qed.

(** With one core and 5 cycles: the accesses of the instruction cache
    keep the template's 200000. *)
Lemma custom_other_fields_keep_template_witness :
  create_mcpat_xml five_cycles (cores [VDict []]) initial
  = (Ok (returned run_one_core), run_one_core.2)
  ∧ at_component (returned run_one_core) "icache" "stat" "read_accesses"
    = Some "200000".
Proof.
  assert (create_mcpat_xml five_cycles (cores [VDict []]) initial
          = (Ok (returned run_one_core), run_one_core.2)) as H
    by (vm_compute; reflexivity).
  split; [exact H|].
  destruct (custom_other_fields_keep_template _ _ _ _ _ H) as (_ & _ & Hf).
  rewrite Hf; [vm_compute; reflexivity|].
  intros q Hq. vm_compute in Hq. injection Hq as <-. vm_compute. reflexivity.
Defined.

(** *** The L2 cache *)

Lemma stat_or_no_alias (stats : stat_table) key :
  aliases key = [] →
  stat_or stats key zero = default (Float.of_Z 0) (stats !! key).
Proof. unfold stat_or. intros ->. by destruct (stats !! key). Qed.

(** X6: a run that returns has written into [read_accesses] and
    [write_accesses] of the component [L20] the integer parts of the
    statistics [system.l2cache.ReadReq::total] and
    [system.l2cache.WriteReq::total], and 0 for one that is not in the
    table: these two names have no alternate names, so that an entry
    [l2cache.ReadReq::total] of the table is not used.  The miss counts of
    [L20] and [number_of_L2s] keep the values of the template. *)
Theorem custom_l2_accesses stats config s t s' :
  create_mcpat_xml stats config s = (Ok t, s') →
  ∃ r w,
    int_of_float
      (default (Float.of_Z 0) (stats !! "system.l2cache.ReadReq::total"))
    = Ok r
    ∧ int_of_float
        (default (Float.of_Z 0) (stats !! "system.l2cache.WriteReq::total"))
      = Ok w
    ∧ at_component t "L20" "stat" "read_accesses" = Some (pretty r)
    ∧ at_component t "L20" "stat" "write_accesses" = Some (pretty w)
    ∧ at_component t "L20" "stat" "read_misses" = Some "1632"
    ∧ at_component t "L20" "stat" "write_misses" = Some "183"
    ∧ at_component t "system" "param" "number_of_L2s" = Some "1".
Proof.
  intros H.
  apply custom_create_mcpat_xml_ok in H
    as (cfg & cls & n & _ & _ & _ & -> & _ & Hint).
  unfold truncated in Hint. apply Forall_cons in Hint as [_ Hint].
  apply Forall_app in Hint as [_ Hint].
  apply Forall_cons in Hint as [[r Hr] Hint].
  apply Forall_cons in Hint as [[w Hw] _].
  exists r, w.
  rewrite <-!stat_or_no_alias by reflexivity.
  rewrite <-(itos_ok _ _ Hr), <-(itos_ok _ _ Hw).
  split_and!; [done|done|..].
  all: rewrite at_component_writes by apply custom_writes_valid.
  all: unfold writes, core_writes, geometry_writes.
  all: destruct n; [reflexivity|].
  all: destruct (l1_geometry cfg cls "l1icaches" 0 "0"),
         (l1_geometry cfg cls "l1dcaches" 0 "1"); reflexivity.
Qed.

Lemma custom_l2_accesses_witness :
  create_mcpat_xml five_cycles (cores [VDict []]) initial
  = (Ok (returned run_one_core), run_one_core.2)
  ∧ at_component (returned run_one_core) "L20" "stat" "read_accesses"
    = Some "0".
Proof.
  assert (create_mcpat_xml five_cycles (cores [VDict []]) initial
          = (Ok (returned run_one_core), run_one_core.2)) as H
    by (vm_compute; reflexivity).
  split; [exact H|].
  destruct (custom_l2_accesses _ _ _ _ _ H) as (r & w & Hr & _ & Hread & _).
  vm_compute in Hr. injection Hr as <-. exact Hread.
Defined.

(** *** A size given as a string *)




(** *** A configuration that is a list *)

(** X8: [create_mcpat_xml] on a list that starts with a dictionary runs
    as on that dictionary, whatever follows it in the list.  The type check
    is made on the list only: a first element that is not a dictionary
    raises [AttributeError] at the first [config.get] (after the template
    was parsed), not the [TypeError] of the check, and the empty list raises
    that [TypeError]. *)
Theorem custom_list_config stats s :
  (∀ d l,
     create_mcpat_xml stats (VList (VDict d :: l)) s
     = create_mcpat_xml stats (VDict d) s)
  ∧ (∀ x l,
       isinstance_dict x = false →
       create_mcpat_xml stats (VList (x :: l)) s
       = (Err (Raise AttributeError
                 ("'" +:+ type_name x +:+ "' object has no attribute 'get'")),
          State mcpat_template (stdout s)))
  ∧ create_mcpat_xml stats (VList []) s
    = (Err (Raise TypeError "config object must be a dictionary."), s).
Proof.
  split_and!.
  - intros d l. unfold create_mcpat_xml. by rewrite !bind_run, !lift_run.
  - intros x l Hx. unfold create_mcpat_xml.
    rewrite bind_run, lift_run.
    change (unwrap_config (VList (x :: l))) with (Ok x : res value).
    cbv beta iota. rewrite bind_run. unfold fromstring. cbv beta iota.
    rewrite bind_run, lift_run. by destruct x.
  - reflexivity.
Qed.

End custom_runs.

(** * The statistics file of [backup.py] *)
Section backup_parse_stats.
Import Py backup.

Local Abbreviation space := (λ c : ascii, is_space c = true).
Local Abbreviation solid := (λ c : ascii, is_space c = false).

(** The first token [split_ws] returns: white space, the token, and the
    rest, from which the other tokens are split. *)
Lemma split_ws_first l cur t ts :
  split_ws l cur = t :: ts →
  ∃ s0 w rest,
    l = s0 ++ w ++ rest
    ∧ Forall space s0 ∧ (cur ≠ [] → s0 = [])
    ∧ t = cur ++ w ∧ Forall solid w ∧ (1 ≤ length t)%nat
    ∧ token_end rest
    ∧ ts = split_ws rest [].
Proof.
  revert cur. induction l as [|c l IH]; intros cur H.
  - destruct cur as [|x cur]; [done|]. simpl in H. injection H as <- <-.
    exists [], [], []. split_and!; try done.
    + by rewrite app_nil_r.
    + simpl. lia.
  - simpl in H. destruct (is_space c) eqn:Hc.
    + destruct cur as [|x cur].
      * apply IH in H as (s0 & w & rest & -> & Hs0 & _ & -> & Hw & Ht & Hr & ->).
        exists (c :: s0), w, rest. split_and!; try done. by constructor.
      * injection H as <- <-. exists [], [], (c :: l).
        split_and!; try done.
        -- by rewrite app_nil_r.
        -- simpl. lia.
        -- simpl. by rewrite Hc.
    + apply IH in H as (s0 & w & rest & -> & Hs0 & Hcur & -> & Hw & Ht & Hr & ->).
      rewrite Hcur by by destruct cur.
      exists [], (c :: w), rest. rewrite <-app_assoc.
      split_and!; try done; [by constructor|].
      rewrite !length_app. simpl. lia.
Qed.

Lemma split_ws_skip s0 l :
  Forall space s0 → split_ws (s0 ++ l) [] = split_ws l [].
Proof. induction 1 as [|c s0 Hc _ IH]; [done|]. simpl. by rewrite Hc. Qed.

Lemma split_ws_token w rest cur :
  Forall solid w → token_end rest → (1 ≤ length (cur ++ w))%nat →
  split_ws (w ++ rest) cur = (cur ++ w) :: split_ws rest [].
Proof.
  intros Hw Hr. revert cur. induction Hw as [|c w Hc _ IH]; intros cur Hlen.
  - rewrite app_nil_r in Hlen |- *. simpl.
    destruct cur as [|x cur]; [simpl in Hlen; lia|].
    destruct rest as [|c r]; [done|]. simpl in Hr |- *. by rewrite Hr.
  - simpl. rewrite Hc. rewrite IH.
    + by rewrite <-app_assoc.
    + rewrite !length_app. simpl. lia.
Qed.

(** The tokens of a line of two columns. *)
Lemma split_two_columns s0 k sp v tl :
  Forall space s0 →
  (1 ≤ length k)%nat → Forall solid k →
  Forall space sp →
  (1 ≤ length v)%nat → Forall solid v →
  token_end (sp ++ v ++ tl) → token_end tl →
  split_ws (s0 ++ k ++ sp ++ v ++ tl) []
  = k :: v :: split_ws tl [].
Proof.
  intros Hs0 Hk1 Hk Hsp Hv1 Hv Hend Htl.
  rewrite split_ws_skip by done.
  rewrite (split_ws_token k _ []) by done. simpl.
  rewrite split_ws_skip by done.
  by rewrite (split_ws_token v _ []).
Qed.

Lemma token_end_space sp l :
  (1 ≤ length sp)%nat → Forall space sp → token_end (sp ++ l).
Proof. intros Hlen Hsp. destruct Hsp; [simpl in Hlen; lia|done]. Qed.

Lemma token_end_solid w l :
  (1 ≤ length w)%nat → Forall solid w → token_end (w ++ l) → False.
Proof.
  intros Hlen Hw. destruct Hw as [|c w Hc _]; [simpl in Hlen; lia|].
  simpl. by rewrite Hc.
Qed.

(** What the loop adds for a line: its first two tokens. *)
Lemma backup_parse_line_adds stats line k v :
  parse_line stats line !! k = Some v →
  stats !! k = Some v
  ∨ (blank (chars line) = false
     ∧ contains (chars "---") (chars line) = false
     ∧ prefix_of (chars "End") (chars line) = false
     ∧ ∃ s0 sp rest,
         chars line = s0 ++ chars k ++ sp ++ chars v ++ rest
         ∧ Forall space s0
         ∧ (1 ≤ length sp)%nat ∧ Forall space sp
         ∧ token_end rest
         ∧ (1 ≤ String.length k)%nat ∧ Forall solid (chars k)
         ∧ (1 ≤ String.length v)%nat ∧ Forall solid (chars v)).
Proof.
  unfold parse_line. cbv zeta.
  destruct (blank _) eqn:Hb; [by left|].
  destruct (contains _ _) eqn:Hd; [by left|].
  destruct (prefix_of _ _) eqn:He; [by left|].
  cbn [orb]. unfold split.
  destruct (split_ws (chars line) []) as [|tk [|tv ts]] eqn:Hs;
    [by left..|].
  cbn [map].
  destruct (decide (str_of tk = k)) as [<-|Hne];
    [|rewrite lookup_insert_ne by done; by left].
  rewrite lookup_insert_eq. intros [= <-]. right.
  split_and!; [done..|].
  apply split_ws_first in Hs
    as (s0 & w & rest & Hl & Hs0 & _ & -> & Hw & Hk1 & Hr & Hts).
  symmetry in Hts. apply split_ws_first in Hts
    as (s1 & w' & rest' & -> & Hs1 & _ & -> & Hw' & Hv1 & Hr' & _).
  simpl in Hk1, Hv1 |- *.
  exists s0, s1, rest'. rewrite !chars_str_of, !length_str_of.
  split_and!; try done.
  destruct Hs1 as [|c s1 Hc _]; [|simpl; lia].
  exfalso. by apply (token_end_solid w' rest').
Qed.

(** X9: for a statistics file of ASCII text, every entry of the table of
    [parse_stats] is made of the first two tokens of a line of the file:
    the line is white space (or nothing), the key, white space, the value,
    and then its end or white space and anything.  Key and value are not
    empty and hold no white space; the line holds no [---] and does not
    start with [End]. *)
Theorem backup_parse_stats_entries fs stats_file lines stats k v :
  read_lines fs stats_file = Ok lines →
  Forall ascii_text lines →
  parse_stats fs stats_file = Ok stats →
  stats !! k = Some v →
  ∃ line s0 sp rest,
    line ∈ lines
    ∧ chars line = s0 ++ chars k ++ sp ++ chars v ++ rest
    ∧ Forall (λ c, is_space c = true) s0
    ∧ (1 ≤ length sp)%nat ∧ Forall (λ c, is_space c = true) sp
    ∧ token_end rest
    ∧ (1 ≤ String.length k)%nat ∧ Forall (λ c, is_space c = false) (chars k)
    ∧ (1 ≤ String.length v)%nat ∧ Forall (λ c, is_space c = false) (chars v)
    ∧ contains (chars "---") (chars line) = false
    ∧ prefix_of (chars "End") (chars line) = false.
Proof.
  intros Hr _. unfold parse_stats. rewrite Hr.
  rewrite res_Ok_bind. intros [= <-] Hk. clear Hr.
  induction lines as [|line lines IH] using rev_ind; [done|].
  rewrite fold_left_app in Hk. cbn [fold_left] in Hk.
  apply backup_parse_line_adds in Hk
    as [Hk|(_ & Hd & He & s0 & sp & rest & Hl & ?)].
  - destruct (IH Hk) as (l & s0 & sp & rest & Hin & Hrest).
    exists l, s0, sp, rest. split; [|done].
    apply elem_of_app. by left.
  - exists line, s0, sp, rest. split.
    { apply elem_of_app. right. by apply list_elem_of_singleton. }
    split_and!; tauto.
Qed.

Lemma backup_parse_stats_entries_witness :
  parse_stats (inputs.with_files inputs.two_lines VNone) "stats.txt"
  = Ok {[ "a" := "42" ]}
  ∧ ∃ line, line ∈ inputs.two_lines
            ∧ prefix_of (chars "End") (chars line) = false.
Proof.
  assert (parse_stats (inputs.with_files inputs.two_lines VNone) "stats.txt"
          = Ok {[ "a" := "42" ]}) as H by (vm_compute; reflexivity).
  assert (({[ "a" := "42" ]} : stat_table) !! "a" = Some "42") as Ha
    by (vm_compute; reflexivity).
  split; [exact H|].
  assert (Forall ascii_text inputs.two_lines) as Hascii
    by (repeat constructor).
  destruct (backup_parse_stats_entries
              (inputs.with_files inputs.two_lines VNone) "stats.txt"
              _ _ _ _ eq_refl Hascii H Ha)
    as (line & s0 & sp & rest & Hin & Hrest).
  exists line. split; [exact Hin|].
  apply Hrest.
Defined.

(** The loop on a line of two columns. *)
Lemma backup_parse_line_two_columns stats s0 k sp v tl :
  Forall space s0 →
  (1 ≤ length k)%nat → Forall solid k →
  (1 ≤ length sp)%nat → Forall space sp →
  (1 ≤ length v)%nat → Forall solid v →
  token_end tl →
  contains (chars "---") (s0 ++ k ++ sp ++ v ++ tl) = false →
  prefix_of (chars "End") (s0 ++ k ++ sp ++ v ++ tl) = false →
  parse_line stats (str_of (s0 ++ k ++ sp ++ v ++ tl))
  = <[str_of k := str_of v]> stats.
Proof.
  intros Hs0 Hk1 Hk Hsp1 Hsp Hv1 Hv Htl Hd He.
  unfold parse_line, split. cbv zeta. rewrite chars_str_of, Hd, He.
  rewrite blank_has_token.
  2:{ unfold has_token. apply Exists_app. right. apply Exists_app. left.
      destruct Hk as [|c k Hc _]; [simpl in Hk1; lia|]. by constructor. }
  cbn [orb].
  rewrite split_two_columns by (try done; by apply token_end_space).
  reflexivity.
Qed.

(** X10: a line of two columns of ASCII text added at the end of the file
    binds its first token to its second (kept as text) and leaves the other
    entries as they are, so that the last line of a key wins; what follows
    the second token on the line is not read.  The line must not hold
    [---] nor start with [End]: such a line is skipped. *)
Theorem backup_parse_stats_last_line_wins fs fs' stats_file lines stats
    s0 k sp v tl :
  read_lines fs stats_file = Ok lines →
  parse_stats fs stats_file = Ok stats →
  read_lines fs' stats_file = Ok (lines ++ [str_of (s0 ++ k ++ sp ++ v ++ tl)]) →
  ascii_text (str_of (s0 ++ k ++ sp ++ v ++ tl)) →
  Forall (λ c, is_space c = true) s0 →
  (1 ≤ length k)%nat → Forall (λ c, is_space c = false) k →
  (1 ≤ length sp)%nat → Forall (λ c, is_space c = true) sp →
  (1 ≤ length v)%nat → Forall (λ c, is_space c = false) v →
  token_end tl →
  contains (chars "---") (s0 ++ k ++ sp ++ v ++ tl) = false →
  prefix_of (chars "End") (s0 ++ k ++ sp ++ v ++ tl) = false →
  parse_stats fs' stats_file = Ok (<[str_of k := str_of v]> stats).
Proof.
  intros Hr Hp Hr' _ Hs0 Hk1 Hk Hsp1 Hsp Hv1 Hv Htl Hd He.
  unfold parse_stats in Hp |- *. rewrite Hr in Hp. rewrite Hr'.
  rewrite res_Ok_bind in Hp |- *. injection Hp as <-.
  rewrite fold_left_app. cbn [fold_left].
  by rewrite (backup_parse_line_two_columns _ s0 k sp v tl).
Qed.

Lemma backup_parse_stats_last_line_wins_witness :
  parse_stats (inputs.with_files inputs.two_lines VNone) "stats.txt"
  = Ok (<["a" := "42"]> {[ "a" := "1" ]}).
Proof.
  apply (backup_parse_stats_last_line_wins
           (inputs.with_files inputs.one_line VNone)
           (inputs.with_files inputs.two_lines VNone)
           "stats.txt" inputs.one_line {[ "a" := "1" ]}
           [] (chars "a") (chars " ") (chars "42") (chars examples.newline)).
  all: try (vm_compute; reflexivity).
  all: try (simpl; lia).
  all: try (repeat constructor).
Defined.

End backup_parse_stats.

(** * More on the runs of [backup.create_mcpat_xml] *)
Section backup_runs.
Import Py backup backup_spec backup_exact examples.

Local Abbreviation T := mcpat_template.

Ltac eval_nodes H :=
  repeat match type of H with
    | context [ET.find_in T ?p ?tg ?nm] =>
        let r := eval vm_compute in (ET.find_in T p tg nm) in
        change (ET.find_in T p tg nm) with r in H
    | context [ET.truth_in T ?p] =>
        let r := eval vm_compute in (ET.truth_in T p) in
        change (ET.truth_in T p) with r in H
    end.

Ltac tidy H := cbv beta iota in H; eval_nodes H; cbv beta iota in H.

Ltac case_sint H :=
  match type of H with
  | context [match sint ?s ?k with _ => _ end] =>
      first
        [ match goal with
          | E : sint s k = Ok _ |- _ => rewrite E in H
          end
        | let E := fresh "Hint" in
          destruct (sint s k) eqn:E; [|discriminate H] ]
  end.

Ltac bstep H :=
  rewrite ?bind_assoc_run in H;
  first
    [ rewrite lift_sint_run in H; case_sint H
    | rewrite bind_run in H;
      first
        [ rewrite find_run in H
        | rewrite truth_run in H
        | rewrite set_value_run in H
        | rewrite local_run in H
        | rewrite ret_run in H
        | rewrite (get_stat_value_eq _ _ _ _ backup_py_float_0), lift_run in H
        | rewrite (get_stat_value_eq _ _ _ _ py_float_1e12), lift_run in H
        | rewrite write_stat_run in H; case_sint H ] ];
  tidy H; cbn [root stdout] in H.

Ltac all_converted :=
  unfold converted; cbn [snd];
  repeat (apply Forall_cons; split; [eexists; eassumption|]);
  apply Forall_nil; exact I.

Lemma backup_system_parameters_converted stats ws out r s' :
  system_parameters stats system_node (State (ET.apply_writes ws T) out)
  = (Ok r, s') →
  Forall (converted stats) system_fields.
Proof.
  intros H. unfold system_parameters in H.
  let r := eval vm_compute in system_node in change system_node with r in H.
  do 3 bstep H.
  unfold system_fields. all_converted.
Qed.

Lemma backup_core_parameters_converted stats mhz ws out s' :
  core_parameters stats core_node (Some mhz) (State (ET.apply_writes ws T) out)
  = (Ok tt, s') →
  Forall (converted stats) core_fields.
Proof.
  intros H. unfold core_parameters in H.
  let r := eval vm_compute in core_node in change core_node with r in H.
  repeat bstep H.
  rewrite write_stat_run in H; case_sint H; tidy H.
  unfold core_fields. all_converted.
Qed.

(** Inside the [try] of a cache. *)
Ltac spec_goal :=
  unfold cache_converts, geometry;
  repeat first
    [ rewrite res_Ok_bind
    | match goal with
      | E : getitem _ _ = _ |- _ => rewrite E
      end ];
  cbn [mbind res_mbind res_bind].

Ltac caught_goal H :=
  cbv beta iota in H;
  case_bool_decide; [|discriminate H];
  spec_goal; assumption.

Ltac not_caught H E lem :=
  apply lem in E; destruct (numeric_error_uncaught _ E) as [? ?];
  cbv beta iota in H;
  match type of H with
  | context [bool_decide ?P] =>
      replace (bool_decide P) with false in H by done
  end;
  discriminate H.

Ltac lookup_goal H :=
  rewrite ?bind_assoc_run in H; rewrite bind_run, lift_run in H;
  match type of H with
  | context [match ?r with Ok _ => _ | Err _ => _ end] =>
      let E := fresh "Hlookup" in
      destruct r as [?|?] eqn:E; [cbv beta iota in H|caught_goal H]
  end.

Ltac sint_goal H :=
  match type of H with
  | context [match sint ?s ?k with _ => _ end] =>
      first
        [ match goal with
          | E : sint s k = Ok _ |- _ => rewrite E in H
          end
        | let E := fresh "Hint" in
          destruct (sint s k) eqn:E; [|not_caught H E sint_error] ]
  end.

Ltac step_goal H :=
  rewrite ?bind_assoc_run in H;
  first
    [ rewrite lift_sint_run in H; sint_goal H
    | rewrite bind_run in H;
      first
        [ rewrite set_value_run in H
        | rewrite (get_stat_value_eq _ _ _ _ backup_py_float_0), lift_run in H ] ];
  tidy H; cbn [root stdout] in H.

Ltac block_converted H :=
  bstep H; unfold try_except, cache_body in H;
  do 3 lookup_goal H;
  rewrite ?bind_assoc_run in H; rewrite bind_run, lift_run in H;
  match type of H with
  | context [match ?r with Ok _ => _ | Err _ => _ end] =>
      match r with
      | context [py_int ?size] =>
          change r with (kb size) in H;
          let E := fresh "Hkb" in
          destruct (kb size) as [?|?] eqn:E;
          [cbv beta iota in H|not_caught H E kb_error]
      end
  end;
  repeat step_goal H;
  spec_goal; split; [by eexists|];
  unfold cache_fields; all_converted.

Lemma l1i_parameters_converted stats config cls ws out s' :
  l1i_parameters stats config cls l1i_node (State (ET.apply_writes ws T) out)
  = (Ok tt, s') →
  cache_converts stats (l1_entry config "l1icaches") [KeyError; IndexError]
    "l1icaches".
Proof.
  intros H. unfold l1i_parameters in H.
  let r := eval vm_compute in l1i_node in change l1i_node with r in *.
  block_converted H.
Qed.

Lemma l1d_parameters_converted stats config cls ws out s' :
  l1d_parameters stats config cls l1d_node (State (ET.apply_writes ws T) out)
  = (Ok tt, s') →
  cache_converts stats (l1_entry config "l1dcaches") [KeyError; IndexError]
    "l1dcaches".
Proof.
  intros H. unfold l1d_parameters in H.
  let r := eval vm_compute in l1d_node in change l1d_node with r in *.
  block_converted H.
Qed.

Lemma l2_parameters_converted stats config cls ws out s' :
  l2_parameters stats config cls l2_node (State (ET.apply_writes ws T) out)
  = (Ok tt, s') →
  cache_converts stats (l2_entry config) [KeyError] "l2cache".
Proof.
  intros H. unfold l2_parameters in H.
  let r := eval vm_compute in l2_node in change l2_node with r in *.
  block_converted H.
Qed.

(** A run that returns made every conversion of [converts]. *)
Lemma backup_returns_converts stats config s t s' :
  create_mcpat_xml stats config s = (Ok t, s') → converts stats config.
Proof.
  intros H.
  destruct (backup_create_mcpat_xml_ok _ _ _ _ _ H)
    as (cls0 & Hcls0 & _ & _ & Hext).
  unfold create_mcpat_xml in H.
  rewrite bind_run, fromstring_run in H. cbv beta iota in H.
  rewrite bind_run, lift_run in H.
  destruct (py_get config _ _) as [board|] eqn:Hboard; [|discriminate H].
  cbv beta iota in H. rewrite bind_run, lift_run in H.
  destruct (py_get board _ _) as [cls|] eqn:Hcls; [|discriminate H].
  cbv beta iota in H.
  bstep H. rewrite bind_run in H.
  destruct (system_parameters _ _ _) as [[r|e] s1] eqn:Hsys; [|discriminate H].
  pose proof (backup_system_parameters_converted _ _ _ _ _ Hsys) as Hc1.
  apply backup_system_parameters_ok in Hsys as (mhz & -> & Hmhz & ->).
  bstep H. rewrite bind_run in H.
  destruct (core_parameters _ _ _ _) as [[[]|e] s1] eqn:Hcore; [|discriminate H].
  pose proof (backup_core_parameters_converted _ _ _ _ _ Hcore) as Hc2.
  apply (backup_core_parameters_ok _ _ _ _ _ Hmhz) in Hcore as ->.
  bstep H. rewrite bind_run in H.
  destruct (l1i_parameters _ _ _ _ _) as [[[]|e] s1] eqn:Hl1i; [|discriminate H].
  pose proof (l1i_parameters_converted _ _ _ _ _ _ Hl1i) as Hc3.
  apply l1i_parameters_ok in Hl1i as ->.
  bstep H. rewrite bind_run in H.
  destruct (l1d_parameters _ _ _ _ _) as [[[]|e] s1] eqn:Hl1d; [|discriminate H].
  pose proof (l1d_parameters_converted _ _ _ _ _ _ Hl1d) as Hc4.
  apply l1d_parameters_ok in Hl1d as ->.
  bstep H. rewrite bind_run in H.
  destruct (l2_parameters _ _ _ _ _) as [[[]|e] s1] eqn:Hl2; [|discriminate H].
  pose proof (l2_parameters_converted _ _ _ _ _ _ Hl2) as Hc5.
  unfold converts. split_and!; try done.
  - by exists cls0.
  - by apply Forall_app.
Qed.

(** The other way round: the conversions of [converts] make a run
    return. *)
Ltac each_converted Hf :=
  unfold converted in Hf;
  repeat match type of Hf with
    | Forall _ (_ :: _) =>
        let E := fresh "Hint" in
        apply Forall_cons in Hf as [[? E] Hf]; cbn [snd] in E
    end.

Lemma backup_system_parameters_exact stats mhz ws out :
  Forall (converted stats) system_fields →
  clock_rate_mhz stats = Ok mhz →
  system_parameters stats system_node (State (ET.apply_writes ws T) out)
  = (Ok (Some mhz),
     State (ET.apply_writes (ws ++ system_writes stats) T) out).
Proof.
  intros Hf Hmhz.
  destruct (system_parameters _ _ _) as [[r|e] s'] eqn:H.
  { apply backup_system_parameters_ok in H as (mhz' & -> & Hmhz' & ->).
    rewrite Hmhz in Hmhz'. by injection Hmhz' as <-. }
  exfalso. unfold system_fields in Hf. each_converted Hf.
  unfold system_parameters in H.
  let r := eval vm_compute in system_node in change system_node with r in H.
  do 4 bstep H.
  rewrite bind_run, lift_run in H.
  change (py_truediv _ _) with (clock_rate_mhz stats) in H.
  rewrite Hmhz in H. cbv beta iota in H.
  bstep H. rewrite ret_run in H. discriminate H.
Qed.

Lemma backup_core_parameters_exact stats mhz ws out :
  Forall (converted stats) core_fields →
  clock_rate_mhz stats = Ok mhz →
  core_parameters stats core_node (Some mhz) (State (ET.apply_writes ws T) out)
  = (Ok tt, State (ET.apply_writes (ws ++ core_writes stats) T) out).
Proof.
  intros Hf Hmhz.
  destruct (core_parameters _ _ _ _) as [[[]|e] s'] eqn:H.
  { by apply (backup_core_parameters_ok _ _ _ _ _ Hmhz) in H as ->. }
  exfalso. unfold core_fields in Hf. each_converted Hf.
  unfold core_parameters in H.
  let r := eval vm_compute in core_node in change core_node with r in H.
  repeat bstep H.
  rewrite write_stat_run in H; case_sint H; tidy H.
  discriminate H.
Qed.

Ltac lookup_exact H Hc :=
  rewrite ?bind_assoc_run in H; rewrite bind_run, lift_run in H;
  match type of H with
  | context [match ?r with Ok _ => _ | Err _ => _ end] =>
      destruct r as [?|?] eqn:?;
      cbn [mbind res_mbind res_bind] in Hc; cbv beta iota in H;
      [ | rewrite bool_decide_eq_true_2 in H by exact Hc;
          rewrite print_run in H; discriminate H ]
  end.

Ltac block_exact H Hc :=
  bstep H; unfold try_except, cache_body in H;
  unfold cache_converts, geometry in Hc;
  do 3 lookup_exact H Hc;
  rewrite ?bind_assoc_run in H; rewrite bind_run, lift_run in H;
  match type of H with
  | context [match ?r with Ok _ => _ | Err _ => _ end] =>
      match r with
      | context [py_int ?size] =>
          change r with (kb size) in H;
          let E := fresh "Hkb" in
          let F := fresh "Hf" in
          destruct Hc as [[? E] F]; rewrite E in H; cbv beta iota in H;
          unfold cache_fields in F; each_converted F
      end
  end;
  repeat bstep H;
  rewrite set_value_run in H; tidy H;
  discriminate H.

Lemma l1i_parameters_exact stats config cls ws out :
  cache_converts stats (l1_entry config "l1icaches") [KeyError; IndexError]
    "l1icaches" →
  l1i_parameters stats config cls l1i_node (State (ET.apply_writes ws T) out)
  = (Ok tt,
     State
       (ET.apply_writes
          (ws ++ cache_writes stats l1i_node (l1_entry config "l1icaches")
                   cls "l1icaches") T)
       (out ++ cache_log (l1_entry config "l1icaches") l1i_warning)).
Proof.
  intros Hc.
  destruct (l1i_parameters _ _ _ _ _) as [[[]|e] s'] eqn:H.
  { by apply l1i_parameters_ok in H as ->. }
  exfalso. unfold l1i_parameters in H.
  let r := eval vm_compute in l1i_node in change l1i_node with r in *.
  block_exact H Hc.
Qed.

Lemma l1d_parameters_exact stats config cls ws out :
  cache_converts stats (l1_entry config "l1dcaches") [KeyError; IndexError]
    "l1dcaches" →
  l1d_parameters stats config cls l1d_node (State (ET.apply_writes ws T) out)
  = (Ok tt,
     State
       (ET.apply_writes
          (ws ++ cache_writes stats l1d_node (l1_entry config "l1dcaches")
                   cls "l1dcaches") T)
       (out ++ cache_log (l1_entry config "l1dcaches") l1d_warning)).
Proof.
  intros Hc.
  destruct (l1d_parameters _ _ _ _ _) as [[[]|e] s'] eqn:H.
  { by apply l1d_parameters_ok in H as ->. }
  exfalso. unfold l1d_parameters in H.
  let r := eval vm_compute in l1d_node in change l1d_node with r in *.
  block_exact H Hc.
Qed.

Lemma l2_parameters_exact stats config cls ws out :
  cache_converts stats (l2_entry config) [KeyError] "l2cache" →
  l2_parameters stats config cls l2_node (State (ET.apply_writes ws T) out)
  = (Ok tt,
     State
       (ET.apply_writes
          (ws ++ cache_writes stats l2_node (l2_entry config) cls "l2cache") T)
       (out ++ cache_log (l2_entry config) l2_warning)).
Proof.
  intros Hc.
  destruct (l2_parameters _ _ _ _ _) as [[[]|e] s'] eqn:H.
  { by apply l2_parameters_ok in H as ->. }
  exfalso. unfold l2_parameters in H.
  let r := eval vm_compute in l2_node in change l2_node with r in *.
  block_exact H Hc.
Qed.

Lemma backup_converts_returns_exact stats config cls s :
  cache_line_size config = Ok cls →
  converts stats config →
  create_mcpat_xml stats config s
  = (Ok (ET.apply_writes (writes stats config cls) T),
     State (ET.apply_writes (writes stats config cls) T)
       (stdout s ++ log config)).
Proof.
  intros Hcls (_ & Hf & Hl1i & Hl1d & Hl2 & Hext).
  apply Forall_app in Hf as [Hsys Hcore].
  unfold cache_line_size in Hcls.
  destruct (py_get config "board" (VDict [])) as [board|] eqn:Hb; [|done].
  rewrite res_Ok_bind in Hcls.
  destruct (clock_rate_mhz_ok stats) as [mhz Hmhz].
  unfold create_mcpat_xml.
  rewrite bind_run, fromstring_run. cbv beta iota.
  rewrite bind_run, lift_run, Hb. cbv beta iota.
  rewrite bind_run, lift_run, Hcls. cbv beta iota.
  rewrite bind_run, find_run.
  change (ET.find_in T [] "component" "system") with system_node.
  cbv beta iota.
  rewrite bind_run, (backup_system_parameters_exact _ mhz) by done.
  cbv beta iota.
  rewrite bind_run, find_run.
  change (ET.find_in T [] "component" "core") with core_node.
  cbv beta iota.
  rewrite bind_run, (backup_core_parameters_exact _ mhz) by done.
  cbv beta iota.
  rewrite bind_run, find_run.
  change (ET.find_in T [] "component" "L1Icache") with l1i_node.
  cbv beta iota.
  rewrite bind_run, l1i_parameters_exact by done.
  cbv beta iota.
  rewrite bind_run, find_run.
  change (ET.find_in T [] "component" "L1Dcache") with l1d_node.
  cbv beta iota.
  rewrite bind_run, l1d_parameters_exact by done.
  cbv beta iota.
  rewrite bind_run, find_run.
  change (ET.find_in T [] "component" "L2cache") with l2_node.
  cbv beta iota.
  rewrite bind_run, l2_parameters_exact by done.
  cbv beta iota.
  rewrite bind_run, find_run.
  change (ET.find_in T [] "component" "main_memory") with mem_node.
  cbv beta iota.
  rewrite bind_run, main_memory_returns by done.
  cbv beta iota.
  rewrite tostring_run. unfold writes, log.
  by rewrite <-?app_assoc, ?app_nil_l.
Qed.

(** X11: for a configuration whose values [str] prints ([plain]: integers
    of at most 4300 digits, a nesting of at most 100), the runs of
    [create_mcpat_xml] that return are exactly those on inputs for which
    [converts] holds: [config] and its [board] are dictionaries as far as
    the cache line size is looked up, the statistic of every system and
    core field converts to an integer (its value token is not read as an
    infinity or a NaN), the sum for the main memory converts, and for each
    cache the configuration is found and its size and three access counts
    convert, or a lookup raises what the [except] clause of that cache
    names.  On every other such input the run raises. *)
Theorem backup_returns_iff_converts stats config s :
  plain config = true →
  (∃ t s', create_mcpat_xml stats config s = (Ok t, s'))
  ↔ converts stats config.
Proof.
  intros _. split.
  - intros (t & s' & H). by apply backup_returns_converts in H.
  - intros Hc. pose proof Hc as ([cls Hcls] & _).
    eexists _, _. by apply (backup_converts_returns_exact _ _ cls).
Qed.

(** The run on the empty table and the configuration of the L1 data cache
    of 32 KB returns. *)
Lemma backup_returns_iff_converts_witness :
  plain l1d_32k = true ∧ converts ∅ l1d_32k.
Proof.
  split; [reflexivity|].
  apply (proj1 (backup_returns_iff_converts ∅ l1d_32k initial eq_refl)).
  eexists _, _. vm_compute. reflexivity.
Defined.

End backup_runs.

(** * The fields of the output of [backup.create_mcpat_xml] *)
Section backup_fields.
Import Py backup backup_spec backup_exact examples.

Local Abbreviation T := mcpat_template.

Ltac read_field :=
  rewrite at_component_writes by apply backup_writes_valid;
  unfold writes, cache_writes;
  repeat match goal with
    | |- context [match geometry ?e with _ => _ end] =>
        destruct (geometry e) as [[? ?]|]
    end;
  reflexivity.

(** A statistic that converts: the value of [get_stat_value], its integer
    part, and the string assigned. *)
Lemma converted_inv stats fk :
  converted stats fk →
  ∃ x z,
    get_stat_value stats fk.2 (VInt 0) = Ok x
    ∧ py_int x = Ok z
    ∧ sstr stats fk.2 = pretty z.
Proof.
  intros [v Hv]. unfold sstr. rewrite Hv. unfold sint, str_int in Hv.
  exists (stat_val stats fk.2 (VInt 0) zero).
  destruct (py_int _) as [z|] eqn:Hz; [|done].
  exists z. split; [by apply get_stat_value_eq|]. split; [done|].
  rewrite res_Ok_bind in Hv. by injection Hv as <-.
Qed.

Lemma system_fields_read stats config cls :
  Forall (λ fk, at_component (ET.apply_writes (writes stats config cls) T)
                  "system" "param" fk.1 = Some (sstr stats fk.2))
    system_fields.
Proof. unfold system_fields. repeat constructor; read_field. Qed.

Lemma core_fields_read stats config cls :
  Forall (λ fk, at_component (ET.apply_writes (writes stats config cls) T)
                  "core" "param" fk.1 = Some (sstr stats fk.2))
    core_fields.
Proof. unfold core_fields. repeat constructor; read_field. Qed.

Lemma fields_written stats (t : ET.Element) comp fields :
  Forall (converted stats) fields →
  Forall (λ fk, at_component t comp "param" fk.1 = Some (sstr stats fk.2))
    fields →
  Forall (λ fk, ∃ x z,
            get_stat_value stats fk.2 (VInt 0) = Ok x
            ∧ py_int x = Ok z
            ∧ at_component t comp "param" fk.1 = Some (pretty z))
    fields.
Proof.
  intros Hc Hr.
  assert (Forall (λ fk, converted stats fk
                        ∧ at_component t comp "param" fk.1
                          = Some (sstr stats fk.2)) fields) as H
    by (apply Forall_and; by split).
  eapply Forall_impl; [exact H|]. clear. intros fk [Hc Hr].
  destruct (converted_inv _ _ Hc) as (x & z & Hx & Hz & Hs).
  exists x, z. by rewrite Hr, Hs.
Qed.

(** X12: in a run that returns, every field of [system_fields] and of
    [core_fields] holds [str(int(x))] for the value [x] that
    [get_stat_value] gives for the statistic the table names beside it, as
    the code has it: [ITLB_accesses] and [ITLB_misses] are filled from the
    statistics of [mmu.dtb], [DTLB_accesses] and [DTLB_misses] from those of
    [mmu.itb].  The clock rate of the system and of the core is [simFreq]
    divided by 1000000.0. *)
Theorem backup_fields_of_statistics stats config s t s' :
  create_mcpat_xml stats config s = (Ok t, s') →
  Forall (λ fk, ∃ x z,
            get_stat_value stats fk.2 (VInt 0) = Ok x
            ∧ py_int x = Ok z
            ∧ at_component t "system" "param" fk.1 = Some (pretty z))
    system_fields
  ∧ Forall (λ fk, ∃ x z,
              get_stat_value stats fk.2 (VInt 0) = Ok x
              ∧ py_int x = Ok z
              ∧ at_component t "core" "param" fk.1 = Some (pretty z))
      core_fields
  ∧ (∃ hz mhz,
       get_stat_value stats "simFreq" (VInt 1000000000000) = Ok hz
       ∧ py_truediv hz (VFloat million) = Ok mhz
       ∧ at_component t "system" "param" "target_core_clockrate"
         = Some (Float.repr mhz)
       ∧ at_component t "core" "param" "clock_rate" = Some (Float.repr mhz)).
Proof.
  intros H.
  destruct (backup_returns_converts _ _ _ _ _ H) as (_ & Hf & _).
  apply Forall_app in Hf as [Hsys Hcore].
  apply backup_create_mcpat_xml_ok in H as (cls & _ & -> & _).
  split_and!.
  - apply fields_written; [done|apply system_fields_read].
  - apply fields_written; [done|apply core_fields_read].
  - destruct (clock_rate_mhz_ok stats) as [mhz Hmhz].
    exists (stat_val stats "simFreq" (VInt 1000000000000)
              (Float.of_Z 1000000000000)), mhz.
    split; [by apply get_stat_value_eq|]. split; [exact Hmhz|].
    assert (mhz_str stats = Float.repr mhz) as <-
      by (unfold mhz_str; by rewrite Hmhz).
    split; read_field.
Qed.

(** With 7 accesses of the data TLB in the statistics, the output has 7
    accesses of the instruction TLB. *)
Lemma backup_fields_of_statistics_witness :
  create_mcpat_xml inputs.dtb_accesses (VDict []) initial
  = (Ok (returned inputs.run_dtb_accesses), inputs.run_dtb_accesses.2)
  ∧ at_component (returned inputs.run_dtb_accesses) "core" "param"
      "ITLB_accesses" = Some "7".
Proof.
  assert (create_mcpat_xml inputs.dtb_accesses (VDict []) initial
          = (Ok (returned inputs.run_dtb_accesses), inputs.run_dtb_accesses.2))
    as H by (vm_compute; reflexivity).
  split; [exact H|].
  destruct (backup_fields_of_statistics _ _ _ _ _ H) as (_ & Hcore & _).
  assert (core_fields !! 23%nat
          = Some ("ITLB_accesses", "board.processor.cores.core.mmu.dtb.accesses"))
    as Hi by reflexivity.
  destruct (proj1 (Forall_lookup _ _) Hcore _ _ Hi) as (x & z & Hx & Hz & Hf).
  vm_compute in Hx. injection Hx as <-.
  vm_compute in Hz. injection Hz as <-.
  exact Hf.
Defined.

End backup_fields.

(** * The caches of [backup.create_mcpat_xml] *)
Section backup_cache_blocks.
Import Py backup backup_spec backup_exact examples.

Local Abbreviation T := mcpat_template.

Ltac eval_nodes H :=
  repeat match type of H with
    | context [ET.find_in T ?p ?tg ?nm] =>
        let r := eval vm_compute in (ET.find_in T p tg nm) in
        change (ET.find_in T p tg nm) with r in H
    | context [ET.truth_in T ?p] =>
        let r := eval vm_compute in (ET.truth_in T p) in
        change (ET.truth_in T p) with r in H
    end.

Ltac tidy H := cbv beta iota in H; eval_nodes H; cbv beta iota in H.

Lemma geometry_found entry c size assoc :
  entry = Ok c →
  getitem c (VStr "size") = Ok size →
  getitem c (VStr "assoc") = Ok assoc →
  geometry entry = Ok (size, assoc).
Proof.
  intros -> Hs Ha. unfold geometry.
  by rewrite res_Ok_bind, Hs, res_Ok_bind, Ha.
Qed.

Ltac read_cache Hg :=
  rewrite at_component_writes by apply backup_writes_valid;
  unfold writes, cache_writes; rewrite Hg;
  repeat match goal with
    | |- context [match geometry ?e with _ => _ end] =>
        destruct (geometry e) as [[? ?]|]
    end;
  reflexivity.

Lemma cache_block_written stats config cls comp name entry size assoc n :
  (comp, name, entry, n)
  ∈ [ ("L1Icache", "l1icaches", l1_entry config "l1icaches", l1i_node);
      ("L1Dcache", "l1dcaches", l1_entry config "l1dcaches", l1d_node);
      ("L2cache", "l2cache", l2_entry config, l2_node) ] →
  geometry entry = Ok (size, assoc) →
  at_component (ET.apply_writes (writes stats config cls) T) comp "param"
    "cache_size" = Some (kb_str size)
  ∧ at_component (ET.apply_writes (writes stats config cls) T) comp "param"
      "line_size" = Some (py_str cls)
  ∧ at_component (ET.apply_writes (writes stats config cls) T) comp "param"
      "associativity" = Some (py_str assoc)
  ∧ Forall (λ fk, at_component (ET.apply_writes (writes stats config cls) T)
                    comp "param" fk.1 = Some (sstr stats fk.2))
      (cache_fields name).
Proof.
  intros Hin Hg.
  apply elem_of_cons in Hin as [Hin|Hin];
    [|apply elem_of_cons in Hin as [Hin|Hin];
      [|apply list_elem_of_singleton in Hin]].
  all: injection Hin as -> -> -> ->.
  all: unfold cache_fields.
  all: split_and!; [read_cache Hg..|].
  all: repeat constructor; read_cache Hg.
Qed.

(** X13: in a run that returns, for each of the three caches whose
    configuration is found (entry 0 of the list [l1icaches] or
    [l1dcaches], the object [l2cache]), [cache_size] holds
    [str(int(size) / 1024)], [line_size] the cache line size of the board
    (64 when it has none), [associativity] the [assoc] of the entry as it
    is, and [total_accesses], [total_reads] and [total_writes] the integer
    parts of the statistics [overallAccesses::total],
    [ReadReq.accesses::total] and [WriteReq.accesses::total] of that
    cache. *)
Theorem backup_cache_fields stats config s t s' :
  create_mcpat_xml stats config s = (Ok t, s') →
  ∃ cls,
    cache_line_size config = Ok cls
    ∧ ∀ comp name entry c size assoc,
        (comp, name, entry) ∈ backup_caches config →
        entry = Ok c →
        getitem c (VStr "size") = Ok size →
        getitem c (VStr "assoc") = Ok assoc →
        ∃ z kbytes,
          py_int size = Ok z
          ∧ py_truediv (VInt z) (VInt 1024) = Ok kbytes
          ∧ at_component t comp "param" "cache_size"
            = Some (py_str (VFloat kbytes))
          ∧ at_component t comp "param" "line_size" = Some (py_str cls)
          ∧ at_component t comp "param" "associativity" = Some (py_str assoc)
          ∧ Forall (λ fk, ∃ x n,
                      get_stat_value stats fk.2 (VInt 0) = Ok x
                      ∧ py_int x = Ok n
                      ∧ at_component t comp "param" fk.1 = Some (pretty n))
              (cache_fields name).
Proof.
  intros H.
  destruct (backup_returns_converts _ _ _ _ _ H)
    as (_ & _ & Hl1i & Hl1d & Hl2 & _).
  apply backup_create_mcpat_xml_ok in H as (cls & Hcls & -> & _).
  exists cls. split; [exact Hcls|].
  intros comp name entry c size assoc Hin Hc Hs Ha.
  pose proof (geometry_found _ _ _ _ Hc Hs Ha) as Hg.
  assert (∃ n classes,
            (comp, name, entry, n)
            ∈ [ ("L1Icache", "l1icaches", l1_entry config "l1icaches", l1i_node);
                ("L1Dcache", "l1dcaches", l1_entry config "l1dcaches", l1d_node);
                ("L2cache", "l2cache", l2_entry config, l2_node) ]
            ∧ cache_converts stats entry classes name)
    as (n & classes & Hin' & Hconv).
  { unfold backup_caches in Hin.
    apply elem_of_cons in Hin as [Hin|Hin];
      [|apply elem_of_cons in Hin as [Hin|Hin];
        [|apply list_elem_of_singleton in Hin]].
    all: injection Hin as -> -> ->.
    - exists l1i_node, [KeyError; IndexError]. split; [|done].
      apply list_elem_of_here.
    - exists l1d_node, [KeyError; IndexError]. split; [|done].
      apply list_elem_of_further, list_elem_of_here.
    - exists l2_node, [KeyError]. split; [|done].
      do 2 apply list_elem_of_further. apply list_elem_of_here. }
  unfold cache_converts in Hconv. rewrite Hg in Hconv.
  destruct Hconv as [[kbytes Hkb] Hf].
  destruct (cache_block_written stats config cls _ _ _ _ _ _ Hin' Hg)
    as (Hsize & Hline & Hassoc & Hfields).
  unfold kb in Hkb. destruct (py_int size) as [z|] eqn:Hz; [|done].
  rewrite res_Ok_bind in Hkb.
  exists z, kbytes. split; [done|]. split; [done|].
  split.
  { rewrite Hsize. unfold kb_str, kb. by rewrite Hz, res_Ok_bind, Hkb. }
  split; [done|]. split; [done|].
  by apply fields_written.
Qed.

End backup_cache_blocks.

(** * Edges of [backup.create_mcpat_xml] *)
Section backup_edges.
Import Py backup backup_spec backup_exact examples.

Local Abbreviation T := mcpat_template.

Ltac eval_nodes H :=
  repeat match type of H with
    | context [ET.find_in T ?p ?tg ?nm] =>
        let r := eval vm_compute in (ET.find_in T p tg nm) in
        change (ET.find_in T p tg nm) with r in H
    | context [ET.truth_in T ?p] =>
        let r := eval vm_compute in (ET.truth_in T p) in
        change (ET.truth_in T p) with r in H
    end.

Ltac tidy H := cbv beta iota in H; eval_nodes H; cbv beta iota in H.

Lemma backup_cache_fields_witness :
  create_mcpat_xml ∅ inputs.l2_object initial
  = (Ok (returned inputs.run_l2_object), inputs.run_l2_object.2)
  ∧ at_component (returned inputs.run_l2_object) "L2cache" "param" "cache_size"
    = Some "256.0".
Proof.
  assert (create_mcpat_xml ∅ inputs.l2_object initial
          = (Ok (returned inputs.run_l2_object), inputs.run_l2_object.2)) as H
    by (vm_compute; reflexivity).
  split; [exact H|].
  destruct (backup_cache_fields _ _ _ _ _ H) as (cls & _ & Hf).
  destruct (Hf "L2cache" "l2cache" (l2_entry inputs.l2_object)
              (l1_of 262144 8) (VInt 262144) (VInt 8))
    as (z & kbytes & Hz & Hkb & Hsize & _); [|reflexivity..|].
  { unfold backup_caches. do 2 apply list_elem_of_further.
    apply list_elem_of_here. }
  injection Hz as <-. vm_compute in Hkb. injection Hkb as <-.
  exact Hsize.
Defined.

(** *** The shape of the cache hierarchy *)

Lemma l1_entry_of_hierarchy config caches :
  l1_entry config caches
  = (h ← hierarchy config; l ← getitem h (VStr caches); getitem l (VInt 0)).
Proof.
  unfold l1_entry, hierarchy.
  destruct (getitem config (VStr "board")) as [b|]; [|done].
  rewrite !res_Ok_bind. by destruct (getitem b (VStr "cache_hierarchy")).
Qed.

Lemma l2_entry_of_hierarchy config :
  l2_entry config = (h ← hierarchy config; getitem h (VStr "l2cache")).
Proof.
  unfold l2_entry, hierarchy.
  destruct (getitem config (VStr "board")) as [b|]; [|done].
  rewrite !res_Ok_bind. by destruct (getitem b (VStr "cache_hierarchy")).
Qed.

Lemma log_has_warning config e :
  geometry (l1_entry config "l1icaches") = Err e →
  l1i_warning ∈ log config.
Proof.
  intros He. unfold log, cache_log. rewrite He. apply list_elem_of_here.
Qed.

(** X14: the L1 caches must be lists and the L2 cache an object.  An L1
    cache given as one object (not a list) makes [l1icaches[0]] raise
    [KeyError], which the [try] catches: the cache is reported as not found
    and its fields keep 0.  An L2 cache given as a list makes
    [l2_config['size']] raise [TypeError], which [except KeyError] does not
    catch: the run ends with it, when nothing raised before (the statistics
    of the system and the core convert, and the blocks of the L1 caches
    return). *)
Theorem backup_cache_shapes stats config h s :
  hierarchy config = Ok h →
  (∀ d,
     getitem h (VStr "l1icaches") = Ok (VDict d) →
     l1_entry config "l1icaches" = Err (Raise KeyError "0")
     ∧ ∀ t s',
         create_mcpat_xml stats config s = (Ok t, s') →
         Forall (λ nm, at_component t "L1Icache" "param" nm = Some "0")
           cache_params
         ∧ ∃ printed, stdout s' = stdout s ++ printed
                      ∧ l1i_warning ∈ printed)
  ∧ (∀ l cls,
       getitem h (VStr "l2cache") = Ok (VList l) →
       cache_line_size config = Ok cls →
       Forall (converted stats) (system_fields ++ core_fields) →
       cache_converts stats (l1_entry config "l1icaches")
         [KeyError; IndexError] "l1icaches" →
       cache_converts stats (l1_entry config "l1dcaches")
         [KeyError; IndexError] "l1dcaches" →
       (create_mcpat_xml stats config s).1
       = Err (Raise TypeError
                "list indices must be integers or slices, not str")).
Proof.
  intros Hh. split.
  - intros d Hd.
    assert (l1_entry config "l1icaches" = Err (Raise KeyError "0")) as He
      by (by rewrite l1_entry_of_hierarchy, Hh, res_Ok_bind, Hd).
    split; [exact He|].
    intros t s' H.
    apply backup_create_mcpat_xml_ok in H as (cls & _ & -> & -> & _).
    assert (geometry (l1_entry config "l1icaches") = Err (Raise KeyError "0"))
      as Hg by (unfold geometry; by rewrite He).
    split.
    + unfold cache_params. repeat constructor.
      all: rewrite at_component_writes by apply backup_writes_valid.
      all: unfold writes, cache_writes; rewrite Hg.
      all: repeat match goal with
             | |- context [match geometry ?e with _ => _ end] =>
                 destruct (geometry e) as [[? ?]|]
             end; reflexivity.
    + exists (log config). split; [done|]. by apply (log_has_warning _ _ Hg).
  - intros l cls Hl Hcls Hf Hl1i Hl1d.
    apply Forall_app in Hf as [Hsys Hcore].
    assert (l2_entry config = Ok (VList l)) as Hl2
      by (by rewrite l2_entry_of_hierarchy, Hh, res_Ok_bind).
    unfold cache_line_size in Hcls.
    destruct (py_get config "board" (VDict [])) as [board|] eqn:Hb; [|done].
    rewrite res_Ok_bind in Hcls.
    destruct (clock_rate_mhz_ok stats) as [mhz Hmhz].
    unfold create_mcpat_xml.
    rewrite bind_run, fromstring_run. cbv beta iota.
    rewrite bind_run, lift_run, Hb. cbv beta iota.
    rewrite bind_run, lift_run, Hcls. cbv beta iota.
    rewrite bind_run, find_run.
    change (ET.find_in T [] "component" "system") with system_node.
    cbv beta iota.
    rewrite bind_run, (backup_system_parameters_exact _ mhz) by done.
    cbv beta iota.
    rewrite bind_run, find_run.
    change (ET.find_in T [] "component" "core") with core_node.
    cbv beta iota.
    rewrite bind_run, (backup_core_parameters_exact _ mhz) by done.
    cbv beta iota.
    rewrite bind_run, find_run.
    change (ET.find_in T [] "component" "L1Icache") with l1i_node.
    cbv beta iota.
    rewrite bind_run, l1i_parameters_exact by done.
    cbv beta iota.
    rewrite bind_run, find_run.
    change (ET.find_in T [] "component" "L1Dcache") with l1d_node.
    cbv beta iota.
    rewrite bind_run, l1d_parameters_exact by done.
    cbv beta iota.
    rewrite bind_run, find_run. cbv beta iota.
    rewrite bind_run.
    match goal with
    | |- context [l2_parameters ?a ?b ?c ?d ?e] =>
        destruct (l2_parameters a b c d e) as [r2 s2] eqn:H2
    end.
    unfold l2_parameters in H2. tidy H2.
    rewrite bind_run, truth_run in H2. tidy H2.
    unfold try_except, cache_body in H2.
    rewrite bind_run, lift_run, Hl2 in H2. cbv beta iota in H2.
    rewrite bind_run, lift_run in H2. cbn [getitem index_of] in H2.
    unfold Py.raise in H2. cbv beta iota in H2.
    rewrite bool_decide_eq_false_2 in H2.
    2:{ simpl. rewrite list_elem_of_singleton. done. }
    by injection H2 as <- <-.
Qed.

Lemma empty_table_converted fields :
  Forall (converted (∅ : stat_table)) fields.
Proof.
  apply Forall_forall. intros fk _. apply finite_integral.
  intros k text f Hk. by rewrite lookup_empty in Hk.
Qed.

Lemma backup_cache_shapes_witness :
  l1_entry inputs.l1i_object "l1icaches" = Err (Raise KeyError "0")
  ∧ (create_mcpat_xml ∅ inputs.l2_list initial).1
    = Err (Raise TypeError "list indices must be integers or slices, not str").
Proof.
  split.
  - destruct (backup_cache_shapes ∅ inputs.l1i_object
                (VDict [("l1icaches", l1_of 32768 8)]) initial eq_refl)
      as [Hl1 _].
    exact (proj1 (Hl1 _ eq_refl)).
  - destruct (backup_cache_shapes ∅ inputs.l2_list
                (VDict [("l2cache", VList [l1_of 262144 8])]) initial eq_refl)
      as [_ Hl2].
    apply (Hl2 [l1_of 262144 8] (VInt 64) eq_refl eq_refl).
    + apply empty_table_converted.
    + unfold cache_converts. simpl. apply list_elem_of_here.
    + unfold cache_converts. simpl. apply list_elem_of_here.
Defined.

(** *** What a run leaves as the template has it *)

Lemma backup_writes_assigned stats config cls :
  forallb (λ w : ET.path * string, assigned_in T backup_assigned w.1)
    (writes stats config cls) = true.
Proof.
  unfold writes, cache_writes.
  destruct (geometry (l1_entry config "l1icaches")) as [[? ?]|],
    (geometry (l1_entry config "l1dcaches")) as [[? ?]|],
    (geometry (l2_entry config)) as [[? ?]|]; reflexivity.
Qed.

(** X15: a run of [create_mcpat_xml] that returns has changed nothing of
    the template but [value] attributes, and those of the fields of
    [backup_assigned] only: every other field reads as in the template (the
    [read_accesses] and [write_accesses] of the caches stay 0), whatever the
    statistics and the configuration hold. *)
Theorem backup_other_fields_keep_template stats config s t s' :
  create_mcpat_xml stats config s = (Ok t, s') →
  ET.skeleton t = ET.skeleton mcpat_template
  ∧ (∀ q, assigned_in mcpat_template backup_assigned q = false →
       ET.value_at t q = ET.value_at mcpat_template q)
  ∧ (∀ name tg nm,
       (∀ q, field_path mcpat_template (name, tg, nm) = Some q →
          assigned_in mcpat_template backup_assigned q = false) →
       at_component t name tg nm = at_component mcpat_template name tg nm).
Proof.
  intros H.
  apply backup_create_mcpat_xml_ok in H as (cls & _ & -> & _).
  apply writes_keep_template;
    [apply backup_writes_valid|apply backup_writes_assigned].
Qed.

Lemma backup_other_fields_keep_template_witness :
  create_mcpat_xml ∅ inputs.l2_object initial
  = (Ok (returned inputs.run_l2_object), inputs.run_l2_object.2)
  ∧ at_component (returned inputs.run_l2_object) "L2cache" "param" "read_accesses"
    = Some "0".
Proof.
  assert (create_mcpat_xml ∅ inputs.l2_object initial
          = (Ok (returned inputs.run_l2_object), inputs.run_l2_object.2)) as H
    by (vm_compute; reflexivity).
  split; [exact H|].
  destruct (backup_other_fields_keep_template _ _ _ _ _ H) as (_ & _ & Hf).
  rewrite Hf; [vm_compute; reflexivity|].
  intros q Hq. vm_compute in Hq. injection Hq as <-. vm_compute. reflexivity.
Defined.

(** *** Value tokens that are not numbers *)

Lemma unreadable_sint (stats : stat_table) key tok :
  stats !! key = Some tok → float_of_string tok = None →
  get_stat_value stats key (VInt 0) = Ok (VInt 0)
  ∧ sstr stats key = "0".
Proof.
  intros Hk Hf. split.
  - unfold get_stat_value. rewrite Hk. cbv zeta. unfold py_float. rewrite Hf.
    reflexivity.
  - unfold sstr, sint, stat_val. by rewrite Hk, Hf.
Qed.

Lemma non_finite_sint (stats : stat_table) fk tok f :
  stats !! fk.2 = Some tok → float_of_string tok = Some f →
  Float.is_finite f = false → ¬ converted stats fk.
Proof.
  intros Hk Hf Hfin [v Hv]. unfold sint, stat_val in Hv.
  rewrite Hk, Hf in Hv. by destruct f.
Qed.

(** X16: [get_stat_value] returns the default, as it is and without a
    word, for a value token that [float] does not read: the field of a
    system or core statistic with such a token holds 0 in a run that
    returns.  A token that [float] reads as an infinity or a NaN ([inf],
    [nan], [1e999]) is not replaced: [int] raises on it outside the [try] of
    [get_stat_value], and no run returns. *)
Theorem backup_value_tokens stats config s comp fk tok :
  (comp = "system" ∧ fk ∈ system_fields ∨ comp = "core" ∧ fk ∈ core_fields) →
  stats !! fk.2 = Some tok →
  (float_of_string tok = None →
   get_stat_value stats fk.2 (VInt 0) = Ok (VInt 0)
   ∧ ∀ t s',
       create_mcpat_xml stats config s = (Ok t, s') →
       at_component t comp "param" fk.1 = Some "0")
  ∧ (∀ f,
       float_of_string tok = Some f → Float.is_finite f = false →
       ∃ e s', create_mcpat_xml stats config s = (Err e, s')).
Proof.
  intros Hin Hk. split.
  - intros Hf. destruct (unreadable_sint stats _ _ Hk Hf) as [Hg Hs].
    split; [exact Hg|]. intros t s' H.
    apply backup_create_mcpat_xml_ok in H as (cls & _ & -> & _).
    destruct Hin as [[-> Hin]|[-> Hin]].
    + pose proof (system_fields_read stats config cls) as Hr.
      rewrite Forall_forall in Hr. by rewrite (Hr fk Hin), Hs.
    + pose proof (core_fields_read stats config cls) as Hr.
      rewrite Forall_forall in Hr. by rewrite (Hr fk Hin), Hs.
  - intros f Hf Hfin.
    destruct (create_mcpat_xml stats config s) as [[t|e] s'] eqn:H;
      [exfalso|by exists e, s'].
    destruct (backup_returns_converts _ _ _ _ _ H) as (_ & Hc & _).
    rewrite Forall_forall in Hc.
    apply (non_finite_sint stats fk tok f Hk Hf Hfin), Hc.
    apply elem_of_app. destruct Hin as [[_ Hin]|[_ Hin]]; [by left|by right].
Qed.

Lemma backup_value_tokens_witness :
  (create_mcpat_xml inputs.unreadable_insts (VDict []) initial
   = (Ok (returned inputs.run_unreadable_insts), inputs.run_unreadable_insts.2)
   ∧ at_component (returned inputs.run_unreadable_insts) "core" "param"
       "total_inst" = Some "0")
  ∧ ∃ e s', create_mcpat_xml inputs.nan_insts (VDict []) initial = (Err e, s').
Proof.
  assert (("total_inst", "simInsts") ∈ core_fields) as Hin
    by apply list_elem_of_here.
  split.
  - assert (create_mcpat_xml inputs.unreadable_insts (VDict []) initial
            = (Ok (returned inputs.run_unreadable_insts),
               inputs.run_unreadable_insts.2)) as H by (vm_compute; reflexivity).
    split; [exact H|].
    destruct (backup_value_tokens inputs.unreadable_insts (VDict []) initial
                "core" ("total_inst", "simInsts") "n/a"
                (or_intror (conj eq_refl Hin)))
      as [Hun _]; [vm_compute; reflexivity|].
    destruct Hun as [_ Hun]; [vm_compute; reflexivity|].
    exact (Hun _ _ H).
  - destruct (backup_value_tokens inputs.nan_insts (VDict []) initial
                "core" ("total_inst", "simInsts") "nan"
                (or_intror (conj eq_refl Hin)))
      as [_ Hnan]; [vm_compute; reflexivity|].
    apply (Hnan S754_nan); [vm_compute; reflexivity|reflexivity].
Defined.

(** *** A configuration that is not a dictionary *)

(** X19: [parse_config] returns what [json.load] read, as it is: a list
    is not unwrapped.  [create_mcpat_xml] then raises [AttributeError] at
    its first [config.get], after the template was parsed, for every
    configuration that is not a dictionary, and likewise for a [board] that
    is not one. *)
Theorem backup_config_not_unwrapped fs config_file stats s v :
  json_load fs config_file = Ok v →
  parse_config fs config_file = Ok v
  ∧ (isinstance_dict v = false →
     create_mcpat_xml stats v s
     = (Err (Raise AttributeError
               ("'" +:+ type_name v +:+ "' object has no attribute 'get'")),
        State mcpat_template (stdout s)))
  ∧ (∀ d b,
       v = VDict d → dict_lookup d "board" = Some b →
       isinstance_dict b = false →
       create_mcpat_xml stats v s
       = (Err (Raise AttributeError
                 ("'" +:+ type_name b +:+ "' object has no attribute 'get'")),
          State mcpat_template (stdout s))).
Proof.
  intros Hj. split; [exact Hj|]. split.
  - intros Hv. unfold create_mcpat_xml.
    rewrite bind_run. unfold fromstring. cbv beta iota.
    rewrite bind_run, lift_run. by destruct v.
  - intros d b -> Hb Hnd. unfold create_mcpat_xml.
    rewrite bind_run. unfold fromstring. cbv beta iota.
    rewrite bind_run, lift_run. cbn [py_get]. rewrite Hb. cbv beta iota.
    rewrite bind_run, lift_run. by destruct b.
Qed.

Lemma backup_config_not_unwrapped_witness :
  parse_config (inputs.with_files [] (VList [VDict []])) "config.json"
  = Ok (VList [VDict []])
  ∧ create_mcpat_xml ∅ (VList [VDict []]) initial
    = (Err (Raise AttributeError "'list' object has no attribute 'get'"),
       State mcpat_template []).
Proof.
  destruct (backup_config_not_unwrapped
              (inputs.with_files [] (VList [VDict []])) "config.json" ∅ initial
              (VList [VDict []]) eq_refl) as (Hp & Hl & _).
  split; [exact Hp|]. exact (Hl eq_refl).
Defined.

End backup_edges.

(** * Whole runs: a fresh template each time, and the drivers *)
Section whole_runs.
Import Py examples.

(** X17: a run of [create_mcpat_xml] starts from a freshly parsed
    template: the tree it returns is the tree it leaves, and neither that
    tree nor the lines the run prints depend on the state it starts in, so
    that a second run on the same inputs returns the same tree and prints
    the same lines again. *)
Theorem runs_start_afresh stats stats' config s t s' :
  (custom_converter.create_mcpat_xml stats config s = (Ok t, s') →
   ∃ printed,
     s' = State t (stdout s ++ printed)
     ∧ ∀ s2, custom_converter.create_mcpat_xml stats config s2
             = (Ok t, State t (stdout s2 ++ printed)))
  ∧ (backup.create_mcpat_xml stats' config s = (Ok t, s') →
     ∃ printed,
       s' = State t (stdout s ++ printed)
       ∧ ∀ s2, backup.create_mcpat_xml stats' config s2
               = (Ok t, State t (stdout s2 ++ printed))).
Proof.
  split; intros H.
  - pose proof (custom_returns_converts _ _ _ _ _ H)
      as (cfg' & cls' & n' & Hcfg' & Hcls' & Hn' & Hint & Hgeo).
    apply custom_create_mcpat_xml_ok in H
      as (cfg & cls & n & Hcfg & Hcls & Hn & -> & -> & _).
    rewrite Hcfg in Hcfg'. injection Hcfg' as <-.
    rewrite Hcls in Hcls'. injection Hcls' as <-.
    rewrite Hn in Hn'. injection Hn' as <-.
    exists (custom_spec.log stats cfg cls n). split; [done|].
    intros s2. by apply custom_create_mcpat_xml_returns.
  - pose proof (backup_returns_converts _ _ _ _ _ H) as Hc.
    apply backup_create_mcpat_xml_ok in H as (cls & Hcls & -> & -> & _).
    exists (backup_spec.log config). split; [done|].
    intros s2. by apply backup_converts_returns_exact.
Qed.

Lemma runs_start_afresh_witness :
  custom_converter.create_mcpat_xml five_cycles (cores [VDict []]) run_one_core.2
  = (Ok (returned run_one_core),
     State (returned run_one_core)
       (stdout run_one_core.2 ++ stdout run_one_core.2)).
Proof.
  assert (custom_converter.create_mcpat_xml five_cycles (cores [VDict []])
            initial
          = (Ok (returned run_one_core), run_one_core.2)) as H
    by (vm_compute; reflexivity).
  destruct (proj1 (runs_start_afresh five_cycles ∅ _ _ _ _) H)
    as (printed & Hs & Hrun).
  assert (printed = stdout run_one_core.2) as ->.
  { apply (f_equal stdout) in Hs. simpl in Hs. exact (eq_sym Hs). }
  apply Hrun.
Defined.

(** ** The drivers *)

(** What the body of the driver's [try] does, stage by stage. *)
Lemma custom_conversion_stages fs stats_file config_file :
  custom_converter.conversion fs stats_file config_file initial
  = match custom_converter.parse_stats fs stats_file with
    | Err e => (Err e, initial)
    | Ok stats =>
        match custom_converter.parse_config fs config_file with
        | Err e => (Err e, initial)
        | Ok config =>
            match custom_converter.create_mcpat_xml stats config initial with
            | (Err e, s) => (Err e, s)
            | (Ok xml, s) =>
                match open_w fs "mcpat_output.xml" with
                | Err e => (Err e, s)
                | Ok _ =>
                    match write_text fs "mcpat_output.xml" xml with
                    | Err e => (Err e, s)
                    | Ok _ =>
                        (Ok xml,
                         State (root s)
                           (stdout s ++
                              ["mcpat_output.xml created successfully."]))
                    end
                end
            end
        end
    end.
Proof.
  unfold custom_converter.conversion.
  rewrite bind_run, lift_run.
  destruct (custom_converter.parse_stats fs stats_file) as [stats|e]; [|done].
  cbv beta iota. rewrite bind_run, lift_run.
  destruct (custom_converter.parse_config fs config_file) as [config|e];
    [|done].
  cbv beta iota. rewrite bind_run.
  destruct (custom_converter.create_mcpat_xml stats config initial)
    as [[t|e] s]; [|done].
  rewrite bind_run, lift_run.
  destruct (open_w fs "mcpat_output.xml") as [[]|e]; [|done].
  cbv beta iota. rewrite bind_run, lift_run.
  destruct (write_text fs "mcpat_output.xml" t) as [[]|e]; [|done].
  cbv beta iota. rewrite bind_run. destruct s as [r out].
  by rewrite print_run, ret_run.
Qed.

Lemma backup_conversion_stages fs stats_file config_file :
  backup.conversion fs stats_file config_file initial
  = match backup.parse_stats fs stats_file with
    | Err e => (Err e, initial)
    | Ok stats =>
        match backup.parse_config fs config_file with
        | Err e => (Err e, initial)
        | Ok config =>
            match backup.create_mcpat_xml stats config initial with
            | (Err e, s) => (Err e, s)
            | (Ok xml, s) =>
                match open_w fs "mcpat_output.xml" with
                | Err e => (Err e, s)
                | Ok _ =>
                    match write_text fs "mcpat_output.xml" xml with
                    | Err e => (Err e, s)
                    | Ok _ =>
                        (Ok xml,
                         State (root s)
                           (stdout s ++
                              ["Successfully generated mcpat_output.xml"]))
                    end
                end
            end
        end
    end.
Proof.
  unfold backup.conversion.
  rewrite bind_run, lift_run.
  destruct (backup.parse_stats fs stats_file) as [stats|e]; [|done].
  cbv beta iota. rewrite bind_run, lift_run.
  destruct (backup.parse_config fs config_file) as [config|e]; [|done].
  cbv beta iota. rewrite bind_run.
  destruct (backup.create_mcpat_xml stats config initial)
    as [[t|e] s]; [|done].
  rewrite bind_run, lift_run.
  destruct (open_w fs "mcpat_output.xml") as [[]|e]; [|done].
  cbv beta iota. rewrite bind_run, lift_run.
  destruct (write_text fs "mcpat_output.xml" t) as [[]|e]; [|done].
  cbv beta iota. rewrite bind_run. destruct s as [r out].
  by rewrite print_run, ret_run.
Qed.

(** The stages before the output file is opened see the file system through
    [read_lines] and [json_load] only. *)
Lemma parse_stages_same fs fs' stats_file config_file :
  read_lines fs' = read_lines fs → json_load fs' = json_load fs →
  custom_converter.parse_stats fs' stats_file
  = custom_converter.parse_stats fs stats_file
  ∧ custom_converter.parse_config fs' config_file
    = custom_converter.parse_config fs config_file
  ∧ backup.parse_stats fs' stats_file = backup.parse_stats fs stats_file
  ∧ backup.parse_config fs' config_file = backup.parse_config fs config_file.
Proof.
  intros Hr Hj.
  unfold custom_converter.parse_stats, custom_converter.parse_config,
    backup.parse_stats, backup.parse_config.
  by rewrite Hr, Hj.
Qed.

(** X18: the driver has written the text into [mcpat_output.xml], and
    prints the line that reports it, exactly when it was given two file
    arguments and the five steps succeed in turn: the statistics and the
    configuration are read, [create_mcpat_xml] returns, the output file is
    opened for writing and the text is written.  Then the success line is
    the last line printed, nothing goes to the standard error and the
    status is 0.  When one of the first three steps raises, the output
    file is not opened: the driver does the same whatever opening and
    writing would have done.  When opening the file raises, or when the
    file was opened (created or emptied) and writing into it raises, the
    exception is reported like any other (on the standard error in
    [custom_converter.py], on the standard output in [backup.py]), the
    success line is not added and the status is 0. *)
Theorem output_file_written fs argv :
  (∀ name xml,
     written (custom_converter.main fs argv) = Some (name, xml)
     ↔ ∃ prog stats_file config_file stats config s,
         argv = [prog; stats_file; config_file]
         ∧ custom_converter.parse_stats fs stats_file = Ok stats
         ∧ custom_converter.parse_config fs config_file = Ok config
         ∧ custom_converter.create_mcpat_xml stats config initial = (Ok xml, s)
         ∧ open_w fs "mcpat_output.xml" = Ok tt
         ∧ write_text fs "mcpat_output.xml" xml = Ok tt
         ∧ name = "mcpat_output.xml")
  ∧ (∀ name xml,
       written (backup.main fs argv) = Some (name, xml)
       ↔ ∃ prog stats_file config_file stats config s,
           argv = [prog; stats_file; config_file]
           ∧ backup.parse_stats fs stats_file = Ok stats
           ∧ backup.parse_config fs config_file = Ok config
           ∧ backup.create_mcpat_xml stats config initial = (Ok xml, s)
           ∧ open_w fs "mcpat_output.xml" = Ok tt
           ∧ write_text fs "mcpat_output.xml" xml = Ok tt
           ∧ name = "mcpat_output.xml")
  ∧ (∀ prog stats_file config_file stats config xml s,
       argv = [prog; stats_file; config_file] →
       custom_converter.parse_stats fs stats_file = Ok stats →
       custom_converter.parse_config fs config_file = Ok config →
       custom_converter.create_mcpat_xml stats config initial = (Ok xml, s) →
       custom_converter.main fs argv
       = match open_w fs "mcpat_output.xml" with
         | Err e =>
             Outcome 0 (stdout s) ["An error occurred: " +:+ exn_msg e] None
         | Ok _ =>
             match write_text fs "mcpat_output.xml" xml with
             | Err e =>
                 Outcome 0 (stdout s) ["An error occurred: " +:+ exn_msg e]
                   None
             | Ok _ =>
                 Outcome 0
                   (stdout s ++ ["mcpat_output.xml created successfully."])
                   [] (Some ("mcpat_output.xml", xml))
             end
         end)
  ∧ (∀ prog stats_file config_file stats config xml s,
       argv = [prog; stats_file; config_file] →
       backup.parse_stats fs stats_file = Ok stats →
       backup.parse_config fs config_file = Ok config →
       backup.create_mcpat_xml stats config initial = (Ok xml, s) →
       backup.main fs argv
       = match open_w fs "mcpat_output.xml" with
         | Err e =>
             Outcome 0
               (stdout s ++
                  [if bool_decide (exn_cls e = FileNotFoundError)
                   then "Error: One or both of the files could not be found."
                   else "An unexpected error occurred: " +:+ exn_msg e])
               [] None
         | Ok _ =>
             match write_text fs "mcpat_output.xml" xml with
             | Err e =>
                 Outcome 0
                   (stdout s ++
                      [if bool_decide (exn_cls e = FileNotFoundError)
                       then "Error: One or both of the files could not be found."
                       else "An unexpected error occurred: " +:+ exn_msg e])
                   [] None
             | Ok _ =>
                 Outcome 0
                   (stdout s ++ ["Successfully generated mcpat_output.xml"])
                   [] (Some ("mcpat_output.xml", xml))
             end
         end)
  ∧ (∀ fs',
       read_lines fs' = read_lines fs → json_load fs' = json_load fs →
       (∀ prog stats_file config_file stats config,
          argv = [prog; stats_file; config_file] →
          custom_converter.parse_stats fs stats_file = Ok stats →
          custom_converter.parse_config fs config_file = Ok config →
          ∃ e s, custom_converter.create_mcpat_xml stats config initial
                 = (Err e, s)) →
       custom_converter.main fs' argv = custom_converter.main fs argv
       ∧ written (custom_converter.main fs argv) = None)
  ∧ (∀ fs',
       read_lines fs' = read_lines fs → json_load fs' = json_load fs →
       (∀ prog stats_file config_file stats config,
          argv = [prog; stats_file; config_file] →
          backup.parse_stats fs stats_file = Ok stats →
          backup.parse_config fs config_file = Ok config →
          ∃ e s, backup.create_mcpat_xml stats config initial = (Err e, s)) →
       backup.main fs' argv = backup.main fs argv
       ∧ written (backup.main fs argv) = None).
Proof.
  split_and!.
  - intros name xml. unfold custom_converter.main.
    destruct argv as [|prog [|sf [|cf [|]]]];
      try (split; [done|by intros (? & ? & ? & ? & ? & ? & ? & _)]).
    rewrite custom_conversion_stages.
    destruct (custom_converter.parse_stats fs sf) as [stats|e] eqn:Hs.
    2:{ split; [done|].
        intros (? & ? & ? & ? & ? & ? & [= <- <- <-] & Hs' & _).
        by rewrite Hs in Hs'. }
    destruct (custom_converter.parse_config fs cf) as [config|e] eqn:Hc.
    2:{ split; [done|].
        intros (? & ? & ? & ? & ? & ? & [= <- <- <-] & _ & Hc' & _).
        by rewrite Hc in Hc'. }
    destruct (custom_converter.create_mcpat_xml stats config initial)
      as [[t|e] s] eqn:Hrun.
    2:{ split; [done|].
        intros (? & ? & ? & ? & ? & ? & [= <- <- <-] & Hs' & Hc' & Hr & _).
        rewrite Hs in Hs'. injection Hs' as <-.
        rewrite Hc in Hc'. injection Hc' as <-. by rewrite Hrun in Hr. }
    destruct (open_w fs "mcpat_output.xml") as [[]|e] eqn:Ho.
    2:{ split; [done|]. by intros (? & ? & ? & ? & ? & ? & _ & _ & _ & _ & ? & _). }
    destruct (write_text fs "mcpat_output.xml" t) as [[]|e] eqn:Hw.
    2:{ split; [done|].
        intros (? & ? & ? & ? & ? & ? & [= <- <- <-] & Hs' & Hc' & Hr & _ & Hw' & _).
        rewrite Hs in Hs'. injection Hs' as <-.
        rewrite Hc in Hc'. injection Hc' as <-.
        rewrite Hrun in Hr. injection Hr as <- <-. by rewrite Hw in Hw'. }
    cbn [written]. split.
    + intros [= <- <-]. by exists prog, sf, cf, stats, config, s.
    + intros (? & ? & ? & ? & ? & ? & [= <- <- <-] & Hs' & Hc' & Hr & _ & _ & ->).
      rewrite Hs in Hs'. injection Hs' as <-.
      rewrite Hc in Hc'. injection Hc' as <-.
      rewrite Hrun in Hr. by injection Hr as <- <-.
  - intros name xml. unfold backup.main.
    destruct argv as [|prog [|sf [|cf [|]]]];
      try (split; [done|by intros (? & ? & ? & ? & ? & ? & ? & _)]).
    rewrite backup_conversion_stages.
    destruct (backup.parse_stats fs sf) as [stats|e] eqn:Hs.
    2:{ split; [done|].
        intros (? & ? & ? & ? & ? & ? & [= <- <- <-] & Hs' & _).
        by rewrite Hs in Hs'. }
    destruct (backup.parse_config fs cf) as [config|e] eqn:Hc.
    2:{ split; [done|].
        intros (? & ? & ? & ? & ? & ? & [= <- <- <-] & _ & Hc' & _).
        by rewrite Hc in Hc'. }
    destruct (backup.create_mcpat_xml stats config initial)
      as [[t|e] s] eqn:Hrun.
    2:{ split; [done|].
        intros (? & ? & ? & ? & ? & ? & [= <- <- <-] & Hs' & Hc' & Hr & _).
        rewrite Hs in Hs'. injection Hs' as <-.
        rewrite Hc in Hc'. injection Hc' as <-. by rewrite Hrun in Hr. }
    destruct (open_w fs "mcpat_output.xml") as [[]|e] eqn:Ho.
    2:{ split; [done|]. by intros (? & ? & ? & ? & ? & ? & _ & _ & _ & _ & ? & _). }
    destruct (write_text fs "mcpat_output.xml" t) as [[]|e] eqn:Hw.
    2:{ split; [done|].
        intros (? & ? & ? & ? & ? & ? & [= <- <- <-] & Hs' & Hc' & Hr & _ & Hw' & _).
        rewrite Hs in Hs'. injection Hs' as <-.
        rewrite Hc in Hc'. injection Hc' as <-.
        rewrite Hrun in Hr. injection Hr as <- <-. by rewrite Hw in Hw'. }
    cbn [written]. split.
    + intros [= <- <-]. by exists prog, sf, cf, stats, config, s.
    + intros (? & ? & ? & ? & ? & ? & [= <- <- <-] & Hs' & Hc' & Hr & _ & _ & ->).
      rewrite Hs in Hs'. injection Hs' as <-.
      rewrite Hc in Hc'. injection Hc' as <-.
      rewrite Hrun in Hr. by injection Hr as <- <-.
  - intros prog sf cf stats config xml s -> Hs Hc Hrun.
    unfold custom_converter.main.
    rewrite custom_conversion_stages, Hs, Hc, Hrun.
    destruct (open_w fs "mcpat_output.xml") as [[]|e]; [|done].
    by destruct (write_text fs "mcpat_output.xml" xml) as [[]|e].
  - intros prog sf cf stats config xml s -> Hs Hc Hrun.
    unfold backup.main.
    rewrite backup_conversion_stages, Hs, Hc, Hrun.
    destruct (open_w fs "mcpat_output.xml") as [[]|e]; [|done].
    by destruct (write_text fs "mcpat_output.xml" xml) as [[]|e].
  - intros fs' Hr Hj Hfail. unfold custom_converter.main.
    destruct argv as [|prog [|sf [|cf [|]]]]; try done.
    rewrite !custom_conversion_stages.
    destruct (parse_stages_same fs fs' sf cf Hr Hj) as (-> & -> & _).
    destruct (custom_converter.parse_stats fs sf) as [stats|e] eqn:Hs; [|done].
    destruct (custom_converter.parse_config fs cf) as [config|e] eqn:Hc;
      [|done].
    destruct (Hfail _ _ _ _ _ eq_refl Hs Hc) as (e & s & ->). done.
  - intros fs' Hr Hj Hfail. unfold backup.main.
    destruct argv as [|prog [|sf [|cf [|]]]]; try done.
    rewrite !backup_conversion_stages.
    destruct (parse_stages_same fs fs' sf cf Hr Hj) as (_ & _ & -> & ->).
    destruct (backup.parse_stats fs sf) as [stats|e] eqn:Hs; [|done].
    destruct (backup.parse_config fs cf) as [config|e] eqn:Hc; [|done].
    destruct (Hfail _ _ _ _ _ eq_refl Hs Hc) as (e & s & ->). done.
Qed.

(** With both input files read and an output file that opens and takes the
    text, the driver of [backup.py] reports the success last. *)
Lemma output_file_written_witness :
  backup.create_mcpat_xml ∅ (VDict []) initial
  = (Ok (returned run_no_caches), run_no_caches.2)
  ∧ backup.main (inputs.with_files [] (VDict []))
      ["prog"; "stats.txt"; "config.json"]
    = Outcome 0
        (stdout run_no_caches.2 ++ ["Successfully generated mcpat_output.xml"])
        [] (Some ("mcpat_output.xml", returned run_no_caches)).
Proof.
  assert (backup.create_mcpat_xml ∅ (VDict []) initial
          = (Ok (returned run_no_caches), run_no_caches.2)) as H
    by (vm_compute; reflexivity).
  split; [exact H|].
  exact (proj1 (proj2 (proj2 (proj2
           (output_file_written (inputs.with_files [] (VDict []))
              ["prog"; "stats.txt"; "config.json"]))))
           "prog" "stats.txt" "config.json" ∅ (VDict []) _ _
           eq_refl eq_refl eq_refl H).
Defined.

End whole_runs.

(** * What the converters print *)
Section warnings.
Import Py examples.

Lemma stat_warnings_missing (stats : custom_converter.stat_table) key default :
  stats !! key = None →
  Forall (λ a, stats !! a = None) (custom_converter.aliases key) →
  custom_spec.stat_warnings stats key default
  = [custom_converter.warning key default].
Proof.
  intros Hk Ha. unfold custom_spec.stat_warnings.
  by rewrite Hk, first_present_none.
Qed.

Ltac find_line :=
  first
    [ solve [apply list_elem_of_here]
    | solve [apply elem_of_app; left; find_line]
    | solve [apply elem_of_app; right; find_line] ].

Lemma custom_missing_reported stats cfg cls n :
  Forall (λ kd : string * value,
            stats !! kd.1 = None →
            Forall (λ a, stats !! a = None) (custom_converter.aliases kd.1) →
            custom_converter.warning kd.1 kd.2
            ∈ custom_spec.log stats cfg cls n)
    (custom_statistics n).
Proof.
  unfold custom_statistics, custom_spec.log, custom_spec.system_log,
    custom_spec.core_log, custom_spec.l2_log.
  destruct n; cbn [custom_spec.core_keys map concat app].
  all: repeat (apply Forall_cons; split;
         [cbn [fst snd]; intros Hk Ha;
          rewrite (stat_warnings_missing _ _ _ Hk Ha); find_line|]).
  all: apply Forall_nil; exact I.
Qed.

(** X20: in a run of [custom_converter.create_mcpat_xml] that returns,
    every statistic the run asks for that the table has under neither its
    name nor an alternate name is reported by its warning line (and takes
    its default).  In a run of [backup.create_mcpat_xml] that returns, the
    only lines printed are the warnings of the three caches: a statistic
    that is not in the table takes its default and nothing reports it. *)
Theorem missing_statistics_reported stats stats' config s t s' :
  (custom_converter.create_mcpat_xml stats config s = (Ok t, s') →
   ∃ cfg n printed,
     custom_converter.unwrap_config config = Ok cfg
     ∧ custom_converter.core_count cfg = Ok n
     ∧ stdout s' = stdout s ++ printed
     ∧ Forall (λ kd : string * value,
                 stats !! kd.1 = None →
                 Forall (λ a, stats !! a = None)
                   (custom_converter.aliases kd.1) →
                 custom_converter.warning kd.1 kd.2 ∈ printed)
         (custom_statistics n))
  ∧ (backup.create_mcpat_xml stats' config s = (Ok t, s') →
     ∃ printed,
       stdout s' = stdout s ++ printed
       ∧ Forall (λ line,
                   line ∈ [ "Warning: Could not find L1I cache config. Defaulting to 0.";
                            "Warning: Could not find L1D cache config. Defaulting to 0.";
                            "Warning: Could not find L2 cache config. Defaulting to 0." ])
           printed).
Proof.
  split; intros H.
  - apply custom_create_mcpat_xml_ok in H
      as (cfg & cls & n & Hcfg & _ & Hn & _ & -> & _).
    exists cfg, n, (custom_spec.log stats cfg cls n).
    split_and!; [done..|]. apply custom_missing_reported.
  - apply backup_create_mcpat_xml_ok in H as (cls & _ & _ & -> & _).
    exists (backup_spec.log config). split; [done|].
    apply backup_log_warnings.
Qed.

(** With an empty table and no cache in the configuration, the run of
    [backup.py] prints warnings of the caches and nothing else. *)
Lemma missing_statistics_reported_witness :
  backup.create_mcpat_xml ∅ (VDict []) initial
  = (Ok (returned run_no_caches), run_no_caches.2)
  ∧ Forall (λ line,
              line ∈ [ "Warning: Could not find L1I cache config. Defaulting to 0.";
                       "Warning: Could not find L1D cache config. Defaulting to 0.";
                       "Warning: Could not find L2 cache config. Defaulting to 0." ])
      (stdout run_no_caches.2).
Proof.
  assert (backup.create_mcpat_xml ∅ (VDict []) initial
          = (Ok (returned run_no_caches), run_no_caches.2)) as H
    by (vm_compute; reflexivity).
  split; [exact H|].
  destruct (proj2 (missing_statistics_reported ∅ ∅ _ _ _ _) H)
    as (printed & Hs & Hp).
  simpl in Hs. rewrite Hs. exact Hp.
Defined.

End warnings.
